(** * Energy token ledger and sealed-bid auction chaincode

    A shallow embedding of the Go chaincode: the token ledger with its
    holds and allowances, the mint/burn order table, and the sealed-bid
    auction, followed by the properties of each.

    The host platform (world state, client identity, clock, events) is the
    part the chaincode consumes; it is modelled by [Context] and [Stub].
    Every chaincode function is a state transformer over the stub that
    answers a value or an error; [invoke] runs one as a transaction.

    Conventions of the embedding:
    - the [err] of [GetState], [GetID], [GetMSPID], [GetTxTimestamp] and
      [json.Marshal] reports a failure of the host or is impossible for the
      values at hand; those branches are left out, every other branch of
      the source is kept, with its message;
    - [log.Printf] calls have no effect on the ledger and are left out;
    - package-level functions keep their names; methods of [SmartContract]
      live in the module [SmartContract]. *)

From Stdlib Require Import ZArith Lia Ascii String.
From stdpp Require Import gmap strings list fin_maps.

Local Open Scope string_scope.
Local Open Scope Z_scope.

(** ** Go's [int]

    On the 64-bit targets chaincode is built for, [int] is a 64-bit two's
    complement integer: [+], [-] and [*] wrap around silently. *)

Definition int_min : Z := - 2 ^ 63.
Definition int_max : Z := 2 ^ 63 - 1.

Definition is_int (z : Z) : Prop := int_min ≤ z ≤ int_max.

Definition wrap (z : Z) : Z := (z + 2 ^ 63) `mod` 2 ^ 64 - 2 ^ 63.

Definition int_add (a b : Z) : Z := wrap (a + b).
Definition int_sub (a b : Z) : Z := wrap (a - b).
Definition int_mul (a b : Z) : Z := wrap (a * b).

(** [strconv.Atoi] answers the nearest representable integer (and an error
    the chaincode drops) when the digits denote a number out of range. *)
Definition clamp (z : Z) : Z := Z.max int_min (Z.min int_max z).

(** ** Errors

    An [error] is its message.  [%v] and [%s] verbs are rendered by
    concatenation; a nil error printed with [%v] shows as [<nil>]. *)

Definition error : Type := string.

Inductive result (A : Type) : Type :=
| Ok (a : A)
| Err (e : error).
Arguments Ok {A} a.
Arguments Err {A} e.

(** ** Records of the chaincode *)

Module St_am.
Record t : Type := mk { MintBurn : string; Amount : Z; State : string }.
  (** The zero value a Go map lookup yields for an absent key. *)
Definition zero : t := mk "" 0 "".
End St_am.

Module MintBurn.
  (** [State] is a Go map: [None] is the nil map (readable, not writable). *)
Record t : Type := mk { State : option (gmap string St_am.t) }.
End MintBurn.

Module Account.
Record t : Type := mk { ClientID : string; Active : Z; OnHold : Z }.
End Account.

Module FullBid.
Record t : Type := mk { Type_ : string; Price : Z; Org : string; Bidder : string }.
End FullBid.

Module BidHash.
Record t : Type := mk { Org : string; Hash : string }.
End BidHash.

Module Auction.
Record t : Type := mk {
    Type_ : string;
    ItemSold : string;
    Amount : Z;
    PricePerKWh : Z;
    Time_started : Z;            (* a time.Time, in nanoseconds of Unix time *)
    Time_remaining : Z;
    Seller : string;
    Orgs : list string;
    PrivateBids : gmap string BidHash.t;
    RevealedBids : gmap string FullBid.t;
    Winner : string;
    Price : Z;
    Status : string }.

Definition set_Status (s : string) (a : t) : t :=
    mk (Type_ a) (ItemSold a) (Amount a) (PricePerKWh a) (Time_started a)
       (Time_remaining a) (Seller a) (Orgs a) (PrivateBids a) (RevealedBids a)
       (Winner a) (Price a) s.

Definition set_RevealedBids (m : gmap string FullBid.t) (a : t) : t :=
    mk (Type_ a) (ItemSold a) (Amount a) (PricePerKWh a) (Time_started a)
       (Time_remaining a) (Seller a) (Orgs a) (PrivateBids a) m
       (Winner a) (Price a) (Status a).

Definition set_Orgs (o : list string) (a : t) : t :=
    mk (Type_ a) (ItemSold a) (Amount a) (PricePerKWh a) (Time_started a)
       (Time_remaining a) (Seller a) o (PrivateBids a) (RevealedBids a)
       (Winner a) (Price a) (Status a).

  (** [auctionJSON.Winner = w; auctionJSON.Price = p] *)
Definition set_Winner_Price (w : string) (p : Z) (a : t) : t :=
    mk (Type_ a) (ItemSold a) (Amount a) (PricePerKWh a) (Time_started a)
       (Time_remaining a) (Seller a) (Orgs a) (PrivateBids a) (RevealedBids a)
       w p (Status a).

  (** The zero [time.Time] (1 January of year 1, UTC) in Unix nanoseconds. *)
Definition zero_time : Z := -62135596800 * 1000000000.

  (** [var auctionJSON Auction] before anything is decoded into it. *)
Definition zero : t := mk "" "" 0 0 zero_time 0 "" [] ∅ ∅ "" 0 "".
End Auction.

(** The [event] struct has unexported fields only. *)
Record event : Type := mkEvent { from : string; to : string; value : Z }.

(** ** Constants *)

Definition totalSupplyKey : string := "totalSupply".
Definition allowancePrefix : string := "allowance".
Definition holdPrefix : string := "hold".
Definition MintBurnKey : string := "MintBurn".
Definition BurnKey : string := "Burn".
Definition stateOrder : string := "Ordered".
Definition stateApproved : string := "Approved".
Definition stateRejected : string := "Rejected".
Definition bidKeyType : string := "bid".

(** ** Stored byte strings

    The world state holds byte strings.  The chaincode only ever writes the
    output of [strconv.Itoa] and of [json.Marshal] on its two record types,
    so a stored value is represented by what was encoded; the decoders below
    say what each Go decoder makes of each kind of text. *)

Inductive bytes : Type :=
| ItoaBytes (n : Z)                 (* []byte(strconv.Itoa(n)) *)
| MintBurnJSON (m : MintBurn.t)     (* json.Marshal(mintburn) *)
| AuctionJSON (a : Auction.t).      (* json.Marshal(auction) *)

Definition strconv_Itoa (n : Z) : bytes := ItoaBytes n.

(** [n, _ := strconv.Atoi(string(b))].  The error is dropped at every call
    site; the number is 0 when the text is not a decimal integer (a JSON
    object, or the empty text of a nil slice). *)
Definition strconv_Atoi (b : option bytes) : Z :=
  match b with
  | Some (ItoaBytes n) => clamp n
  | _ => 0
  end.

(** [json.Unmarshal(b, &mintburn)] into a fresh [MintBurn].  A nil slice and
    a bare number are rejected; an auction object has no member named
    [state], so the field keeps its zero value, the nil map. *)
Definition json_Unmarshal_MintBurn (b : option bytes) : result MintBurn.t :=
  match b with
  | None => Err "unexpected end of JSON input"
  | Some (ItoaBytes _) =>
      Err "json: cannot unmarshal number into Go value of type main.MintBurn"
  | Some (MintBurnJSON m) => Ok m
  | Some (AuctionJSON _) => Ok (MintBurn.mk None)
  end.

(** [json.Unmarshal(b, &auctionJSON)] into a fresh [Auction]. *)
Definition json_Unmarshal_Auction (b : option bytes) : result Auction.t :=
  match b with
  | None => Err "unexpected end of JSON input"
  | Some (ItoaBytes _) =>
      Err "json: cannot unmarshal number into Go value of type main.Auction"
  | Some (AuctionJSON a) => Ok a
  | Some (MintBurnJSON _) => Ok Auction.zero
  end.

(** [json.Marshal] of an [event]: no exported field, hence an empty object. *)
Definition json_Marshal_event (_ : event) : string := "{}".

(** ** The transaction context of the host platform *)

(** What one invocation is given: the caller's identity, the transaction
    timestamp, the wall clock read by [time.Since], and whether [GetState]
    sees the writes made earlier in the same invocation.  Fabric peers
    answer [GetState] from the committed state only; test stubs that write
    through do see them.  Every property below holds under both. *)
Record Context : Type := mkContext {
  GetID : string;              (* ctx.GetClientIdentity().GetID() *)
  GetMSPID : string;           (* ctx.GetClientIdentity().GetMSPID() *)
  GetTxTimestamp : Z * Z;      (* seconds, nanoseconds *)
  Now : Z;                     (* time.Now(), Unix nanoseconds *)
  readsOwnWrites : bool }.

(** The stub during an invocation: the committed world state, the writes
    made so far (newest first; [None] is a deletion) and the event set. *)
Record Stub : Type := mkStub {
  world : gmap string bytes;
  writes : list (string * option bytes);
  txEvent : option (string * string) }.

Definition tx (A : Type) : Type := Stub → result A * Stub.

Definition ret {A} (a : A) : tx A := λ s, (Ok a, s).
Definition fail {A} (e : error) : tx A := λ s, (Err e, s).

Definition bind {A B} (m : tx A) (k : A → tx B) : tx B :=
  λ s, match m s with
       | (Ok a, s') => k a s'
       | (Err e, s') => (Err e, s')
       end.

(** [if err != nil { return fmt.Errorf(..., err) }] *)
Definition on_err {A} (m : tx A) (h : error → error) : tx A :=
  λ s, match m s with
       | (Err e, s') => (Err (h e), s')
       | r => r
       end.

(** [_ = f(...)]: the callee's writes stay, its error is dropped. *)
Definition ignore_err {A} (m : tx A) : tx unit :=
  λ s, (Ok tt, (m s).2).

(** Pure fallible steps ([CreateCompositeKey], the JSON decoders). *)
Definition lift {A} (r : result A) : tx A := λ s, (r, s).

Notation "'let*' x ':=' m 'in' k" := (bind m (λ x, k))
  (at level 10, x name, m at level 100, k at level 200).

(** The newest pending write to [key], if any. *)
Fixpoint pending (ws : list (string * option bytes)) (key : string)
  : option (option bytes) :=
  match ws with
  | [] => None
  | (k, v) :: ws' => if decide (k = key) then Some v else pending ws' key
  end.

Definition read (ctx : Context) (s : Stub) (key : string) : option bytes :=
  if readsOwnWrites ctx then
    match pending (writes s) key with
    | Some v => v
    | None => world s !! key
    end
  else world s !! key.

(** [ctx.GetStub().GetState(key)]; an absent key reads as nil. *)
Definition GetState (ctx : Context) (key : string) : tx (option bytes) :=
  λ s, (Ok (read ctx s key), s).

(** [ctx.GetStub().PutState(key, value)]; the empty key is refused. *)
Definition PutState (key : string) (v : bytes) : tx unit :=
  λ s, if decide (key = "") then (Err "key must not be an empty string", s)
       else (Ok tt, mkStub (world s) ((key, Some v) :: writes s) (txEvent s)).

(** [ctx.GetStub().DelState(key)] *)
Definition DelState (key : string) : tx unit :=
  λ s, (Ok tt, mkStub (world s) ((key, None) :: writes s) (txEvent s)).

(** [ctx.GetStub().SetEvent(name, payload)]; one event per transaction,
    the last one set. *)
Definition SetEvent (name payload : string) : tx unit :=
  λ s, if decide (name = "") then (Err "event name can not be empty string", s)
       else (Ok tt, mkStub (world s) (writes s) (Some (name, payload))).

(** A composite key is the segments joined and closed by U+0000, after a
    leading U+0000; a segment holding U+0000 is refused.  (So is one
    holding U+10FFFF or ill-formed UTF-8; arguments are taken to be
    well-formed text.) *)
Fixpoint has_nul (s : string) : bool :=
  match s with
  | EmptyString => false
  | String c s' => if decide (c = "000"%char) then true else has_nul s'
  end.

Definition nul : string := String "000"%char EmptyString.

Fixpoint join_attributes (attrs : list string) : result string :=
  match attrs with
  | [] => Ok ""
  | a :: rest =>
      if has_nul a then Err "input contains unicode U+0000"
      else match join_attributes rest with
           | Ok k => Ok (a +:+ nul +:+ k)
           | Err e => Err e
           end
  end.

(** [ctx.GetStub().CreateCompositeKey(objectType, attributes)] *)
Definition CreateCompositeKey (objectType : string) (attributes : list string)
  : result string :=
  match join_attributes (objectType :: attributes) with
  | Ok k => Ok (nul +:+ k)
  | Err e => Err e
  end.

(** The world state once the writes of a stub are applied, oldest first. *)
Definition apply_write (w : string * option bytes) (m : gmap string bytes)
  : gmap string bytes :=
  match w.2 with
  | Some v => <[w.1 := v]> m
  | None => delete w.1 m
  end.

Definition commit (s : Stub) : gmap string bytes :=
  foldr apply_write (world s) (writes s).

(** One invocation against world state [w]: every write is committed when
    the operation returns nil, none when it returns an error. *)
Definition invoke {A} (m : tx A) (w : gmap string bytes)
  : result A * gmap string bytes :=
  match m (mkStub w [] None) with
  | (Ok a, s) => (Ok a, commit s)
  | (Err e, _) => (Err e, w)
  end.

(** ** Go maps of orders *)

(** [m[key]]: the zero value when the key is absent or the map is nil. *)
Definition map_index (m : option (gmap string St_am.t)) (key : string) : St_am.t :=
  match m with
  | Some g => default St_am.zero (g !! key)
  | None => St_am.zero
  end.

(** [m[key] = v]: a run-time panic on the nil map, which aborts the call. *)
Definition map_assign (m : option (gmap string St_am.t)) (key : string)
    (v : St_am.t) : result (option (gmap string St_am.t)) :=
  match m with
  | Some g => Ok (Some (<[key := v]> g))
  | None => Err "panic: assignment to entry in nil map"
  end.

(** [delete(m, key)]: nothing happens on the nil map. *)
Definition map_delete (m : option (gmap string St_am.t)) (key : string)
  : option (gmap string St_am.t) :=
  delete key <$> m.

(** ** Package-level functions of the ledger *)

(** [value, _ = strconv.Atoi(string(b))] guarded by [if b == nil { value = 0 }] *)
Definition balance_or_zero (b : option bytes) : Z :=
  match b with
  | None => 0
  | Some _ => strconv_Atoi b
  end.

Definition Mint (ctx : Context) (amount : Z) : tx unit :=
  let minter := GetID ctx in
  if decide (amount ≤ 0) then fail "mint amount must be a positive integer" else
  let* currentBalanceBytes := GetState ctx minter in
  let currentBalance := balance_or_zero currentBalanceBytes in
  let updatedBalance := int_add currentBalance amount in
  let* _ := PutState minter (strconv_Itoa updatedBalance) in
  let* totalSupplyBytes := GetState ctx totalSupplyKey in
  let totalSupply := balance_or_zero totalSupplyBytes in
  let totalSupply := int_add totalSupply amount in
  let* _ := PutState totalSupplyKey (strconv_Itoa totalSupply) in
  let transferEvent := mkEvent "0x0" minter amount in
  on_err (SetEvent "Transfer" (json_Marshal_event transferEvent))
         (λ e, "failed to set event: " +:+ e).

Definition Burn (ctx : Context) (amount : Z) : tx unit :=
  let clientMSPID := GetMSPID ctx in
  if decide (clientMSPID ≠ "Org1MSP") then
    fail "client is not authorized to mint new tokens" else
  let burner := GetID ctx in
  if decide (amount ≤ 0) then fail "burn amount must be a positive integer" else
  let* currentBalanceBytes := GetState ctx burner in
  if decide (currentBalanceBytes = None) then fail "the balance does not exist" else
  let currentBalance := strconv_Atoi currentBalanceBytes in
  let updatedBalance := int_sub currentBalance amount in
  let* _ := PutState burner (strconv_Itoa updatedBalance) in
  let* totalSupplyBytes := GetState ctx totalSupplyKey in
  if decide (totalSupplyBytes = None) then fail "totalSupply does not exist" else
  let totalSupply := strconv_Atoi totalSupplyBytes in
  let totalSupply := int_sub totalSupply amount in
  let* _ := PutState totalSupplyKey (strconv_Itoa totalSupply) in
  let transferEvent := mkEvent burner "0x0" amount in
  on_err (SetEvent "Transfer" (json_Marshal_event transferEvent))
         (λ e, "failed to set event: " +:+ e).

Definition ExecuteHold (ctx : Context) (holder : string) (amount : Z) : tx unit :=
  let clientID := GetID ctx in
  if decide (amount ≤ 0) then fail "hold amount must be a positive integer" else
  let* holdkey := lift (CreateCompositeKey holdPrefix [holder]) in
  let* holdBytes := GetState ctx holdkey in
  if decide (holdBytes = None) then fail "failed to get hold amount " else
  let hold_amount := strconv_Atoi holdBytes in
  if decide (hold_amount < amount) then fail "error with hold amount" else
  let* currentBalanceBytes := GetState ctx clientID in
  if decide (currentBalanceBytes = None) then fail "the balance does not exist" else
  let currentBalance := strconv_Atoi currentBalanceBytes in
  let updatedBalance := int_add currentBalance amount in
  let* _ := on_err (PutState clientID (strconv_Itoa updatedBalance))
      (λ e, "failed to update state of smart contract for key " +:+ clientID +:+ ": " +:+ e) in
  let* currentBalanceBytes_h := GetState ctx holder in
  if decide (currentBalanceBytes_h = None) then fail "the balance does not exist" else
  let currentBalance_h := strconv_Atoi currentBalanceBytes_h in
  let updatedBalance_h := int_sub (int_add currentBalance_h hold_amount) amount in
  let* _ := on_err (PutState holder (strconv_Itoa updatedBalance_h))
      (λ e, "failed to update state of smart contract for key " +:+ clientID +:+ ": " +:+ e) in
  on_err (PutState holdkey (strconv_Itoa hold_amount))
      (λ e, "failed to update state of smart contract for key " +:+ holdkey +:+ ": " +:+ e).

(** [transferHelper] moves [value] from [from] to [to]; [Transfer] and
    [TransferFrom] depend on it. *)
Definition transferHelper (ctx : Context) (from to : string) (value : Z) : tx unit :=
  if decide (value < 0) then fail "transfer amount cannot be negative" else
  let* fromCurrentBalanceBytes := GetState ctx from in
  if decide (fromCurrentBalanceBytes = None) then
    fail ("client account " +:+ from +:+ " has no balance") else
  let fromCurrentBalance := strconv_Atoi fromCurrentBalanceBytes in
  if decide (fromCurrentBalance < value) then
    fail ("client account " +:+ from +:+ " has insufficient funds") else
  let* toCurrentBalanceBytes := GetState ctx to in
  let toCurrentBalance := balance_or_zero toCurrentBalanceBytes in
  let fromUpdatedBalance := int_sub fromCurrentBalance value in
  let toUpdatedBalance := int_add toCurrentBalance value in
  let* _ := PutState from (strconv_Itoa fromUpdatedBalance) in
  PutState to (strconv_Itoa toUpdatedBalance).

(** ** Package-level functions of the auction *)

(** [int(time.Since(started).Minutes())]: whole minutes elapsed on the
    wall clock, truncated toward zero.  (The saturation of a [Duration]
    after some 292 years and the rounding of the intermediate float are
    left out.) *)
Definition minutes_since (ctx : Context) (started : Z) : Z :=
  (Now ctx - started) `quot` 60000000000.

(** The internal variant of [CloseAuction], called on the expiry paths. *)
Definition CloseAuction (ctx : Context) (auctionID : string) : tx unit :=
  let* auctionBytes := GetState ctx auctionID in
  if decide (auctionBytes = None) then
    fail ("Auction interest object " +:+ auctionID +:+ " not found") else
  let* auctionJSON := on_err (lift (json_Unmarshal_Auction auctionBytes))
      (λ e, "failed to create auction object JSON: " +:+ e) in
  let clientID := GetID ctx in
  let Seller := Auction.Seller auctionJSON in
  if decide (Seller ≠ clientID) then
    fail "auction can only be closed by seller: <nil>" else
  let Status := Auction.Status auctionJSON in
  if decide (Status ≠ "open") then fail "cannot close auction that is not open" else
  let auctionJSON := Auction.set_Status "closed" auctionJSON in
  let closedAuction := AuctionJSON auctionJSON in
  on_err (PutState auctionID closedAuction)
         (λ e, "failed to close auction: " +:+ e).

(** One turn of [for _, bid := range revealedBidMap]. *)
Definition outbid (auctionJSON : Auction.t) (entry : string * FullBid.t) : Auction.t :=
  let bid := entry.2 in
  if decide (FullBid.Price bid > Auction.Price auctionJSON) then
    Auction.set_Winner_Price (FullBid.Bidder bid) (FullBid.Price bid) auctionJSON
  else auctionJSON.

Section Helpers.

  (** Functions of the package that are not among the sources at hand are
      taken as parameters. *)

  (** [queryAllBids(ctx, price, revealedBids, privateBids)]: the check for
      a winning bid that has yet to be revealed.  It reads and answers nil
      or an error. *)
Variable queryAllBids :
    Context → Stub → Z → gmap string FullBid.t → gmap string BidHash.t → result unit.

  (** The order in which [range] walks a map of revealed bids.  Go leaves
      it unspecified; all that is known is that each entry comes once. *)
Variable range_order : gmap string FullBid.t → list (string * FullBid.t).

  (** The internal variant of [EndAuction], called on the expiry paths. *)
Definition EndAuction (ctx : Context) (auctionID : string) : tx unit :=
    let* auctionBytes := GetState ctx auctionID in
    if decide (auctionBytes = None) then
      fail ("Auction interest object " +:+ auctionID +:+ " not found") else
    let* auctionJSON := on_err (lift (json_Unmarshal_Auction auctionBytes))
        (λ e, "failed to create auction object JSON: " +:+ e) in
    let clientID := GetID ctx in
    let Seller := Auction.Seller auctionJSON in
    if decide (Seller ≠ clientID) then
      fail "auction can only be ended by seller: <nil>" else
    let Status := Auction.Status auctionJSON in
    if decide (Status ≠ "closed") then fail "can only end a closed auction" else
    let revealedBidMap := Auction.RevealedBids auctionJSON in
    if decide (size (Auction.RevealedBids auctionJSON) = 0%nat) then
      fail "no bids have been revealed, cannot end auction: <nil>" else
    let auctionJSON := foldl outbid auctionJSON (range_order revealedBidMap) in
    let* _ := on_err
        (λ s, (queryAllBids ctx s (Auction.Price auctionJSON)
                 (Auction.RevealedBids auctionJSON) (Auction.PrivateBids auctionJSON), s))
        (λ e, "cannot close auction: " +:+ e) in
    let auctionJSON := Auction.set_Status "ended" auctionJSON in
    let closedAuction := AuctionJSON auctionJSON in
    let* _ := on_err (PutState auctionID closedAuction)
        (λ e, "failed to close auction: " +:+ e) in
    on_err (DelState auctionID) (λ e, "failed to delete auction: " +:+ e).

End Helpers.

(** ** Methods of [SmartContract] *)

Module SmartContract.

Definition CreateAccount (ctx : Context) : tx unit :=
    let clientID := GetID ctx in
    let* balanceBytes := GetState ctx clientID in
    if decide (balanceBytes = None) then
      let initBalance := 0 in
      PutState clientID (strconv_Itoa initBalance)
    else fail ("account " +:+ clientID +:+ " already exist").

Definition GetAccount (ctx : Context) : tx Account.t :=
    let clientID := GetID ctx in
    let* currentBalanceBytes := GetState ctx clientID in
    if decide (currentBalanceBytes = None) then fail "the balance does not exist" else
    let currentBalance := strconv_Atoi currentBalanceBytes in
    let* holdkey := on_err (lift (CreateCompositeKey holdPrefix [clientID]))
        (λ e, "failed to create the composite key for prefix " +:+ allowancePrefix
                +:+ ": " +:+ e) in
    let* holdBytes := GetState ctx holdkey in
    let hold_amount := balance_or_zero holdBytes in
    ret (Account.mk clientID currentBalance hold_amount).

Definition CreateHold (ctx : Context) (amount : Z) : tx unit :=
    let clientID := GetID ctx in
    if decide (amount ≤ 0) then fail "hold amount must be a positive integer" else
    let* currentBalanceBytes := GetState ctx clientID in
    if decide (currentBalanceBytes = None) then fail "the balance does not exist" else
    let currentBalance := strconv_Atoi currentBalanceBytes in
    let updatedBalance := int_sub currentBalance amount in
    let* _ := on_err (PutState clientID (strconv_Itoa updatedBalance))
        (λ e, "failed to update state of smart contract for key " +:+ clientID
                +:+ ": " +:+ e) in
    let* holdkey := on_err (lift (CreateCompositeKey holdPrefix [clientID]))
        (λ e, "failed to create the composite key for prefix " +:+ holdPrefix
                +:+ ": " +:+ e) in
    let* holdBytes := GetState ctx holdkey in
    let hold_amount :=
      match holdBytes with
      | None => amount
      | Some _ => int_add (strconv_Atoi holdBytes) amount
      end in
    on_err (PutState holdkey (strconv_Itoa hold_amount))
        (λ e, "failed to update state of smart contract for key " +:+ holdkey
                +:+ ": " +:+ e).

Definition ReturnHold (ctx : Context) (holder : string) : tx unit :=
    let* holdkey := on_err (lift (CreateCompositeKey holdPrefix [holder]))
        (λ e, "failed to create the composite key for prefix " +:+ holdPrefix
                +:+ ": " +:+ e) in
    let* holdBytes := GetState ctx holdkey in
    if decide (holdBytes = None) then fail "failed to get hold amount " else
    let hold_amount := strconv_Atoi holdBytes in
    let* currentBalanceBytes := GetState ctx holder in
    if decide (currentBalanceBytes = None) then fail "the balance does not exist" else
    let currentBalance := strconv_Atoi currentBalanceBytes in
    let updatedBalance := int_add currentBalance hold_amount in
    let* _ := on_err (PutState holder (strconv_Itoa updatedBalance))
        (λ e, "failed to update state of smart contract for key " +:+ holder
                +:+ ": " +:+ e) in
    let hold_amount := 0 in
    on_err (PutState holdkey (strconv_Itoa hold_amount))
        (λ e, "failed to update state of smart contract for key " +:+ holdkey
                +:+ ": " +:+ e).

Definition Transfer (ctx : Context) (recipient : string) (amount : Z) : tx unit :=
    let clientID := GetID ctx in
    let* _ := on_err (transferHelper ctx clientID recipient amount)
        (λ e, "failed to transfer: " +:+ e) in
    let transferEvent := mkEvent clientID recipient amount in
    on_err (SetEvent "Transfer" (json_Marshal_event transferEvent))
           (λ e, "failed to set event: " +:+ e).

Definition BalanceOf (ctx : Context) (account : string) : tx Z :=
    let* balanceBytes := GetState ctx account in
    if decide (balanceBytes = None) then
      fail ("the account " +:+ account +:+ " does not exist") else
    let balance := strconv_Atoi balanceBytes in
    ret balance.

Definition ClientAccountBalance (ctx : Context) : tx Z :=
    let clientID := GetID ctx in
    let* balanceBytes := GetState ctx clientID in
    if decide (balanceBytes = None) then
      fail ("the account " +:+ clientID +:+ " does not exist") else
    let balance := strconv_Atoi balanceBytes in
    ret balance.



Definition Approve (ctx : Context) (spender : string) (value : Z) : tx unit :=
    let owner := GetID ctx in
    let* allowanceKey := on_err (lift (CreateCompositeKey allowancePrefix [owner; spender]))
        (λ e, "failed to create the composite key for prefix " +:+ allowancePrefix
                +:+ ": " +:+ e) in
    let* _ := on_err (PutState allowanceKey (strconv_Itoa value))
        (λ e, "failed to update state of smart contract for key " +:+ allowanceKey
                +:+ ": " +:+ e) in
    let approvalEvent := mkEvent owner spender value in
    on_err (SetEvent "Approval" (json_Marshal_event approvalEvent))
           (λ e, "failed to set event: " +:+ e).

Definition Allowance (ctx : Context) (owner spender : string) : tx Z :=
    let* allowanceKey := on_err (lift (CreateCompositeKey allowancePrefix [owner; spender]))
        (λ e, "failed to create the composite key for prefix " +:+ allowancePrefix
                +:+ ": " +:+ e) in
    let* allowanceBytes := GetState ctx allowanceKey in
    let allowance := balance_or_zero allowanceBytes in
    ret allowance.

Definition TransferFrom (ctx : Context) (from to : string) (value : Z) : tx unit :=
    let spender := GetID ctx in
    let* allowanceKey := on_err (lift (CreateCompositeKey allowancePrefix [from; spender]))
        (λ e, "failed to create the composite key for prefix " +:+ allowancePrefix
                +:+ ": " +:+ e) in
    let* currentAllowanceBytes := GetState ctx allowanceKey in
    let currentAllowance := strconv_Atoi currentAllowanceBytes in
    if decide (currentAllowance < value) then
      fail "spender does not have enough allowance for transfer" else
    let* _ := on_err (transferHelper ctx from to value)
        (λ e, "failed to transfer: " +:+ e) in
    let updatedAllowance := int_sub currentAllowance value in
    let* _ := PutState allowanceKey (strconv_Itoa updatedAllowance) in
    let transferEvent := mkEvent from to value in
    on_err (SetEvent "Transfer" (json_Marshal_event transferEvent))
           (λ e, "failed to set event: " +:+ e).

  (** *** The mint/burn order table *)

Definition OrderMint (ctx : Context) (amount : Z) : tx unit :=
    let* _ := on_err (ClientAccountBalance ctx)
        (λ e, "account does not exist: " +:+ e) in
    let clientID := GetID ctx in
    let* mintburnBytes := GetState ctx MintBurnKey in
    if decide (mintburnBytes = None) then
      let table := St_am.mk "Mint" amount stateOrder in
      let state : gmap string St_am.t := <[clientID := table]> ∅ in
      let mintburn := MintBurn.mk (Some state) in
      on_err (PutState MintBurnKey (MintBurnJSON mintburn))
             (λ e, "failed to update MintBurn: " +:+ e)
    else
      let* mintburn := on_err (lift (json_Unmarshal_MintBurn mintburnBytes))
          (λ _, "failed to get json") in
      let table := St_am.mk "Mint" amount stateOrder in
      let* state := lift (map_assign (MintBurn.State mintburn) clientID table) in
      let mintburn := MintBurn.mk state in
      on_err (PutState MintBurnKey (MintBurnJSON mintburn))
             (λ e, "failed to update state " +:+ e).

Definition ExecuteMint (ctx : Context) (amount : Z) : tx unit :=
    let* _ := on_err (ClientAccountBalance ctx)
        (λ e, "account does not exist: " +:+ e) in
    let clientID := GetID ctx in
    let* mintburnBytes := GetState ctx MintBurnKey in
    let* mintburn := on_err (lift (json_Unmarshal_MintBurn mintburnBytes))
        (λ _, "failed to get json") in
    let table := map_index (MintBurn.State mintburn) clientID in
    if decide (St_am.State table ≠ stateApproved ∨ St_am.Amount table ≠ amount
               ∨ St_am.MintBurn table ≠ "Mint") then
      fail "mint is not approved or amount is different than amount ordered" else
    let* _ := on_err (Mint ctx amount) (λ _, "error minting amount") in
    let mintburn := MintBurn.mk (map_delete (MintBurn.State mintburn) clientID) in
    on_err (PutState MintBurnKey (MintBurnJSON mintburn))
           (λ e, "failed to update state " +:+ e).

Definition GetMintOrder (ctx : Context) : tx St_am.t :=
    let* _ := on_err (ClientAccountBalance ctx)
        (λ e, "account does not exist: " +:+ e) in
    let clientID := GetID ctx in
    let* mintburnBytes := GetState ctx MintBurnKey in
    let* mintburn := on_err (lift (json_Unmarshal_MintBurn mintburnBytes))
        (λ _, "failed to get json") in
    let mo := map_index (MintBurn.State mintburn) clientID in
    if decide (St_am.MintBurn mo ≠ "Mint") then fail "there is no mint order" else
    ret mo.

Definition OrderBurn (ctx : Context) (amount : Z) : tx unit :=
    let* _ := on_err (ClientAccountBalance ctx)
        (λ e, "account does not exist: " +:+ e) in
    let clientID := GetID ctx in
    let* mintburnBytes := GetState ctx MintBurnKey in
    if decide (mintburnBytes = None) then
      let table := St_am.mk "Burn" amount stateOrder in
      let state : gmap string St_am.t := <[clientID := table]> ∅ in
      let mintburn := MintBurn.mk (Some state) in
      on_err (PutState MintBurnKey (MintBurnJSON mintburn))
             (λ e, "failed to update MintBurn: " +:+ e)
    else
      let* mintburn := on_err (lift (json_Unmarshal_MintBurn mintburnBytes))
          (λ _, "failed to get json") in
      let table := St_am.mk "Mint" amount stateOrder in
      let* state := lift (map_assign (MintBurn.State mintburn) clientID table) in
      let mintburn := MintBurn.mk state in
      on_err (PutState MintBurnKey (MintBurnJSON mintburn))
             (λ e, "failed to update state " +:+ e).

Definition ExecuteBurn (ctx : Context) (amount : Z) : tx unit :=
    let* _ := on_err (ClientAccountBalance ctx)
        (λ e, "account does not exist: " +:+ e) in
    let clientID := GetID ctx in
    let* mintburnBytes := GetState ctx MintBurnKey in
    let* mintburn := on_err (lift (json_Unmarshal_MintBurn mintburnBytes))
        (λ _, "failed to get json") in
    let table := map_index (MintBurn.State mintburn) clientID in
    if decide (St_am.State table ≠ stateApproved ∨ St_am.Amount table ≠ amount
               ∨ St_am.MintBurn table ≠ "Burn") then
      fail "burn is not approved or amount is different than amount ordered" else
    let* _ := Burn ctx amount in
    let mintburn := MintBurn.mk (map_delete (MintBurn.State mintburn) clientID) in
    on_err (PutState MintBurnKey (MintBurnJSON mintburn))
           (λ e, "failed to update state " +:+ e).

Definition GetBurnOrder (ctx : Context) : tx St_am.t :=
    let* _ := on_err (ClientAccountBalance ctx)
        (λ e, "account does not exist: " +:+ e) in
    let clientID := GetID ctx in
    let* mintburnBytes := GetState ctx MintBurnKey in
    let* mintburn := on_err (lift (json_Unmarshal_MintBurn mintburnBytes))
        (λ _, "failed to get json") in
    let mo := map_index (MintBurn.State mintburn) clientID in
    if decide (St_am.MintBurn mo ≠ "Burn") then fail "there is no burn order" else
    ret mo.

  (** [for key, value := range mo { if drop(value) { delete(mo, key) } }]
      on the decoded map: an entry is visited once and only the entry
      being visited is ever deleted. *)
Definition range_delete (drop : St_am.t → bool) (mo : option (gmap string St_am.t))
    : option (gmap string St_am.t) :=
    (λ g : gmap string St_am.t,
       map_fold (λ key value acc, if drop value then delete key acc else acc) g g)
    <$> mo.

Definition GetMintOrders (ctx : Context) : tx (option (gmap string St_am.t)) :=
    let clientMSPID := GetMSPID ctx in
    if decide (clientMSPID ≠ "Org1MSP") then
      fail "client is not authorized to get mint orders" else
    let* mintburnBytes := GetState ctx MintBurnKey in
    let* mintburn := on_err (lift (json_Unmarshal_MintBurn mintburnBytes))
        (λ _, "there are no Mint Orders") in
    let mo := MintBurn.State mintburn in
    let mo := range_delete
        (λ value, if decide (St_am.MintBurn value ≠ "Mint") then true
                  else if decide (St_am.State value ≠ stateOrder) then true
                  else false) mo in
    ret mo.

Definition GetBurnOrders (ctx : Context) : tx (option (gmap string St_am.t)) :=
    let clientMSPID := GetMSPID ctx in
    if decide (clientMSPID ≠ "Org1MSP") then
      fail "client is not authorized to get burn orders" else
    let* mintburnBytes := GetState ctx MintBurnKey in
    let* mintburn := on_err (lift (json_Unmarshal_MintBurn mintburnBytes))
        (λ _, "there are no Burn Orders") in
    let mo := MintBurn.State mintburn in
    let mo := range_delete
        (λ value, if decide (St_am.MintBurn value ≠ "Burn") then true
                  else if decide (St_am.State value ≠ stateOrder) then true
                  else false) mo in
    ret mo.

Definition ApproveMint (ctx : Context) (mint_acc : string) : tx unit :=
    let clientMSPID := GetMSPID ctx in
    if decide (clientMSPID ≠ "Org1MSP") then
      fail "client is not authorized to get burn orders" else
    let* mintburnBytes := GetState ctx MintBurnKey in
    let* mintburn := on_err (lift (json_Unmarshal_MintBurn mintburnBytes))
        (λ _, "there are no Burn Orders") in
    let mo := map_index (MintBurn.State mintburn) mint_acc in
    if decide (St_am.MintBurn mo ≠ "Mint") then fail "there are no Mint Orders" else
    if decide (St_am.State mo ≠ stateOrder) then fail "mint is not in order stage" else
    let mo := St_am.mk (St_am.MintBurn mo) (St_am.Amount mo) stateApproved in
    let* state := lift (map_assign (MintBurn.State mintburn) mint_acc mo) in
    let mintburn := MintBurn.mk state in
    on_err (PutState MintBurnKey (MintBurnJSON mintburn))
           (λ e, "failed to update state " +:+ e).

Definition ApproveBurn (ctx : Context) (burn_acc : string) : tx unit :=
    let clientMSPID := GetMSPID ctx in
    if decide (clientMSPID ≠ "Org1MSP") then
      fail "client is not authorized to get burn orders" else
    let* mintburnBytes := GetState ctx MintBurnKey in
    let* mintburn := on_err (lift (json_Unmarshal_MintBurn mintburnBytes))
        (λ _, "there are no Burn Orders") in
    let mo := map_index (MintBurn.State mintburn) burn_acc in
    if decide (St_am.MintBurn mo ≠ "Burn") then fail "there are no Burn Orders" else
    if decide (St_am.State mo ≠ stateOrder) then fail "mint is not in order stage" else
    let mo := St_am.mk (St_am.MintBurn mo) (St_am.Amount mo) stateApproved in
    let* state := lift (map_assign (MintBurn.State mintburn) burn_acc mo) in
    let mintburn := MintBurn.mk state in
    on_err (PutState MintBurnKey (MintBurnJSON mintburn))
           (λ e, "failed to update state " +:+ e).

Definition RejectMint (ctx : Context) (mint_acc : string) : tx unit :=
    let clientMSPID := GetMSPID ctx in
    if decide (clientMSPID ≠ "Org1MSP") then
      fail "client is not authorized to get burn orders" else
    let* mintburnBytes := GetState ctx MintBurnKey in
    let* mintburn := on_err (lift (json_Unmarshal_MintBurn mintburnBytes))
        (λ _, "there are no Burn Orders") in
    let mo := map_index (MintBurn.State mintburn) mint_acc in
    if decide (St_am.MintBurn mo ≠ "Mint") then fail "there are no Mint Orders" else
    if decide (St_am.State mo ≠ stateOrder) then fail "mint is not in order stage" else
    let mo := St_am.mk (St_am.MintBurn mo) (St_am.Amount mo) stateRejected in
    let* state := lift (map_assign (MintBurn.State mintburn) mint_acc mo) in
    let mintburn := MintBurn.mk state in
    on_err (PutState MintBurnKey (MintBurnJSON mintburn))
           (λ e, "failed to update state " +:+ e).

Definition RejectBurn (ctx : Context) (burn_acc : string) : tx unit :=
    let clientMSPID := GetMSPID ctx in
    if decide (clientMSPID ≠ "Org1MSP") then
      fail "client is not authorized to get burn orders" else
    let* mintburnBytes := GetState ctx MintBurnKey in
    let* mintburn := on_err (lift (json_Unmarshal_MintBurn mintburnBytes))
        (λ _, "there are no Burn Orders") in
    let mo := map_index (MintBurn.State mintburn) burn_acc in
    if decide (St_am.MintBurn mo ≠ "Burn") then fail "there are no Burn Orders" else
    if decide (St_am.State mo ≠ stateOrder) then fail "mint is not in order stage" else
    let mo := St_am.mk (St_am.MintBurn mo) (St_am.Amount mo) stateRejected in
    let* state := lift (map_assign (MintBurn.State mintburn) burn_acc mo) in
    let mintburn := MintBurn.mk state in
    on_err (PutState MintBurnKey (MintBurnJSON mintburn))
           (λ e, "failed to update state " +:+ e).

  (** *** The auction *)

Section Helpers.

Variable queryAllBids :
      Context → Stub → Z → gmap string FullBid.t → gmap string BidHash.t → result unit.
Variable range_order : gmap string FullBid.t → list (string * FullBid.t).

    (** [setAssetStateBasedEndorsement(ctx, auctionID, orgID)] and
        [addAssetStateBasedEndorsement(ctx, auctionID, orgID)] change who
        must endorse updates of the auction key, not what is stored under
        it; [contains(orgs, org)] is the membership test used before the
        latter.  None of the three is among the sources at hand. *)
Variable setAssetStateBasedEndorsement : Context → Stub → string → string → result unit.
Variable addAssetStateBasedEndorsement : Context → Stub → string → string → result unit.
Variable contains : list string → string → bool.

Definition CreateAuction (ctx : Context) (auctionID : string)
        (priceperkwh amount time_rem : Z) : tx unit :=
      let clientID := GetID ctx in
      let clientOrgID := GetMSPID ctx in
      let bidders : gmap string BidHash.t := ∅ in
      let revealedBids : gmap string FullBid.t := ∅ in
      let timestamp := GetTxTimestamp ctx in
      let time := timestamp.1 * 1000000000 + timestamp.2 in
      let auction :=
        Auction.mk "auction" "energy(KWh)" amount priceperkwh time time_rem
                   clientID [clientOrgID] bidders revealedBids ""
                   (int_mul amount priceperkwh) "open" in
      let auctionBytes := AuctionJSON auction in
      let* _ := on_err (PutState auctionID auctionBytes)
          (λ e, "failed to put auction in public data: " +:+ e) in
      on_err (λ s, (setAssetStateBasedEndorsement ctx s auctionID clientOrgID, s))
          (λ e, "failed setting state based endorsement for new organization: " +:+ e).

Definition Bid_Rev (ctx : Context) (auctionID : string) (amount : Z) : tx unit :=
      let clientID := GetID ctx in
      let clientOrgID := GetMSPID ctx in
      let* auctionBytes := GetState ctx auctionID in
      if decide (auctionBytes = None) then
        fail ("Auction not found: " +:+ auctionID) else
      let* auctionJSON := on_err (lift (json_Unmarshal_Auction auctionBytes))
          (λ e, "failed to create auction object JSON: " +:+ e) in
      let Status := Auction.Status auctionJSON in
      if decide (Status ≠ "open") then fail "cannot join closed or ended auction" else
      let t := minutes_since ctx (Auction.Time_started auctionJSON) in
      if decide (t >= Auction.Time_remaining auctionJSON) then
        let* _ := ignore_err (CloseAuction ctx auctionID) in
        let* _ := ignore_err (EndAuction queryAllBids range_order ctx auctionID) in
        fail "time is up"
      else
      let* balance := on_err (ClientAccountBalance ctx) (λ _, "cannot get balance") in
      if decide (balance < amount) then fail "balance is less than amount" else
      let* bidKey := on_err (lift (CreateCompositeKey bidKeyType [auctionID]))
          (λ e, "failed to create composite key: " +:+ e) in
      let NewBid := FullBid.mk (Auction.ItemSold auctionJSON) amount clientOrgID clientID in
      let bidders := Auction.RevealedBids auctionJSON in
      let bidders := <[bidKey := NewBid]> bidders in
      let auctionJSON := Auction.set_RevealedBids bidders auctionJSON in
      let Orgs := Auction.Orgs auctionJSON in
      let* auctionJSON :=
        if negb (contains Orgs clientOrgID) then
          let newOrgs := (Orgs ++ [clientOrgID])%list in
          let auctionJSON := Auction.set_Orgs newOrgs auctionJSON in
          let* _ := on_err
              (λ s, (addAssetStateBasedEndorsement ctx s auctionID clientOrgID, s))
              (λ e, "failed setting state based endorsement for new organization: "
                      +:+ e) in
          ret auctionJSON
        else ret auctionJSON in
      let newAuctionBytes := AuctionJSON auctionJSON in
      let* _ := on_err (PutState auctionID newAuctionBytes)
          (λ e, "failed to update auction: " +:+ e) in
      on_err (CreateHold ctx amount) (λ e, "cannot create hold: " +:+ e).

Definition CheckAuction (ctx : Context) (auctionID : string) : tx Auction.t :=
      let clientMSPID := GetMSPID ctx in
      if decide (clientMSPID ≠ "Org1MSP") then
        fail "client is not authorized to check auctions" else
      let* auctionBytes := GetState ctx auctionID in
      if decide (auctionBytes = None) then
        fail ("Auction not found: " +:+ auctionID) else
      let* auctionJSON := on_err (lift (json_Unmarshal_Auction auctionBytes))
          (λ e, "failed to create auction object JSON: " +:+ e) in
      let Status := Auction.Status auctionJSON in
      if decide (Status ≠ "open") then fail "auction closed or ended auction" else
      let t := minutes_since ctx (Auction.Time_started auctionJSON) in
      if decide (t >= Auction.Time_remaining auctionJSON) then
        let* _ := ignore_err (CloseAuction ctx auctionID) in
        let* _ := ignore_err (EndAuction queryAllBids range_order ctx auctionID) in
        fail "auction closed and ended"
      else ret auctionJSON.

    (** The two methods below share their names with the package-level
        functions the expiry paths above call. *)

Definition CloseAuction (ctx : Context) (auctionID : string) : tx unit :=
      let* auctionBytes := GetState ctx auctionID in
      if decide (auctionBytes = None) then
        fail ("Auction interest object " +:+ auctionID +:+ " not found") else
      let* auctionJSON := on_err (lift (json_Unmarshal_Auction auctionBytes))
          (λ e, "failed to create auction object JSON: " +:+ e) in
      let clientID := GetID ctx in
      let Seller := Auction.Seller auctionJSON in
      if decide (Seller ≠ clientID) then
        fail "auction can only be closed by seller: <nil>" else
      let Status := Auction.Status auctionJSON in
      if decide (Status ≠ "open") then fail "cannot close auction that is not open" else
      let auctionJSON := Auction.set_Status "closed" auctionJSON in
      let closedAuction := AuctionJSON auctionJSON in
      on_err (PutState auctionID closedAuction)
             (λ e, "failed to close auction: " +:+ e).

Definition EndAuction (ctx : Context) (auctionID : string) : tx unit :=
      let* auctionBytes := GetState ctx auctionID in
      if decide (auctionBytes = None) then
        fail ("Auction interest object " +:+ auctionID +:+ " not found") else
      let* auctionJSON := on_err (lift (json_Unmarshal_Auction auctionBytes))
          (λ e, "failed to create auction object JSON: " +:+ e) in
      let clientID := GetID ctx in
      let Seller := Auction.Seller auctionJSON in
      if decide (Seller ≠ clientID) then
        fail "auction can only be ended by seller: <nil>" else
      let Status := Auction.Status auctionJSON in
      if decide (Status ≠ "closed") then fail "can only end a closed auction" else
      let revealedBidMap := Auction.RevealedBids auctionJSON in
      if decide (size (Auction.RevealedBids auctionJSON) = 0%nat) then
        fail "no bids have been revealed, cannot end auction: <nil>" else
      let auctionJSON := foldl outbid auctionJSON (range_order revealedBidMap) in
      let* _ := on_err
          (λ s, (queryAllBids ctx s (Auction.Price auctionJSON)
                   (Auction.RevealedBids auctionJSON) (Auction.PrivateBids auctionJSON), s))
          (λ e, "cannot close auction: " +:+ e) in
      let auctionJSON := Auction.set_Status "ended" auctionJSON in
      let closedAuction := AuctionJSON auctionJSON in
      let* _ := on_err (PutState auctionID closedAuction)
          (λ e, "failed to end auction: " +:+ e) in
      on_err (DelState auctionID) (λ e, "failed to delete auction: " +:+ e).

End Helpers.

End SmartContract.

(** ** Reading a world state *)

(** A client identity, as the platform hands it out (the base64 text of
    an X.509 subject and issuer): free of U+0000, hence never a composite
    key, and neither of the two singleton keys. *)
Definition client_identity (id : string) : Prop :=
  has_nul id = false ∧ id ≠ totalSupplyKey ∧ id ≠ MintBurnKey.

(** The balance [BalanceOf] and [ClientAccountBalance] report for an
    account whose record exists. *)
Definition balance (w : gmap string bytes) (account : string) : Z :=
  strconv_Atoi (w !! account).

(** The number [TotalSupply] reports. *)
Definition totalSupply (w : gmap string bytes) : Z :=
  balance_or_zero (w !! totalSupplyKey).

(** The key of the hold record of [holder], and of the revealed bid on
    [auctionID], as [CreateCompositeKey] builds them. *)
Definition hold_key (holder : string) : string :=
  nul +:+ holdPrefix +:+ nul +:+ holder +:+ nul.

Definition bid_key (auctionID : string) : string :=
  nul +:+ bidKeyType +:+ nul +:+ auctionID +:+ nul.

(** The amount on hold for [holder]; an absent record counts as zero, as
    in [GetAccount]. *)
Definition on_hold (w : gmap string bytes) (holder : string) : Z :=
  balance_or_zero (w !! hold_key holder).

(** The order table, and the entry for one principal. *)
Definition orders (w : gmap string bytes) : option (gmap string St_am.t) :=
  match w !! MintBurnKey with
  | Some (MintBurnJSON m) => MintBurn.State m
  | _ => None
  end.

Definition order_of (w : gmap string bytes) (principal : string) : option St_am.t :=
  orders w ≫= (λ g, g !! principal).

(** The auction stored under [auctionID], and its revealed bids. *)
Definition stored_auction (w : gmap string bytes) (auctionID : string)
  : option Auction.t :=
  match w !! auctionID with
  | Some (AuctionJSON a) => Some a
  | _ => None
  end.

Definition revealed_bids (w : gmap string bytes) (auctionID : string)
  : list (string * FullBid.t) :=
  match stored_auction w auctionID with
  | Some a => map_to_list (Auction.RevealedBids a)
  | None => []
  end.

(** The sum of the balances of a list of accounts. *)
Definition sum_balances (w : gmap string bytes) (accounts : list string) : Z :=
  foldr (λ a acc, balance w a + acc) 0 accounts.

(** The keys under which a world state holds a record. *)
Definition keys (w : gmap string bytes) : list string :=
  (map_to_list w).*1.

(** An auction record as [CreateAuction] writes it and as [Bid_Rev] and
    [CloseAuction] keep it: no winner yet, and the price still the reserve
    [amount * priceperkwh]. *)
Definition reserve_intact (a : Auction.t) : Prop :=
  Auction.Winner a = "" ∧
  Auction.Price a = int_mul (Auction.Amount a) (Auction.PricePerKWh a).

(** The world state an invocation leaves behind. *)
Definition after {A} (m : tx A) (w : gmap string bytes) : gmap string bytes :=
  (invoke m w).2.

(** The key of the allowance record of [spender] on [owner]'s account, as
    [CreateCompositeKey] builds it, and the number [Allowance] reports. *)
Definition allowance_key (owner spender : string) : string :=
  nul +:+ allowancePrefix +:+ nul +:+ owner +:+ nul +:+ spender +:+ nul.

Definition allowance (w : gmap string bytes) (owner spender : string) : Z :=
  balance_or_zero (w !! allowance_key owner spender).

(** An order as the workflow makes them: of kind Mint or Burn, and
    Ordered, Approved or Rejected; and a ledger all of whose orders are
    such. *)
Definition order_ok (o : St_am.t) : Prop :=
  (St_am.MintBurn o = "Mint" ∨ St_am.MintBurn o = "Burn") ∧
  (St_am.State o = stateOrder ∨ St_am.State o = stateApproved ∨
   St_am.State o = stateRejected).

Definition orders_ok (w : gmap string bytes) : Prop :=
  ∀ principal o, order_of w principal = Some o → order_ok o.

(** What a decision of the administrator amounts to.  [op] is one of
    [ApproveMint], [RejectMint], [ApproveBurn] and [RejectBurn]: it
    succeeds exactly for a caller of Org1MSP on an account whose order is
    of kind [kind] and in state Ordered, and then sets that order's state
    to [verdict], keeping its kind and amount, every other order and
    every other record. *)
Definition decides (op : Context → string → tx unit) (kind verdict : string) : Prop :=
  ∀ ctx account (w : gmap string bytes),
    ((invoke (op ctx account) w).1 = Ok tt ↔
     GetMSPID ctx = "Org1MSP" ∧
     ∃ q, order_of w account = Some (St_am.mk kind q stateOrder)) ∧
    (∀ w', invoke (op ctx account) w = (Ok tt, w') →
       ∃ q, order_of w account = Some (St_am.mk kind q stateOrder) ∧
            order_of w' account = Some (St_am.mk kind q verdict) ∧
            (∀ p, p ≠ account → order_of w' p = order_of w p) ∧
            (∀ key, key ≠ MintBurnKey → w' !! key = w !! key)).

(** A statement about the platform holds whether or not [GetState] sees
    the writes of the running invocation. *)
Definition on_both_platforms (P : bool → Prop) : Prop := P false ∧ P true.

(** ** A sample platform

    Instances of the absent helpers and a few principals, on which the
    properties below are exercised. *)

Definition no_unrevealed_bid
    (_ : Context) (_ : Stub) (_ : Z) (_ : gmap string FullBid.t)
    (_ : gmap string BidHash.t) : result unit := Ok tt.

Definition endorsement_ok (_ : Context) (_ : Stub) (_ _ : string) : result unit :=
  Ok tt.

Definition member (orgs : list string) (org : string) : bool :=
  bool_decide (org ∈ orgs).

Definition in_map_order (m : gmap string FullBid.t) : list (string * FullBid.t) :=
  map_to_list m.

Definition client (id org : string) (rw : bool) : Context :=
  mkContext id org (1700000000, 0) (1700000000 * 1000000000) rw.

Definition alice : bool → Context := client "alice" "Org1MSP".
Definition bob : bool → Context := client "bob" "Org2MSP".
Definition carol : bool → Context := client "carol" "Org3MSP".

(** A ledger on which alice, once her account exists, has ordered ten
    tokens and had the order approved; then the ledger on which she has
    executed it. *)
Definition ledger_mint_approved (rw : bool) : gmap string bytes :=
  after (SmartContract.ApproveMint (alice rw) "alice")
    (after (SmartContract.OrderMint (alice rw) 10)
       (after (SmartContract.CreateAccount (alice rw)) ∅)).

Definition ledger_alice_10 (rw : bool) : gmap string bytes :=
  after (SmartContract.ExecuteMint (alice rw) 10) (ledger_mint_approved rw).

(** A ledger on which alice's order to burn 4, the first order ever
    placed, is approved, after bob minted 10 and passed her 6. *)
Definition ledger_burn_approved (rw : bool) : gmap string bytes :=
  after (SmartContract.ApproveBurn (alice rw) "alice")
    (after (SmartContract.Transfer (bob rw) "alice" 6)
       (after (SmartContract.ExecuteMint (bob rw) 10)
          (after (SmartContract.ApproveMint (alice rw) "bob")
             (after (SmartContract.OrderMint (bob rw) 10)
                (after (SmartContract.CreateAccount (bob rw))
                   (after (SmartContract.OrderBurn (alice rw) 4)
                      (after (SmartContract.CreateAccount (alice rw)) ∅))))))).

(** The same with the largest amount an [int] holds. *)
Definition ledger_alice_max (rw : bool) : gmap string bytes :=
  after (SmartContract.ExecuteMint (alice rw) int_max)
    (after (SmartContract.ApproveMint (alice rw) "alice")
       (after (SmartContract.OrderMint (alice rw) int_max)
          (after (SmartContract.CreateAccount (alice rw)) ∅))).

(** Alice's auction of 10 kWh at 5 per kWh, open for an hour, on a ledger
    where bob and carol hold 100 tokens each. *)
Definition ledger_bidders : gmap string bytes :=
  <["bob" := ItoaBytes 100]> (<["carol" := ItoaBytes 100]> ∅).

Definition ledger_auction (rw : bool) : gmap string bytes :=
  after (SmartContract.CreateAuction endorsement_ok (alice rw) "a1" 5 10 60)
    ledger_bidders.

(** The record that call stores under ["a1"]. *)
Definition auction_a1 : Auction.t :=
  Auction.mk "auction" "energy(KWh)" 10 5 (1700000000 * 1000000000) 60
             "alice" ["Org1MSP"] ∅ ∅ "" 50 "open".

Definition bid_bob (rw : bool) : tx unit :=
  SmartContract.Bid_Rev no_unrevealed_bid in_map_order endorsement_ok member
    (bob rw) "a1" 60.

Definition bid_carol (rw : bool) : tx unit :=
  SmartContract.Bid_Rev no_unrevealed_bid in_map_order endorsement_ok member
    (carol rw) "a1" 80.

(** A closed auction of alice's holding two revealed bids, as a bid key
    of its own per bidder would leave it, and a ledger holding it. *)
Definition auction_two_bids : Auction.t :=
  Auction.mk "auction" "energy(KWh)" 10 5 (1700000000 * 1000000000) 60
             "alice" ["Org1MSP"; "Org2MSP"; "Org3MSP"] ∅
             (<["bid-bob" := FullBid.mk "energy(KWh)" 60 "Org2MSP" "bob"]>
                (<["bid-carol" := FullBid.mk "energy(KWh)" 80 "Org3MSP" "carol"]> ∅))
             "" 50 "closed".

Definition ledger_two_bids : gmap string bytes :=
  <["a2" := AuctionJSON auction_two_bids]> ∅.

(** * Properties *)

(** ** Machine integers *)

Lemma wrap_is_int z : is_int (wrap z).
Proof.
  unfold is_int, wrap, int_min, int_max.
  pose proof (Z.mod_pos_bound (z + 2 ^ 63) (2 ^ 64)). lia.
Qed.

Lemma wrap_id z : is_int z → wrap z = z.
Proof.
  unfold is_int, wrap, int_min, int_max. intros Hz.
  rewrite Z.mod_small; lia.
Qed.

Lemma wrap_add_l a b : wrap (wrap a + b) = wrap (a + b).
Proof.
  unfold wrap.
  replace ((a + 2 ^ 63) `mod` 2 ^ 64 - 2 ^ 63 + b + 2 ^ 63)
    with ((a + 2 ^ 63) `mod` 2 ^ 64 + b) by lia.
  rewrite Zplus_mod_idemp_l. do 2 f_equal. lia.
Qed.

Lemma wrap_sub_l a b : wrap (wrap a - b) = wrap (a - b).
Proof. unfold Z.sub. apply wrap_add_l. Qed.

Lemma clamp_is_int z : is_int (clamp z).
Proof. unfold is_int, clamp, int_min, int_max. lia. Qed.

Lemma clamp_id z : is_int z → clamp z = z.
Proof. unfold is_int, clamp, int_min, int_max. lia. Qed.

Lemma clamp_wrap z : clamp (wrap z) = wrap z.
Proof. apply clamp_id, wrap_is_int. Qed.

Lemma strconv_Atoi_is_int b : is_int (strconv_Atoi b).
Proof.
  destruct b as [[n| |]|]; simpl; try apply clamp_is_int;
    unfold is_int, int_min, int_max; lia.
Qed.

Lemma balance_is_int w account : is_int (balance w account).
Proof. apply strconv_Atoi_is_int. Qed.

(** ** Keys *)

Lemma has_nul_app a b : has_nul (a +:+ b) = has_nul a || has_nul b.
Proof. induction a as [|c a IH]; simpl; [done|]. case_decide; done. Qed.

Lemma CreateCompositeKey_hold holder key :
  CreateCompositeKey holdPrefix [holder] = Ok key →
  has_nul holder = false ∧ key = hold_key holder.
Proof.
  unfold CreateCompositeKey. simpl.
  destruct (has_nul holder) eqn:Hn; simpl; [done|].
  intros [= <-]. split; reflexivity.
Qed.

Lemma hold_key_ok holder :
  has_nul holder = false → CreateCompositeKey holdPrefix [holder] = Ok (hold_key holder).
Proof.
  intros Hn. unfold CreateCompositeKey. simpl. rewrite Hn. reflexivity.
Qed.

(** An account key free of U+0000 is never a hold key. *)
Lemma hold_key_not_account holder id : has_nul id = false → hold_key holder ≠ id.
Proof.
  intros Hn <-. unfold hold_key in Hn. rewrite has_nul_app in Hn. done.
Qed.

(** ** The stub *)

Ltac tx_unfold :=
  unfold bind, on_err, lift, fail, ret, ignore_err,
    GetState, PutState, DelState, SetEvent in *.

(** Closed statements about the sample ledgers are settled by running
    the operations. *)
Ltac by_evaluation := vm_compute; repeat apply conj; reflexivity.

(** Case analysis along the branches of an operation. *)
Ltac tx_cases := repeat (case_decide || case_match); simplify_eq/=.

(** Before the first write, [GetState] answers from the committed state
    on either platform. *)
Lemma read_fresh ctx w ev key : read ctx (mkStub w [] ev) key = w !! key.
Proof. unfold read. simpl. by destruct (readsOwnWrites ctx). Qed.

(** One more guard of an operation passed: reduce up to the next test,
    and dismiss its failing branch. *)
Ltac tx_next :=
  cbv beta iota zeta; rewrite ?read_fresh; case_decide; [done|].

(** Run an operation up to its result: reduce, answer the reads, and
    dismiss the branches the hypotheses rule out. *)
Ltac tx_run :=
  repeat first
    [ progress cbv beta iota zeta
    | progress cbn [world writes txEvent]
    | rewrite read_fresh
    | case_decide; [first [done | lia] |] ].

(** A pending write to another key does not change the answer. *)
Lemma read_other ctx w ws ev k v key :
  k ≠ key → read ctx (mkStub w ((k, v) :: ws) ev) key = read ctx (mkStub w ws ev) key.
Proof.
  intros Hk. unfold read. simpl.
  destruct (readsOwnWrites ctx); [|done]. by case_decide.
Qed.

(** A failed invocation leaves the world state as it was. *)
Lemma invoke_Err {A} (m : tx A) w e w' : invoke m w = (Err e, w') → w' = w.
Proof. unfold invoke. destruct (m _) as [[a|e'] s]; congruence. Qed.

(** A successful invocation, in terms of the world state it leaves. *)
Lemma invoke_after {A} (m : tx A) w a :
  (invoke m w).1 = Ok a → invoke m w = (Ok a, after m w).
Proof. unfold after. destruct (invoke m w) as [r w']. simpl. by intros ->. Qed.

(** A successful run, in terms of the stub it leaves. *)
Lemma run_Ok {A} (m : tx A) s a : (m s).1 = Ok a → m s = (Ok a, (m s).2).
Proof. destruct (m s) as [r s']. simpl. by intros ->. Qed.

(** ** The read-only queries *)

Lemma BalanceOf_reads ctx account w :
  w !! account ≠ None →
  invoke (SmartContract.BalanceOf ctx account) w = (Ok (balance w account), w).
Proof.
  intros Hw. unfold invoke, SmartContract.BalanceOf. tx_unfold.
  rewrite read_fresh. by case_decide.
Qed.


Lemma GetAccount_reads ctx w :
  w !! GetID ctx ≠ None → has_nul (GetID ctx) = false →
  invoke (SmartContract.GetAccount ctx) w
  = (Ok (Account.mk (GetID ctx) (balance w (GetID ctx)) (on_hold w (GetID ctx))), w).
Proof.
  intros Hw Hn. unfold invoke, SmartContract.GetAccount. tx_unfold.
  rewrite read_fresh. case_decide; [done|].
  rewrite (hold_key_ok _ Hn). by rewrite read_fresh.
Qed.

(** C10.  [GetMintOrders] and [GetBurnOrders] never modify stored state:
    whatever stub they are run on, and whether they answer a map or an
    error, the stub they leave is the one they were given (no write, no
    deletion, no event), so the world state committed after the
    invocation is the world state before it; the filtering only shapes the
    map that is returned. *)
Theorem GetMintOrders_GetBurnOrders_leave_state ctx (s : Stub) (w : gmap string bytes) :
  (SmartContract.GetMintOrders ctx s).2 = s ∧
  (SmartContract.GetBurnOrders ctx s).2 = s ∧
  (invoke (SmartContract.GetMintOrders ctx) w).2 = w ∧
  (invoke (SmartContract.GetBurnOrders ctx) w).2 = w.
Proof.
  assert (Hm : ∀ s0, (SmartContract.GetMintOrders ctx s0).2 = s0).
  { intros s0. unfold SmartContract.GetMintOrders. tx_unfold. by tx_cases. }
  assert (Hb : ∀ s0, (SmartContract.GetBurnOrders ctx s0).2 = s0).
  { intros s0. unfold SmartContract.GetBurnOrders. tx_unfold. by tx_cases. }
  split; [apply Hm|]. split; [apply Hb|].
  unfold invoke. split.
  - specialize (Hm (mkStub w [] None)).
    destruct (SmartContract.GetMintOrders _ _) as [[a|e] s']; simpl in *; by subst.
  - specialize (Hb (mkStub w [] None)).
    destruct (SmartContract.GetBurnOrders _ _) as [[a|e] s']; simpl in *; by subst.
Qed.

(** What the map returned by [GetMintOrders] and [GetBurnOrders] holds:
    the decoded entries that the loop does not drop. *)
Lemma range_delete_lookup drop (g : gmap string St_am.t) key :
  SmartContract.range_delete drop (Some g) ≫= (λ g', g' !! key)
  = match g !! key with
    | Some v => if drop v then None else Some v
    | None => None
    end.
Proof.
  unfold SmartContract.range_delete. simpl.
  assert (H : ∀ acc : gmap string St_am.t,
    map_fold (λ key value acc, if drop value then delete key acc else acc) acc g !! key
    = match g !! key with
      | Some v => if drop v then None else acc !! key
      | None => acc !! key
      end).
  { intros acc. apply (map_fold_weak_ind (λ r m, r !! key =
      match m !! key with
      | Some v => if drop v then None else acc !! key
      | None => acc !! key
      end)).
    - by rewrite lookup_empty.
    - intros i x m r Hi IH. destruct (decide (i = key)) as [->|Hne].
      + rewrite lookup_insert_eq. rewrite Hi in IH.
        destruct (drop x); [by rewrite lookup_delete_eq | done].
      + rewrite lookup_insert_ne by done.
        destruct (drop x); [by rewrite lookup_delete_ne | done]. }
  rewrite H. by destruct (g !! key).
Qed.

(** ** Transfers *)

(** What a successful [transferHelper] requires and writes; the recipient
    is written last. *)
Lemma transferHelper_Ok ctx sender recipient amount (w : gmap string bytes) ev s' :
  transferHelper ctx sender recipient amount (mkStub w [] ev) = (Ok tt, s') →
  0 ≤ amount ∧ w !! sender ≠ None ∧ amount ≤ balance w sender ∧
  s' = mkStub w
         [(recipient, Some (ItoaBytes (int_add (balance_or_zero (w !! recipient)) amount)));
          (sender, Some (ItoaBytes (int_sub (balance w sender) amount)))]
         ev.
Proof.
  unfold transferHelper. tx_unfold. tx_run. intros [= <-].
  split; [lia|]. split; [done|]. split; [unfold balance; lia|done].
Qed.

(** A sender whose record holds less than the amount: [transferHelper]
    fails before any write. *)
Lemma transferHelper_insufficient ctx sender recipient amount (w : gmap string bytes) ev :
  w !! sender ≠ None → balance w sender < amount →
  ∃ e, transferHelper ctx sender recipient amount (mkStub w [] ev)
       = (Err e, mkStub w [] ev).
Proof.
  intros Hb Hlt. unfold transferHelper. tx_unfold.
  destruct (decide (amount < 0)); [by eexists|].
  cbv beta iota zeta. rewrite read_fresh.
  rewrite decide_False by done. rewrite decide_True by done. by eexists.
Qed.

(** The part of C3 that holds: a sender whose balance record exists but
    holds less than the requested amount makes [Transfer] and
    [TransferFrom] fail, with nothing written, so that both balance
    records (and every other record) stay as they were. *)
Lemma Transfer_TransferFrom_insufficient ctx sender recipient amount
    (w : gmap string bytes) :
  (w !! GetID ctx ≠ None → balance w (GetID ctx) < amount →
   ∃ e, SmartContract.Transfer ctx recipient amount (mkStub w [] None)
        = (Err e, mkStub w [] None) ∧
        invoke (SmartContract.Transfer ctx recipient amount) w = (Err e, w)) ∧
  (w !! sender ≠ None → balance w sender < amount →
   ∃ e, SmartContract.TransferFrom ctx sender recipient amount (mkStub w [] None)
        = (Err e, mkStub w [] None) ∧
        invoke (SmartContract.TransferFrom ctx sender recipient amount) w = (Err e, w)).
Proof.
  split; intros Hb Hlt.
  - destruct (transferHelper_insufficient ctx (GetID ctx) recipient amount w None Hb Hlt)
      as [e He].
    unfold invoke, SmartContract.Transfer. tx_unfold. rewrite He.
    eexists. split; reflexivity.
  - destruct (transferHelper_insufficient ctx sender recipient amount w None Hb Hlt)
      as [e He].
    unfold invoke, SmartContract.TransferFrom. tx_unfold.
    destruct (CreateCompositeKey allowancePrefix [sender; GetID ctx]) as [key|e'];
      [|eexists; split; reflexivity].
    cbv beta iota zeta. rewrite read_fresh.
    case_decide; [eexists; split; reflexivity|].
    rewrite He. eexists. split; reflexivity.
Qed.

(** X5.  A successful [Transfer] to another account moves the amount
    (the part of C1 and C3 that holds).  The sender's balance goes down
    by it and stays at or above zero, the recipient's goes up by it (in
    [int] arithmetic), no other record changes, so the total supply
    record stays as it was unless the recipient named is that very key. *)
Lemma Transfer_to_other ctx recipient amount (w w' : gmap string bytes) :
  GetID ctx ≠ recipient →
  invoke (SmartContract.Transfer ctx recipient amount) w = (Ok tt, w') →
  balance w' (GetID ctx) = balance w (GetID ctx) - amount ∧
  0 ≤ balance w' (GetID ctx) ∧
  balance w' recipient = wrap (balance_or_zero (w !! recipient) + amount) ∧
  (∀ key, key ≠ GetID ctx → key ≠ recipient → w' !! key = w !! key).
Proof.
  intros Hne. unfold invoke, SmartContract.Transfer. tx_unfold.
  destruct (transferHelper ctx (GetID ctx) recipient amount (mkStub w [] None))
    as [[[]|e] s1] eqn:Ht; [|done].
  apply transferHelper_Ok in Ht as (Hpos & Hb & Hle & ->).
  tx_run. intros [= <-]. unfold commit. simpl. unfold apply_write. simpl.
  set (x := int_add (balance_or_zero (w !! recipient)) amount).
  set (y := int_sub (balance w (GetID ctx)) amount).
  pose proof (balance_is_int w (GetID ctx)) as Hint.
  assert (Hy : y = balance w (GetID ctx) - amount).
  { apply wrap_id. unfold is_int, int_min, int_max in *. lia. }
  assert (Hs : (<[recipient := ItoaBytes x]> (<[GetID ctx := ItoaBytes y]> w)) !! GetID ctx
               = Some (ItoaBytes y)).
  { rewrite lookup_insert_ne by done. apply lookup_insert_eq. }
  assert (Hr : (<[recipient := ItoaBytes x]> (<[GetID ctx := ItoaBytes y]> w)) !! recipient
               = Some (ItoaBytes x)) by apply lookup_insert_eq.
  unfold balance. rewrite Hs, Hr. simpl.
  rewrite (clamp_id y) by (rewrite Hy; unfold is_int, int_min, int_max in *; lia).
  split; [done|]. split; [lia|]. split; [apply clamp_wrap|].
  intros key Hk1 Hk2. by rewrite !lookup_insert_ne.
Qed.

(** An allowance of 4 set by [Approve] is drained by a [TransferFrom] of
    exactly 4; a further [TransferFrom] of 1 fails. *)
Example Approve_then_TransferFrom :
  on_both_platforms (λ rw,
    let w1 := after (SmartContract.Approve (alice rw) "bob" 4) (ledger_alice_10 rw) in
    let w2 := after (SmartContract.TransferFrom (bob rw) "alice" "carol" 4) w1 in
    (invoke (SmartContract.TransferFrom (bob rw) "alice" "carol" 4) w1).1 = Ok tt ∧
    balance w2 "alice" = 6 ∧ balance w2 "carol" = 4 ∧
    (invoke (SmartContract.Allowance (bob rw) "alice" "bob") w2).1 = Ok 0 ∧
    (invoke (SmartContract.TransferFrom (bob rw) "alice" "carol" 1) w2).1
    = Err "spender does not have enough allowance for transfer").
Proof. split; by_evaluation. Qed.

(** X7.  A successful [Transfer] to oneself adds the amount to the
    caller's balance, in [int] arithmetic, and changes nothing else (the
    general form of the defect behind C1 and C3). *)
Lemma Transfer_to_self ctx amount (w w' : gmap string bytes) :
  invoke (SmartContract.Transfer ctx (GetID ctx) amount) w = (Ok tt, w') →
  0 ≤ amount ≤ balance w (GetID ctx) ∧
  balance w' (GetID ctx) = wrap (balance w (GetID ctx) + amount) ∧
  (∀ key, key ≠ GetID ctx → w' !! key = w !! key).
Proof.
  unfold invoke, SmartContract.Transfer. tx_unfold.
  destruct (transferHelper ctx (GetID ctx) (GetID ctx) amount (mkStub w [] None))
    as [[[]|e] s1] eqn:Ht; [|done].
  apply transferHelper_Ok in Ht as (Hpos & Hb & Hle & ->).
  tx_run. intros [= <-]. unfold commit. simpl. unfold apply_write. simpl.
  split; [lia|]. split.
  - unfold balance at 1. rewrite lookup_insert_eq. simpl.
    unfold int_add, balance, balance_or_zero. rewrite clamp_wrap.
    by destruct (w !! GetID ctx).
  - intros key Hk. by rewrite !lookup_insert_ne.
Qed.

(** C1 (defect).  A transfer to oneself creates tokens.  After alice's
    account is created and ten tokens are ordered, approved and minted for
    her, the total supply and her balance are both 10; [Transfer] of 5 from
    alice to alice succeeds and leaves the total supply at 10 while her
    balance, the only one on the ledger, becomes 15. *)
Theorem Transfer_to_self_creates_tokens :
  on_both_platforms (λ rw,
    let w := ledger_alice_10 rw in
    let w' := after (SmartContract.Transfer (alice rw) "alice" 5) w in
    totalSupply w = 10 ∧ sum_balances w ["alice"] = 10 ∧
    (invoke (SmartContract.Transfer (alice rw) "alice" 5) w).1 = Ok tt ∧
    totalSupply w' = 10 ∧ sum_balances w' ["alice"] = 15 ∧
    keys w' = ["MintBurn"; "alice"; "totalSupply"]).
Proof. split; by_evaluation. Qed.

(** C3 (defect).  The same transfer to oneself, on a ledger where alice
    was minted the largest [int], succeeds and leaves her balance at the
    smallest [int], below zero: the recipient's sum, written last,
    overflows. *)
Theorem Transfer_to_self_goes_negative :
  on_both_platforms (λ rw,
    let w := ledger_alice_max rw in
    let w' := after (SmartContract.Transfer (alice rw) "alice" 1) w in
    balance w "alice" = int_max ∧
    (invoke (SmartContract.Transfer (alice rw) "alice" 1) w).1 = Ok tt ∧
    balance w' "alice" = int_min ∧ balance w' "alice" < 0).
Proof. split; by_evaluation. Qed.

(** ** Holds *)

(** What a successful [CreateHold] requires and writes. *)
Lemma CreateHold_Ok ctx amount (w w' : gmap string bytes) :
  invoke (SmartContract.CreateHold ctx amount) w = (Ok tt, w') →
  0 < amount ∧ w !! GetID ctx ≠ None ∧ has_nul (GetID ctx) = false ∧ GetID ctx ≠ "" ∧
  w' = <[hold_key (GetID ctx) :=
           ItoaBytes (match w !! hold_key (GetID ctx) with
                      | None => amount
                      | Some _ => int_add (strconv_Atoi (w !! hold_key (GetID ctx))) amount
                      end)]>
         (<[GetID ctx := ItoaBytes (int_sub (balance w (GetID ctx)) amount)]> w).
Proof.
  unfold invoke, SmartContract.CreateHold. tx_unfold.
  case_decide; [done|]. rewrite read_fresh.
  case_decide; [done|]. case_decide; [done|].
  destruct (CreateCompositeKey holdPrefix [GetID ctx]) as [key|e] eqn:Hkey; [|done].
  apply CreateCompositeKey_hold in Hkey as [Hn ->].
  rewrite read_other by (intros Heq; by apply (hold_key_not_account (GetID ctx) (GetID ctx))).
  rewrite read_fresh.
  case_decide; [done|]. intros [= <-].
  split; [lia|]. by repeat split.
Qed.

(** [ReturnHold] succeeds on every holder whose hold and balance records
    exist, and what it writes. *)
Lemma ReturnHold_Ok ctx holder (w : gmap string bytes) :
  has_nul holder = false → holder ≠ "" →
  w !! hold_key holder ≠ None → w !! holder ≠ None →
  invoke (SmartContract.ReturnHold ctx holder) w
  = (Ok tt, <[hold_key holder := ItoaBytes 0]>
              (<[holder := ItoaBytes (int_add (balance w holder)
                                        (strconv_Atoi (w !! hold_key holder)))]> w)).
Proof.
  intros Hn Hne Hh Hb. unfold invoke, SmartContract.ReturnHold. tx_unfold.
  rewrite (hold_key_ok _ Hn). cbn beta iota. rewrite read_fresh.
  case_decide; [done|]. rewrite read_fresh.
  repeat (case_decide; [done|]). reflexivity.
Qed.

(** C9 (as stated, refuted).  Alice holds 10 tokens and puts 5 on hold;
    from that state (balance 5, hold 5) [CreateHold(3)] succeeds, and
    [ReturnHold] then leaves her balance at 10, not at the 5 she had
    before that [CreateHold]: the earlier hold is returned as well. *)
Lemma ReturnHold_returns_earlier_hold_too :
  on_both_platforms (λ rw,
    let w := after (SmartContract.CreateHold (alice rw) 5) (ledger_alice_10 rw) in
    let w1 := after (SmartContract.CreateHold (alice rw) 3) w in
    let w2 := after (SmartContract.ReturnHold (bob rw) "alice") w1 in
    balance w "alice" = 5 ∧ on_hold w "alice" = 5 ∧
    (invoke (SmartContract.CreateHold (alice rw) 3) w).1 = Ok tt ∧
    (invoke (SmartContract.ReturnHold (bob rw) "alice") w1).1 = Ok tt ∧
    balance w2 "alice" = 10 ∧ on_hold w2 "alice" = 0).
Proof. split; by_evaluation. Qed.

(** C9 (amended).  For every principal with no amount on hold (the hold
    record absent or zero) and every state in which [CreateHold(a)]
    succeeds, [ReturnHold] for that principal, whoever calls it, then
    succeeds, restores the principal's active balance to exactly its value
    before [CreateHold], and leaves the hold record equal to zero. *)
Theorem CreateHold_then_ReturnHold ctx ctx' a (w w1 : gmap string bytes) :
  is_int a →
  on_hold w (GetID ctx) = 0 →
  invoke (SmartContract.CreateHold ctx a) w = (Ok tt, w1) →
  ∃ w2, invoke (SmartContract.ReturnHold ctx' (GetID ctx)) w1 = (Ok tt, w2) ∧
        balance w2 (GetID ctx) = balance w (GetID ctx) ∧
        w2 !! hold_key (GetID ctx) = Some (ItoaBytes 0) ∧
        on_hold w2 (GetID ctx) = 0.
Proof.
  intros Ha Hh Hc. apply CreateHold_Ok in Hc as (Hpos & Hb & Hn & Hne & ->).
  set (id := GetID ctx) in *.
  assert (Hk : hold_key id ≠ id) by by apply hold_key_not_account.
  assert (Hheld :
    match w !! hold_key id with
    | None => a
    | Some _ => int_add (strconv_Atoi (w !! hold_key id)) a
    end = a).
  { unfold on_hold, balance_or_zero in Hh. destruct (w !! hold_key id); [|done].
    rewrite Hh. unfold int_add. simpl. by apply wrap_id. }
  rewrite Hheld. eexists. split.
  - apply ReturnHold_Ok; [done|done| |].
    + by rewrite lookup_insert_eq.
    + rewrite lookup_insert_ne by done. by rewrite lookup_insert_eq.
  - unfold on_hold, balance. rewrite !lookup_insert_eq.
    rewrite (lookup_insert_ne _ (hold_key id) id) by done.
    rewrite !lookup_insert_eq.
    rewrite (lookup_insert_ne _ (hold_key id) id) by done.
    rewrite lookup_insert_eq. simpl.
    split; [|done].
    unfold int_add, int_sub. rewrite !clamp_wrap, (clamp_id a) by done.
    rewrite wrap_add_l. replace (strconv_Atoi (w !! id) - a + a)
      with (strconv_Atoi (w !! id)) by lia.
    apply wrap_id, strconv_Atoi_is_int.
Qed.

Lemma CreateHold_then_ReturnHold_witness :
  ∃ w2, invoke (SmartContract.ReturnHold (bob false) (GetID (alice false)))
          (after (SmartContract.CreateHold (alice false) 3) (ledger_alice_10 false))
        = (Ok tt, w2) ∧
        balance w2 (GetID (alice false)) = balance (ledger_alice_10 false) (GetID (alice false)) ∧
        w2 !! hold_key (GetID (alice false)) = Some (ItoaBytes 0) ∧
        on_hold w2 (GetID (alice false)) = 0.
Proof.
  apply (CreateHold_then_ReturnHold (alice false) (bob false) 3 (ledger_alice_10 false)).
  - vm_compute. split; discriminate.
  - vm_compute. reflexivity.
  - apply invoke_after. vm_compute. reflexivity.
Defined.

(** What a successful [ExecuteHold] by a caller other than the holder
    requires and writes. *)
Lemma ExecuteHold_Ok ctx holder amount (w w' : gmap string bytes) :
  GetID ctx ≠ holder →
  has_nul (GetID ctx) = false →
  invoke (ExecuteHold ctx holder amount) w = (Ok tt, w') →
  0 < amount ∧ has_nul holder = false ∧
  w !! hold_key holder ≠ None ∧ amount ≤ strconv_Atoi (w !! hold_key holder) ∧
  w !! GetID ctx ≠ None ∧ w !! holder ≠ None ∧
  w' = <[hold_key holder := ItoaBytes (strconv_Atoi (w !! hold_key holder))]>
         (<[holder := ItoaBytes (int_sub (int_add (balance w holder)
                                            (strconv_Atoi (w !! hold_key holder))) amount)]>
            (<[GetID ctx := ItoaBytes (int_add (balance w (GetID ctx)) amount)]> w)).
Proof.
  intros Hne Hn. unfold invoke, ExecuteHold. tx_unfold.
  case_decide; [done|].
  destruct (CreateCompositeKey holdPrefix [holder]) as [key|e] eqn:Hkey; [|done].
  apply CreateCompositeKey_hold in Hkey as [Hnh ->].
  do 4 tx_next.
  rewrite read_other, read_fresh by done.
  do 3 tx_next. cbv beta iota zeta.
  intros [= <-]. split; [lia|]. split; [done|]. split; [done|]. split; [lia|].
  by repeat split.
Qed.

(** C2 (as stated, refuted).  When the caller is the holder the two
    credits land on one record.  Alice, with balance 7 and 3 on hold,
    executes 2 of her own hold: the call succeeds, and her balance ends
    at 8 on a peer (the second write, computed from the committed
    balance, replaces the first) and at 10 on a stub that reads its own
    writes, in neither case at the 7 + 2 the claim gives the caller. *)
Lemma ExecuteHold_on_own_hold :
  let w rw := after (SmartContract.CreateHold (alice rw) 3) (ledger_alice_10 rw) in
  let w' rw := after (ExecuteHold (alice rw) "alice" 2) (w rw) in
  on_both_platforms (λ rw,
    balance (w rw) "alice" = 7 ∧ on_hold (w rw) "alice" = 3 ∧
    (invoke (ExecuteHold (alice rw) "alice" 2) (w rw)).1 = Ok tt ∧
    on_hold (w' rw) "alice" = 3) ∧
  balance (w' false) "alice" = 8 ∧
  balance (w' true) "alice" = 10.
Proof. by_evaluation. Qed.

(** C2 (amended).  For every successful [ExecuteHold(holder, amount)] by a
    caller other than the holder: the holder has a hold record of value h
    with h >= amount, the balance records of caller and holder exist, the
    caller's active balance increases by amount, the holder's active
    balance increases by h - amount (both in [int] arithmetic), and the
    hold record is rewritten with its pre-execution value h, neither
    cleared nor decremented. *)
Theorem ExecuteHold_effect ctx holder amount (w w' : gmap string bytes) :
  client_identity (GetID ctx) →
  GetID ctx ≠ holder →
  invoke (ExecuteHold ctx holder amount) w = (Ok tt, w') →
  let h := strconv_Atoi (w !! hold_key holder) in
  w !! hold_key holder ≠ None ∧ amount ≤ h ∧
  w !! GetID ctx ≠ None ∧ w !! holder ≠ None ∧
  balance w' (GetID ctx) = wrap (balance w (GetID ctx) + amount) ∧
  balance w' holder = wrap (balance w holder + (h - amount)) ∧
  w' !! hold_key holder = Some (ItoaBytes h) ∧
  on_hold w' holder = h.
Proof.
  intros (Hn & _ & _) Hne Hex h.
  apply ExecuteHold_Ok in Hex as (Hpos & Hnh & Hh & Hle & Hc & Hb & ->); [|done..].
  assert (Hk1 : hold_key holder ≠ GetID ctx) by by apply hold_key_not_account.
  assert (Hk2 : hold_key holder ≠ holder) by by apply hold_key_not_account.
  repeat split; try done.
  - unfold balance. rewrite lookup_insert_ne, lookup_insert_ne, lookup_insert_eq by done.
    simpl. apply clamp_wrap.
  - unfold balance. rewrite lookup_insert_ne, lookup_insert_eq by done.
    simpl. unfold int_sub, int_add. rewrite clamp_wrap, wrap_sub_l.
    f_equal. unfold h. lia.
  - by rewrite lookup_insert_eq.
  - unfold on_hold. rewrite lookup_insert_eq. simpl.
    apply clamp_id, strconv_Atoi_is_int.
Qed.

Lemma ExecuteHold_effect_witness :
  let w := after (SmartContract.CreateHold (alice false) 3) (ledger_alice_10 false) in
  let w0 := <["bob" := ItoaBytes 0]> w in
  let w' := after (ExecuteHold (bob false) "alice" 2) w0 in
  let h := strconv_Atoi (w0 !! hold_key "alice") in
  w0 !! hold_key "alice" ≠ None ∧ 2 ≤ h ∧
  w0 !! GetID (bob false) ≠ None ∧ w0 !! "alice" ≠ None ∧
  balance w' (GetID (bob false)) = wrap (balance w0 (GetID (bob false)) + 2) ∧
  balance w' "alice" = wrap (balance w0 "alice" + (h - 2)) ∧
  w' !! hold_key "alice" = Some (ItoaBytes h) ∧
  on_hold w' "alice" = h.
Proof.
  intros w w0 w'.
  apply (ExecuteHold_effect (bob false) "alice" 2 w0 w').
  - vm_compute. repeat split; discriminate.
  - vm_compute. discriminate.
  - apply invoke_after. vm_compute. reflexivity.
Defined.

(** ** The mint/burn workflow *)

(** [Mint] on a stub without pending writes. *)
Lemma Mint_run ctx amount (w : gmap string bytes) ev :
  GetID ctx ≠ totalSupplyKey → GetID ctx ≠ "" → 0 < amount →
  Mint ctx amount (mkStub w [] ev)
  = (Ok tt,
     mkStub w
       [(totalSupplyKey, Some (ItoaBytes (int_add (totalSupply w) amount)));
        (GetID ctx, Some (ItoaBytes (int_add (balance_or_zero (w !! GetID ctx)) amount)))]
       (Some ("Transfer", "{}"))).
Proof.
  intros Hts Hne Hpos. unfold Mint. tx_unfold. tx_run.
  rewrite read_other, read_fresh by done. tx_run. reflexivity.
Qed.

(** [Burn] on a stub without pending writes. *)
Lemma Burn_run ctx amount (w : gmap string bytes) ev :
  GetMSPID ctx = "Org1MSP" →
  GetID ctx ≠ totalSupplyKey → GetID ctx ≠ "" → 0 < amount →
  w !! GetID ctx ≠ None → w !! totalSupplyKey ≠ None →
  Burn ctx amount (mkStub w [] ev)
  = (Ok tt,
     mkStub w
       [(totalSupplyKey, Some (ItoaBytes (int_sub (totalSupply w) amount)));
        (GetID ctx, Some (ItoaBytes (int_sub (balance w (GetID ctx)) amount)))]
       (Some ("Transfer", "{}"))).
Proof.
  intros Horg Hts Hne Hpos Hb Ht. unfold Burn. tx_unfold. tx_run.
  rewrite read_other, read_fresh by done. tx_run.
  unfold totalSupply, balance_or_zero. destruct (w !! totalSupplyKey); [reflexivity|done].
Qed.

(** [Mint] either fails without a write or does the above. *)
Lemma Mint_result ctx amount (w : gmap string bytes) ev :
  GetID ctx ≠ totalSupplyKey →
  (∃ e, Mint ctx amount (mkStub w [] ev) = (Err e, mkStub w [] ev)) ∨
  (0 < amount ∧ GetID ctx ≠ "" ∧
   Mint ctx amount (mkStub w [] ev)
   = (Ok tt,
      mkStub w
        [(totalSupplyKey, Some (ItoaBytes (int_add (totalSupply w) amount)));
         (GetID ctx, Some (ItoaBytes (int_add (balance_or_zero (w !! GetID ctx)) amount)))]
        (Some ("Transfer", "{}")))).
Proof.
  intros Hts.
  destruct (decide (amount ≤ 0)) as [Hle|Hpos].
  { left. unfold Mint. rewrite decide_True by done. by eexists. }
  destruct (decide (GetID ctx = "")) as [He|Hne].
  { left. unfold Mint. rewrite decide_False by done. tx_unfold. tx_run.
    rewrite decide_True by done. by eexists. }
  right. split; [lia|]. split; [done|]. apply Mint_run; [done|done|lia].
Qed.

(** [Burn] either fails or does the above. *)
Lemma Burn_result ctx amount (w : gmap string bytes) ev :
  GetID ctx ≠ totalSupplyKey →
  (∃ e s, Burn ctx amount (mkStub w [] ev) = (Err e, s)) ∨
  (GetMSPID ctx = "Org1MSP" ∧ 0 < amount ∧ GetID ctx ≠ "" ∧
   w !! GetID ctx ≠ None ∧ w !! totalSupplyKey ≠ None ∧
   Burn ctx amount (mkStub w [] ev)
   = (Ok tt,
      mkStub w
        [(totalSupplyKey, Some (ItoaBytes (int_sub (totalSupply w) amount)));
         (GetID ctx, Some (ItoaBytes (int_sub (balance w (GetID ctx)) amount)))]
        (Some ("Transfer", "{}")))).
Proof.
  intros Hts.
  destruct (decide (GetMSPID ctx = "Org1MSP")) as [Horg|Horg]; cycle 1.
  { left. unfold Burn. rewrite decide_True by done. by do 2 eexists. }
  destruct (decide (amount ≤ 0)) as [Hle|Hpos].
  { left. unfold Burn. rewrite decide_False by (by intros []).
    rewrite decide_True by done. by do 2 eexists. }
  destruct (decide (w !! GetID ctx = None)) as [Hb|Hb].
  { left. unfold Burn. rewrite decide_False by (by intros []).
    rewrite decide_False by done. tx_unfold. tx_run.
    rewrite decide_True by done. by do 2 eexists. }
  destruct (decide (GetID ctx = "")) as [He|Hne].
  { left. unfold Burn. rewrite decide_False by (by intros []).
    rewrite decide_False by done. tx_unfold. tx_run.
    rewrite decide_True by done. by do 2 eexists. }
  destruct (decide (w !! totalSupplyKey = None)) as [Ht|Ht].
  { left. unfold Burn. rewrite decide_False by (by intros []).
    rewrite decide_False by done. tx_unfold. tx_run.
    rewrite read_other, read_fresh by done.
    rewrite decide_True by done. by do 2 eexists. }
  right. repeat (split; [first [done|lia]|]).
  apply Burn_run; first [done|lia].
Qed.

(** What a successful [ExecuteMint] requires and writes. *)
Lemma ExecuteMint_Ok ctx amount (w w' : gmap string bytes) :
  GetID ctx ≠ totalSupplyKey → GetID ctx ≠ MintBurnKey →
  invoke (SmartContract.ExecuteMint ctx amount) w = (Ok tt, w') →
  ∃ g, w !! MintBurnKey = Some (MintBurnJSON (MintBurn.mk (Some g))) ∧
       g !! GetID ctx = Some (St_am.mk "Mint" amount stateApproved) ∧
       w !! GetID ctx ≠ None ∧
       w' = <[MintBurnKey := MintBurnJSON (MintBurn.mk (Some (delete (GetID ctx) g)))]>
              (<[totalSupplyKey := ItoaBytes (int_add (totalSupply w) amount)]>
                 (<[GetID ctx := ItoaBytes (int_add (balance w (GetID ctx)) amount)]> w)).
Proof.
  intros Hts Hmb. unfold invoke, SmartContract.ExecuteMint,
    SmartContract.ClientAccountBalance. tx_unfold. tx_run.
  destruct (w !! MintBurnKey) as [[n|[[g|]]|a]|] eqn:Hw; simpl; try done.
  case_decide as Hd; [done|]. cbv beta iota zeta.
    destruct (Mint_result ctx amount w None Hts) as [[e He]|(Hpos & Hne & Hm)].
    { by rewrite He. }
    rewrite Hm. tx_run. intros [= <-].
    destruct (g !! GetID ctx) as [[k q s]|] eqn:Hg; simpl in Hd.
    + exists g. split; [done|]. split.
      * destruct (decide (s = stateApproved)) as [->|]; [|tauto].
        destruct (decide (q = amount)) as [->|]; [|tauto].
        destruct (decide (k = "Mint")) as [->|]; [|tauto]. done.
      * split; [done|]. unfold balance, balance_or_zero.
        destruct (w !! GetID ctx); done.
    + exfalso. apply Hd. left. done.
Qed.

(** What a successful [ExecuteBurn] requires and writes. *)
Lemma ExecuteBurn_Ok ctx amount (w w' : gmap string bytes) :
  GetID ctx ≠ totalSupplyKey → GetID ctx ≠ MintBurnKey →
  invoke (SmartContract.ExecuteBurn ctx amount) w = (Ok tt, w') →
  ∃ g, w !! MintBurnKey = Some (MintBurnJSON (MintBurn.mk (Some g))) ∧
       g !! GetID ctx = Some (St_am.mk "Burn" amount stateApproved) ∧
       w !! GetID ctx ≠ None ∧
       w' = <[MintBurnKey := MintBurnJSON (MintBurn.mk (Some (delete (GetID ctx) g)))]>
              (<[totalSupplyKey := ItoaBytes (int_sub (totalSupply w) amount)]>
                 (<[GetID ctx := ItoaBytes (int_sub (balance w (GetID ctx)) amount)]> w)).
Proof.
  intros Hts Hmb. unfold invoke, SmartContract.ExecuteBurn,
    SmartContract.ClientAccountBalance. tx_unfold. tx_run.
  destruct (w !! MintBurnKey) as [[n|[[g|]]|a]|] eqn:Hw; simpl; try done.
  case_decide as Hd; [done|]. cbv beta iota zeta.
  destruct (Burn_result ctx amount w None Hts)
    as [(e & s & He)|(Horg & Hpos & Hne & Hb & Ht & Hm)].
  { by rewrite He. }
  rewrite Hm. tx_run. intros [= <-].
  destruct (g !! GetID ctx) as [[k q s]|] eqn:Hg; simpl in Hd.
  - exists g. split; [done|]. split; [|done].
    destruct (decide (s = stateApproved)) as [->|]; [|tauto].
    destruct (decide (q = amount)) as [->|]; [|tauto].
    destruct (decide (k = "Burn")) as [->|]; [|tauto]. done.
  - exfalso. apply Hd. left. done.
Qed.

(** Without an approved order of the right kind and amount, the
    execution fails before any write. *)
Lemma ExecuteMint_refused ctx amount (w : gmap string bytes) :
  order_of w (GetID ctx) ≠ Some (St_am.mk "Mint" amount stateApproved) →
  ∃ e, SmartContract.ExecuteMint ctx amount (mkStub w [] None)
       = (Err e, mkStub w [] None).
Proof.
  intros Hno. unfold SmartContract.ExecuteMint,
    SmartContract.ClientAccountBalance. tx_unfold.
  cbv beta iota zeta. rewrite read_fresh.
  destruct (decide (w !! GetID ctx = None)) as [|Hb]; [by eexists|].
  cbv beta iota zeta. rewrite read_fresh.
  unfold order_of, orders in Hno.
  destruct (w !! MintBurnKey) as [[n0|[[g|]]|a]|] eqn:Hw; simpl; try by eexists.
  case_decide as Hd; [by eexists|]. exfalso. apply Hno. simpl.
  destruct (g !! GetID ctx) as [[k q s]|] eqn:Hg; simpl in Hd.
  - destruct (decide (s = stateApproved)) as [->|]; [|tauto].
    destruct (decide (q = amount)) as [->|]; [|tauto].
    destruct (decide (k = "Mint")) as [->|]; [|tauto]. done.
  - exfalso. apply Hd. left. done.
Qed.

Lemma ExecuteBurn_refused ctx amount (w : gmap string bytes) :
  order_of w (GetID ctx) ≠ Some (St_am.mk "Burn" amount stateApproved) →
  ∃ e, SmartContract.ExecuteBurn ctx amount (mkStub w [] None)
       = (Err e, mkStub w [] None).
Proof.
  intros Hno. unfold SmartContract.ExecuteBurn,
    SmartContract.ClientAccountBalance. tx_unfold.
  cbv beta iota zeta. rewrite read_fresh.
  destruct (decide (w !! GetID ctx = None)) as [|Hb]; [by eexists|].
  cbv beta iota zeta. rewrite read_fresh.
  unfold order_of, orders in Hno.
  destruct (w !! MintBurnKey) as [[n0|[[g|]]|a]|] eqn:Hw; simpl; try by eexists.
  case_decide as Hd; [by eexists|]. exfalso. apply Hno. simpl.
  destruct (g !! GetID ctx) as [[k q s]|] eqn:Hg; simpl in Hd.
  - destruct (decide (s = stateApproved)) as [->|]; [|tauto].
    destruct (decide (q = amount)) as [->|]; [|tauto].
    destruct (decide (k = "Burn")) as [->|]; [|tauto]. done.
  - exfalso. apply Hd. left. done.
Qed.




(** X19.  A successful [OrderBurn] stores an order in state Ordered for
    the amount, of kind Burn when it creates the order table and of kind
    Mint when the table was there already (the general form of C5's
    defect); the orders of all other principals are kept. *)
Lemma OrderBurn_Ok ctx amount (w w' : gmap string bytes) :
  GetID ctx ≠ MintBurnKey →
  invoke (SmartContract.OrderBurn ctx amount) w = (Ok tt, w') →
  w !! GetID ctx ≠ None ∧
  order_of w' (GetID ctx)
  = Some (St_am.mk (match w !! MintBurnKey with None => "Burn" | Some _ => "Mint" end)
            amount stateOrder) ∧
  (∀ principal, principal ≠ GetID ctx → order_of w' principal = order_of w principal).
Proof.
  intros Hmb. unfold invoke, SmartContract.OrderBurn,
    SmartContract.ClientAccountBalance. tx_unfold.
  cbv beta iota zeta. rewrite read_fresh.
  destruct (decide (w !! GetID ctx = None)) as [|Hb]; [done|].
  cbv beta iota zeta. rewrite read_fresh.
  unfold order_of, orders.
  destruct (w !! MintBurnKey) as [[n|[[g|]]|a]|] eqn:Hw; simpl; try done.
  - intros [= <-]. unfold commit. simpl. unfold apply_write. simpl.
    rewrite lookup_insert_eq. simpl. rewrite lookup_insert_eq.
    split; [done|]. split; [done|].
    intros p Hp. by rewrite lookup_insert_ne.
  - intros [= <-]. unfold commit. simpl. unfold apply_write. simpl.
    rewrite lookup_insert_eq. simpl. rewrite lookup_insert_eq.
    split; [done|]. split; [done|].
    intros p Hp. by rewrite lookup_insert_ne.
Qed.

(** C5 (defect).  Once the order table exists, [OrderBurn] records an
    order of kind Mint.  Alice's first [OrderBurn] creates the table with
    a Burn order; her second one succeeds and stores a Mint order for 5 in
    state Ordered, and [GetBurnOrder] then fails with "there is no burn
    order". *)
Theorem OrderBurn_on_existing_table_stores_Mint :
  on_both_platforms (λ rw,
    let w0 := after (SmartContract.CreateAccount (alice rw)) ∅ in
    let w1 := after (SmartContract.OrderBurn (alice rw) 4) w0 in
    let w2 := after (SmartContract.OrderBurn (alice rw) 5) w1 in
    order_of w1 "alice" = Some (St_am.mk "Burn" 4 stateOrder) ∧
    (invoke (SmartContract.OrderBurn (alice rw) 5) w1).1 = Ok tt ∧
    order_of w2 "alice" = Some (St_am.mk "Mint" 5 stateOrder) ∧
    (invoke (SmartContract.GetBurnOrder (alice rw)) w2).1 = Err "there is no burn order" ∧
    (invoke (SmartContract.GetMintOrder (alice rw)) w2).1
    = Ok (St_am.mk "Mint" 5 stateOrder)).
Proof. split; by_evaluation. Qed.

(** ** Creating an auction and bidding *)

(** X20.  A successful [CreateAuction] stores, under the auction key and
    in place of whatever was there, an open auction of the caller's for
    the amount and unit price given, without revealed bids or winner and
    priced at the reserve; no other record changes. *)
Lemma CreateAuction_Ok setEndorsement ctx auctionID priceperkwh amount time_rem
    (w w' : gmap string bytes) :
  invoke (SmartContract.CreateAuction setEndorsement ctx auctionID priceperkwh amount time_rem) w
  = (Ok tt, w') →
  ∃ a, w' = <[auctionID := AuctionJSON a]> w ∧
       Auction.Seller a = GetID ctx ∧ Auction.Status a = "open" ∧
       Auction.Amount a = amount ∧ Auction.PricePerKWh a = priceperkwh ∧
       Auction.RevealedBids a = ∅ ∧ reserve_intact a.
Proof.
  unfold invoke, SmartContract.CreateAuction. tx_unfold.
  destruct (decide (auctionID = "")); [done|]. cbv beta iota zeta.
  destruct (setEndorsement _ _ _ _) as [[]|e]; [|done].
  intros [= <-]. eexists. split; [reflexivity|]. by repeat split.
Qed.

(** What a successful [Bid_Rev] does to the auction record (the auction
    key not being the bidder's own account key): the revealed bid goes
    under the key made from the auction identifier alone, whoever bids;
    winner, price and status are kept. *)
Lemma Bid_Rev_Ok queryAllBids range_order addEndorsement contains ctx auctionID amount
    (w w' : gmap string bytes) :
  auctionID ≠ GetID ctx →
  invoke (SmartContract.Bid_Rev queryAllBids range_order addEndorsement contains
            ctx auctionID amount) w = (Ok tt, w') →
  ∃ a orgs,
    w !! auctionID = Some (AuctionJSON a) ∧ Auction.Status a = "open" ∧
    amount ≤ balance w (GetID ctx) ∧
    w' !! auctionID
    = Some (AuctionJSON
              (Auction.set_Orgs orgs
                 (Auction.set_RevealedBids
                    (<[bid_key auctionID :=
                         FullBid.mk (Auction.ItemSold a) amount (GetMSPID ctx) (GetID ctx)]>
                       (Auction.RevealedBids a)) a))).
Proof.
  intros Hne. unfold invoke, SmartContract.Bid_Rev. tx_unfold.
  cbv beta iota zeta. rewrite read_fresh.
  destruct (w !! auctionID) as [[n|m|a]|] eqn:Hw; simpl; try done.
  destruct (decide (Auction.Status a ≠ "open")) as [|Hst]; [done|].
  destruct (decide (_ >= _)); [done|].
  unfold SmartContract.ClientAccountBalance. tx_unfold.
  cbv beta iota zeta. rewrite read_fresh.
  destruct (decide (w !! GetID ctx = None)); [done|]. cbv beta iota zeta.
  destruct (decide (strconv_Atoi (w !! GetID ctx) < amount)) as [|Hbal]; [done|].
  unfold CreateCompositeKey at 1. simpl.
  destruct (has_nul auctionID) eqn:Hnul; [done|]. simpl.
  set (bids := <[_ := _]> (Auction.RevealedBids a)).
  assert (Hhold : ∀ a1 r s1,
    SmartContract.CreateHold ctx amount (mkStub w [(auctionID, Some (AuctionJSON a1))] None)
    = (Ok r, s1) → commit s1 !! auctionID = Some (AuctionJSON a1)).
  { intros a1 [] s1. unfold SmartContract.CreateHold. tx_unfold.
    destruct (decide (amount ≤ 0)); [done|]. cbv beta iota zeta.
    rewrite read_other, read_fresh by done.
    destruct (decide (w !! GetID ctx = None)); [done|]. cbv beta iota zeta.
    destruct (decide (GetID ctx = "")); [done|]. cbv beta iota zeta.
    destruct (CreateCompositeKey holdPrefix [GetID ctx]) as [key|e] eqn:Hkey; [|done].
    apply CreateCompositeKey_hold in Hkey as [Hn ->]. cbv beta iota zeta.
    destruct (decide (hold_key (GetID ctx) = "")); [done|].
    intros [= <-]. unfold commit. simpl. unfold apply_write. simpl.
    rewrite lookup_insert_ne by (by apply hold_key_not_account).
    rewrite lookup_insert_ne by done. apply lookup_insert_eq. }
  destruct (contains (Auction.Orgs a) (GetMSPID ctx)); simpl.
  - destruct (decide (auctionID = "")); [done|]. cbv beta iota zeta.
    destruct (SmartContract.CreateHold _ _ _) as [[[]|e] s1] eqn:Hc; [|done].
    intros [= <-]. apply Hhold in Hc.
    exists a, (Auction.Orgs a). split; [done|].
    split; [by destruct (decide (Auction.Status a = "open")); [|exfalso; auto]|].
    split; [unfold balance; lia|]. rewrite Hc. by destruct a.
  - destruct (addEndorsement _ _ _ _) as [[]|e]; [|done].
    destruct (decide (auctionID = "")); [done|]. cbv beta iota zeta.
    destruct (SmartContract.CreateHold _ _ _) as [[[]|e] s1] eqn:Hc; [|done].
    intros [= <-]. apply Hhold in Hc.
    exists a, (Auction.Orgs a ++ [GetMSPID ctx])%list. split; [done|].
    split; [by destruct (decide (Auction.Status a = "open")); [|exfalso; auto]|].
    split; [unfold balance; lia|]. by rewrite Hc.
Qed.

(** A bidder holding 5 tokens who bids 10 is refused: no hold is made
    and the auction is left as it was. *)
Example Bid_Rev_beyond_balance :
  on_both_platforms (λ rw,
    let w := <["bob" := ItoaBytes 5]> (ledger_auction rw) in
    let bid := SmartContract.Bid_Rev no_unrevealed_bid in_map_order endorsement_ok
                 member (bob rw) "a1" 10 in
    (invoke bid w).1 = Err "balance is less than amount" ∧
    on_hold (after bid w) "bob" = 0 ∧
    revealed_bids (after bid w) "a1" = []).
Proof. split; by_evaluation. Qed.

(** Between [CreateAuction] and [EndAuction] the reserve stays intact:
    neither a bid nor the closing touches winner, price, amount or unit
    price. *)
Lemma reserve_intact_kept a orgs bids status :
  reserve_intact a →
  reserve_intact (Auction.set_Status status a) ∧
  reserve_intact (Auction.set_Orgs orgs (Auction.set_RevealedBids bids a)).
Proof. intros [Hw Hp]. by repeat split. Qed.

(** X27.  Of two successful bids on one auction, by whichever bidders,
    the second leaves the auction with the revealed bids it had before
    the first, plus its own; the first bidder's entry is gone (the
    general form of C7's defect). *)
Lemma Bid_Rev_replaces_earlier_bid
    queryAllBids range_order addEndorsement contains
    ctx1 ctx2 auctionID amount1 amount2 (w w1 w2 : gmap string bytes) :
  auctionID ≠ GetID ctx1 → auctionID ≠ GetID ctx2 →
  invoke (SmartContract.Bid_Rev queryAllBids range_order addEndorsement contains
            ctx1 auctionID amount1) w = (Ok tt, w1) →
  invoke (SmartContract.Bid_Rev queryAllBids range_order addEndorsement contains
            ctx2 auctionID amount2) w1 = (Ok tt, w2) →
  ∃ a a2,
    w !! auctionID = Some (AuctionJSON a) ∧
    w2 !! auctionID = Some (AuctionJSON a2) ∧
    Auction.RevealedBids a2
    = <[bid_key auctionID :=
          FullBid.mk (Auction.ItemSold a) amount2 (GetMSPID ctx2) (GetID ctx2)]>
        (Auction.RevealedBids a).
Proof.
  intros Hne1 Hne2 Hb1 Hb2.
  apply Bid_Rev_Ok in Hb1 as (a & orgs1 & Hw & _ & _ & Hw1); [|done].
  apply Bid_Rev_Ok in Hb2 as (a1 & orgs2 & Hw1' & _ & _ & Hw2); [|done].
  rewrite Hw1 in Hw1'. injection Hw1' as <-.
  eexists a, _. split; [done|]. split; [exact Hw2|].
  simpl. apply insert_insert_eq.
Qed.

(** C7 (defect).  The revealed bid is stored under a key made from the
    auction identifier alone.  On alice's open auction bob bids 60 and
    carol bids 80, both successfully; afterwards the auction record holds
    one revealed bid, carol's, under ["bid" "a1"]: bob's entry was
    overwritten, while his 60 tokens stay on hold. *)
Theorem second_bid_overwrites_first :
  on_both_platforms (λ rw,
    let w0 := ledger_auction rw in
    let w1 := after (bid_bob rw) w0 in
    let w2 := after (bid_carol rw) w1 in
    (invoke (bid_bob rw) w0).1 = Ok tt ∧
    revealed_bids w1 "a1"
    = [(bid_key "a1", FullBid.mk "energy(KWh)" 60 "Org2MSP" "bob")] ∧
    (invoke (bid_carol rw) w1).1 = Ok tt ∧
    revealed_bids w2 "a1"
    = [(bid_key "a1", FullBid.mk "energy(KWh)" 80 "Org3MSP" "carol")] ∧
    on_hold w2 "bob" = 60 ∧ on_hold w2 "carol" = 80).
Proof. split; by_evaluation. Qed.

(** ** Closing an auction *)

(** C8 (as stated, refuted).  On alice's open auction the internal
    [CloseAuction], run for bob, answers the seller error and writes
    nothing: the auction stays open. *)
Lemma internal_CloseAuction_refuses_non_seller :
  on_both_platforms (λ rw,
    let w := ledger_auction rw in
    (Auction.Status <$> stored_auction w "a1") = Some "open" ∧
    (Auction.Seller <$> stored_auction w "a1") = Some "alice" ∧
    CloseAuction (bob rw) "a1" (mkStub w [] None)
    = (Err "auction can only be closed by seller: <nil>", mkStub w [] None) ∧
    (Auction.Status <$> stored_auction (after (CloseAuction (bob rw) "a1") w) "a1")
    = Some "open").
Proof. split; by_evaluation. Qed.

(** C8 (amended).  The internal [CloseAuction] of the expiry paths is the
    same function as the method, seller check included: on an existing
    open auction it sets the status to closed when the caller is the
    seller, and for any other caller it fails with the seller error
    and leaves the record untouched. *)
Theorem internal_CloseAuction_checks_seller ctx auctionID a (w : gmap string bytes) :
  w !! auctionID = Some (AuctionJSON a) →
  auctionID ≠ "" →
  Auction.Status a = "open" →
  CloseAuction ctx auctionID = SmartContract.CloseAuction ctx auctionID ∧
  (Auction.Seller a = GetID ctx →
   invoke (CloseAuction ctx auctionID) w
   = (Ok tt, <[auctionID := AuctionJSON (Auction.set_Status "closed" a)]> w)) ∧
  (Auction.Seller a ≠ GetID ctx →
   CloseAuction ctx auctionID (mkStub w [] None)
   = (Err "auction can only be closed by seller: <nil>", mkStub w [] None)).
Proof.
  intros Hw Hid Hst. split; [reflexivity|].
  unfold invoke, CloseAuction. tx_unfold. rewrite read_fresh, Hw. simpl.
  split; intros Hs; by tx_cases.
Qed.

Lemma internal_CloseAuction_checks_seller_witness :
  invoke (CloseAuction (alice false) "a1") (ledger_auction false)
  = (Ok tt, <["a1" := AuctionJSON (Auction.set_Status "closed" auction_a1)]>
              (ledger_auction false)).
Proof.
  refine (proj1 (proj2 (internal_CloseAuction_checks_seller
            (alice false) "a1" auction_a1 (ledger_auction false) _ _ _)) _).
  - vm_compute. reflexivity.
  - done.
  - reflexivity.
  - reflexivity.
Defined.

(** ** Ending an auction *)

(** The loop only ever touches the winner and the price. *)
Lemma foldl_outbid_shape bids a :
  ∃ winner price, foldl outbid a bids = Auction.set_Winner_Price winner price a.
Proof.
  revert a. induction bids as [|b bids IH]; intros a; simpl.
  - exists (Auction.Winner a), (Auction.Price a). by destruct a.
  - destruct (IH (outbid a b)) as (wn & p & ->). exists wn, p.
    unfold outbid. case_decide; by destruct a.
Qed.

(** What the loop computes over the bids in the order it meets them:
    the price never goes down and ends at least as high as every bid;
    with no bid above the starting price nothing changes; otherwise the
    price ends at the price of a bid, the winner is its bidder, and every
    bid met before it is strictly lower. *)
Lemma foldl_outbid_spec bids a :
  Auction.Price a ≤ Auction.Price (foldl outbid a bids) ∧
  Forall (λ e, FullBid.Price e.2 ≤ Auction.Price (foldl outbid a bids)) bids ∧
  (Forall (λ e, FullBid.Price e.2 ≤ Auction.Price a) bids →
   Auction.Winner (foldl outbid a bids) = Auction.Winner a ∧
   Auction.Price (foldl outbid a bids) = Auction.Price a) ∧
  (Exists (λ e, FullBid.Price e.2 > Auction.Price a) bids →
   ∃ pre e post,
     bids = (pre ++ e :: post)%list ∧
     FullBid.Price e.2 = Auction.Price (foldl outbid a bids) ∧
     Auction.Winner (foldl outbid a bids) = FullBid.Bidder e.2 ∧
     Forall (λ e', FullBid.Price e'.2 < Auction.Price (foldl outbid a bids)) pre).
Proof.
  revert a. induction bids as [|b bids IH]; intros a.
  { simpl. split; [lia|]. split; [constructor|]. split; [done|].
    intros H. by apply Exists_nil in H. }
  simpl. destruct (IH (outbid a b)) as (Hmono & Hall & Hkeep & Hnew).
  set (a' := foldl outbid (outbid a b) bids) in *.
  assert (Hstep : Auction.Price a ≤ Auction.Price (outbid a b) ∧
                  FullBid.Price b.2 ≤ Auction.Price (outbid a b)).
  { unfold outbid. case_decide; simpl; lia. }
  split; [lia|]. split; [constructor; [lia|done]|].
  split.
  - intros Hle. apply Forall_cons in Hle as [Hb Hle].
    assert (Hsame : outbid a b = a).
    { unfold outbid. case_decide; [lia|done]. }
    rewrite Hsame in *. by apply Hkeep.
  - intros Hex.
    destruct (decide (Exists (λ e, FullBid.Price e.2 > Auction.Price (outbid a b)) bids))
      as [Hlater|Hnone].
    + destruct (Hnew Hlater) as (pre & e & post & -> & Hp & Hw & Hpre).
      exists (b :: pre), e, post. split; [done|]. split; [done|]. split; [done|].
      constructor; [|done].
      apply Exists_exists in Hlater as (e0 & Hin & Hgt).
      rewrite Forall_forall in Hall. specialize (Hall e0 Hin). lia.
    + apply not_Exists_Forall in Hnone; [|intros e; apply _].
      assert (Hle : Forall (λ e, FullBid.Price e.2 ≤ Auction.Price (outbid a b)) bids).
      { eapply Forall_impl; [exact Hnone|]. simpl. intros e He.
        apply Z.nlt_ge. intros Hlt. apply He. apply Z.lt_gt, Hlt. }
      destruct (Hkeep Hle) as [Hw Hp].
      destruct (decide (FullBid.Price b.2 > Auction.Price a)) as [Hb|Hb].
      * exists [], b, bids. split; [done|].
        assert (Hout : outbid a b
                       = Auction.set_Winner_Price (FullBid.Bidder b.2) (FullBid.Price b.2) a).
        { unfold outbid. case_decide; [done|lia]. }
        rewrite Hw, Hp, Hout. simpl. by repeat split.
      * exfalso. assert (Hsame : outbid a b = a).
        { unfold outbid. case_decide; [lia|done]. }
        rewrite Hsame in Hle.
        apply Exists_cons in Hex as [Hb'|Hrest]; [lia|].
        apply Exists_exists in Hrest as (e0 & Hin & Hgt).
        rewrite Forall_forall in Hle. specialize (Hle e0 Hin). lia.
Qed.

(** What a successful [EndAuction] requires and writes: the record with
    the outcome of the loop and status ended, then its deletion. *)
Lemma EndAuction_Ok queryAllBids range_order ctx auctionID (s s' : Stub) :
  SmartContract.EndAuction queryAllBids range_order ctx auctionID s = (Ok tt, s') →
  ∃ a, read ctx s auctionID = Some (AuctionJSON a) ∧
       Auction.Seller a = GetID ctx ∧ Auction.Status a = "closed" ∧
       size (Auction.RevealedBids a) ≠ 0%nat ∧
       s' = mkStub (world s)
              ((auctionID, None)
               :: (auctionID,
                   Some (AuctionJSON
                           (Auction.set_Status "ended"
                              (foldl outbid a (range_order (Auction.RevealedBids a))))))
               :: writes s)
              (txEvent s).
Proof.
  unfold SmartContract.EndAuction. tx_unfold. cbv beta iota zeta.
  destruct (read ctx s auctionID) as [[n|m|a]|] eqn:Hr; simpl; try done.
  { by repeat case_decide. }
  destruct (decide (Auction.Seller a ≠ GetID ctx)) as [|Hs]; [done|].
  destruct (decide (Auction.Status a ≠ "closed")) as [|Hst]; [done|].
  destruct (decide (size (Auction.RevealedBids a) = 0%nat)) as [|Hsz]; [done|].
  cbv beta iota zeta.
  destruct (queryAllBids _ _ _ _ _) as [[]|e]; [|done].
  destruct (decide (auctionID = "")) as [|Hne]; [done|].
  intros [= <-]. exists a. split; [done|].
  split; [by destruct (decide (Auction.Seller a = GetID ctx)); [|exfalso; auto]|].
  split; [by destruct (decide (Auction.Status a = "closed")); [|exfalso; auto]|].
  by split.
Qed.

(** C6.  For every successful [EndAuction] call on an auction record
    whose price is still the reserve amount * pricePerKWh and whose winner
    is still empty (the caller is then the seller, the status closed, and
    there is a revealed bid), whatever the order in which the loop meets
    the revealed bids: the record written, with status ended, before the
    key is deleted is such that, if some revealed bid's price strictly
    exceeds the reserve, its price is the maximum revealed price and its
    winner is the bidder of the first bid met with that price (every bid
    met earlier is strictly lower, so a tie goes to the bid seen first);
    and if no revealed bid strictly exceeds the reserve, its winner is
    empty and its price is the reserve. *)
Theorem EndAuction_selects_highest_bid
    queryAllBids (range_order : gmap string FullBid.t → list (string * FullBid.t))
    ctx auctionID a (s s' : Stub) :
  (∀ m, range_order m ≡ₚ map_to_list m) →
  read ctx s auctionID = Some (AuctionJSON a) →
  reserve_intact a →
  SmartContract.EndAuction queryAllBids range_order ctx auctionID s = (Ok tt, s') →
  let reserve := int_mul (Auction.Amount a) (Auction.PricePerKWh a) in
  Auction.Seller a = GetID ctx ∧ Auction.Status a = "closed" ∧
  Auction.RevealedBids a ≠ ∅ ∧
  ∃ a',
    writes s' = (auctionID, None) :: (auctionID, Some (AuctionJSON a')) :: writes s ∧
    Auction.Status a' = "ended" ∧
    ((∃ k b, Auction.RevealedBids a !! k = Some b ∧ FullBid.Price b > reserve) →
     (∀ k b, Auction.RevealedBids a !! k = Some b → FullBid.Price b ≤ Auction.Price a') ∧
     ∃ pre e post,
       range_order (Auction.RevealedBids a) = (pre ++ e :: post)%list ∧
       Auction.RevealedBids a !! e.1 = Some e.2 ∧
       FullBid.Price e.2 = Auction.Price a' ∧
       Auction.Winner a' = FullBid.Bidder e.2 ∧
       Forall (λ e', FullBid.Price e'.2 < Auction.Price a') pre) ∧
    ((∀ k b, Auction.RevealedBids a !! k = Some b → FullBid.Price b ≤ reserve) →
     Auction.Winner a' = "" ∧ Auction.Price a' = reserve).
Proof.
  intros Hperm Hread [Hwin Hprice] Hend reserve.
  apply EndAuction_Ok in Hend as (a0 & Hread' & Hs & Hst & Hsz & ->).
  rewrite Hread in Hread'. injection Hread' as <-.
  set (bids := range_order (Auction.RevealedBids a)).
  assert (Hin : ∀ e, e ∈ bids ↔ Auction.RevealedBids a !! e.1 = Some e.2).
  { intros [k b]. unfold bids. rewrite (Hperm _). apply elem_of_map_to_list. }
  split; [done|]. split; [done|].
  split. { intros Hempty. apply Hsz. rewrite Hempty. apply map_size_empty. }
  exists (Auction.set_Status "ended" (foldl outbid a bids)).
  split; [done|]. split; [done|].
  destruct (foldl_outbid_spec bids a) as (_ & Hall & Hkeep & Hnew).
  simpl. fold reserve in Hprice. split.
  - intros (k & b & Hkb & Hgt). split.
    + intros k' b' Hkb'. rewrite Forall_forall in Hall.
      apply (Hall (k', b')). by apply Hin.
    + destruct Hnew as (pre & e & post & Hsplit & Hp & Hw & Hpre).
      { apply Exists_exists. exists (k, b). split; [by apply Hin|]. simpl. lia. }
      exists pre, e, post. split; [done|]. split; [|done].
      apply Hin. rewrite Hsplit. apply elem_of_app. right. apply elem_of_cons. by left.
  - intros Hle. rewrite <- Hwin, <- Hprice. apply Hkeep.
    apply Forall_forall. intros [k b] Hkb. simpl. rewrite Hprice.
    apply (Hle k). by apply (Hin (k, b)).
Qed.

Lemma EndAuction_selects_highest_bid_witness :
  let s := mkStub ledger_two_bids [] None in
  let a := auction_two_bids in
  let s' := (SmartContract.EndAuction no_unrevealed_bid in_map_order (alice false) "a2" s).2 in
  let reserve := int_mul (Auction.Amount a) (Auction.PricePerKWh a) in
  Auction.Seller a = GetID (alice false) ∧ Auction.Status a = "closed" ∧
  Auction.RevealedBids a ≠ ∅ ∧
  ∃ a',
    writes s' = ("a2", None) :: ("a2", Some (AuctionJSON a')) :: writes s ∧
    Auction.Status a' = "ended" ∧
    ((∃ k b, Auction.RevealedBids a !! k = Some b ∧ FullBid.Price b > reserve) →
     (∀ k b, Auction.RevealedBids a !! k = Some b → FullBid.Price b ≤ Auction.Price a') ∧
     ∃ pre e post,
       in_map_order (Auction.RevealedBids a) = (pre ++ e :: post)%list ∧
       Auction.RevealedBids a !! e.1 = Some e.2 ∧
       FullBid.Price e.2 = Auction.Price a' ∧
       Auction.Winner a' = FullBid.Bidder e.2 ∧
       Forall (λ e', FullBid.Price e'.2 < Auction.Price a') pre) ∧
    ((∀ k b, Auction.RevealedBids a !! k = Some b → FullBid.Price b ≤ reserve) →
     Auction.Winner a' = "" ∧ Auction.Price a' = reserve).
Proof.
  intros s a s'.
  apply (EndAuction_selects_highest_bid no_unrevealed_bid in_map_order
           (alice false) "a2" a s s').
  - intros m. reflexivity.
  - unfold s. rewrite read_fresh. apply lookup_insert_eq.
  - split; reflexivity.
  - apply run_Ok. vm_compute. reflexivity.
Defined.

(** On the record with bids of 60 and 80 over a reserve of 50, the record
    written names carol and 80. *)
Example EndAuction_two_bids :
  writes (SmartContract.EndAuction no_unrevealed_bid in_map_order (alice false) "a2"
            (mkStub ledger_two_bids [] None)).2
  = [("a2", None);
     ("a2", Some (AuctionJSON
                    (Auction.set_Status "ended"
                       (Auction.set_Winner_Price "carol" 80 auction_two_bids))))].
Proof. vm_compute. reflexivity. Qed.

(** * Further properties of the ledger *)

(** ** Composite keys *)

Lemma CreateCompositeKey_allowance owner spender key :
  CreateCompositeKey allowancePrefix [owner; spender] = Ok key →
  has_nul owner = false ∧ has_nul spender = false ∧ key = allowance_key owner spender.
Proof.
  unfold CreateCompositeKey. simpl.
  destruct (has_nul owner) eqn:Ho; simpl; [done|].
  destruct (has_nul spender) eqn:Hs; simpl; [done|].
  intros [= <-]. repeat split; reflexivity.
Qed.

Lemma allowance_key_ok owner spender :
  has_nul owner = false → has_nul spender = false →
  CreateCompositeKey allowancePrefix [owner; spender] = Ok (allowance_key owner spender).
Proof.
  intros Ho Hs. unfold CreateCompositeKey. simpl. rewrite Ho, Hs. reflexivity.
Qed.

Lemma allowance_key_not_account owner spender id :
  has_nul id = false → allowance_key owner spender ≠ id.
Proof.
  intros Hn <-. unfold allowance_key in Hn. rewrite has_nul_app in Hn. done.
Qed.

(** A segment free of U+0000 is read back from the front of a key. *)
Lemma segment_inj a a' k k' :
  has_nul a = false → has_nul a' = false →
  a +:+ nul +:+ k = a' +:+ nul +:+ k' → a = a' ∧ k = k'.
Proof.
  revert a'. induction a as [|c a IH]; intros [|c' a'] Ha Ha' Heq;
    cbn in Ha, Ha', Heq.
  - by simplify_eq.
  - simplify_eq.
  - simplify_eq.
  - injection Heq as -> Heq. case_decide; [done|].
    destruct (IH a' Ha Ha' Heq) as [-> ->]. done.
Qed.

Lemma allowance_key_inj o1 s1 o2 s2 :
  has_nul o1 = false → has_nul s1 = false →
  has_nul o2 = false → has_nul s2 = false →
  allowance_key o1 s1 = allowance_key o2 s2 → o1 = o2 ∧ s1 = s2.
Proof.
  intros Ho1 Hs1 Ho2 Hs2 Heq. unfold allowance_key in Heq.
  injection Heq as Heq. cbn in Heq.
  apply segment_inj in Heq as [-> Heq]; [|done..].
  apply segment_inj in Heq as [-> _]; done.
Qed.

Lemma allowance_key_not_hold_key owner spender holder :
  allowance_key owner spender ≠ hold_key holder.
Proof. unfold allowance_key, hold_key. intros Heq. by injection Heq. Qed.

(** ** Accounts *)

(** X1.  [CreateAccount] opens the caller's account at balance 0 and
    touches no other record; once the record exists, a further
    [CreateAccount] fails with "already exist" before any write, so an
    existing balance is never reset. *)
Theorem CreateAccount_effect ctx (w : gmap string bytes) :
  GetID ctx ≠ "" →
  w !! GetID ctx = None →
  invoke (SmartContract.CreateAccount ctx) w = (Ok tt, <[GetID ctx := ItoaBytes 0]> w) ∧
  invoke (SmartContract.ClientAccountBalance ctx) (<[GetID ctx := ItoaBytes 0]> w)
  = (Ok 0, <[GetID ctx := ItoaBytes 0]> w) ∧
  (∀ w1 : gmap string bytes, w1 !! GetID ctx ≠ None →
     SmartContract.CreateAccount ctx (mkStub w1 [] None)
     = (Err ("account " +:+ GetID ctx +:+ " already exist"), mkStub w1 [] None)).
Proof.
  intros Hne Hw. split; [|split].
  - unfold invoke, SmartContract.CreateAccount. tx_unfold.
    cbv beta iota zeta. rewrite read_fresh.
    rewrite decide_True by done. by rewrite decide_False.
  - unfold invoke, SmartContract.ClientAccountBalance. tx_unfold.
    cbv beta iota zeta. rewrite read_fresh, lookup_insert_eq.
    rewrite decide_False by done. reflexivity.
  - intros w1 Hw1. unfold SmartContract.CreateAccount. tx_unfold.
    cbv beta iota zeta. rewrite read_fresh. by rewrite decide_False.
Qed.

Lemma CreateAccount_effect_witness :
  invoke (SmartContract.CreateAccount (bob false)) (ledger_alice_10 false)
  = (Ok tt, <[GetID (bob false) := ItoaBytes 0]> (ledger_alice_10 false)) ∧
  invoke (SmartContract.ClientAccountBalance (bob false))
    (<[GetID (bob false) := ItoaBytes 0]> (ledger_alice_10 false))
  = (Ok 0, <[GetID (bob false) := ItoaBytes 0]> (ledger_alice_10 false)) ∧
  (∀ w1 : gmap string bytes, w1 !! GetID (bob false) ≠ None →
     SmartContract.CreateAccount (bob false) (mkStub w1 [] None)
     = (Err ("account " +:+ GetID (bob false) +:+ " already exist"), mkStub w1 [] None)).
Proof.
  apply (CreateAccount_effect (bob false) (ledger_alice_10 false)).
  - vm_compute. discriminate.
  - vm_compute. reflexivity.
Defined.

(** ** Allowances *)

Lemma balance_or_zero_Atoi b : balance_or_zero b = strconv_Atoi b.
Proof. by destruct b. Qed.

Lemma allowance_is_int w owner spender : is_int (allowance w owner spender).
Proof. unfold allowance. rewrite balance_or_zero_Atoi. apply strconv_Atoi_is_int. Qed.


(** What a successful [Approve] requires and writes. *)
Lemma Approve_Ok ctx spender v (w w' : gmap string bytes) :
  invoke (SmartContract.Approve ctx spender v) w = (Ok tt, w') →
  has_nul (GetID ctx) = false ∧ has_nul spender = false ∧
  w' = <[allowance_key (GetID ctx) spender := ItoaBytes v]> w.
Proof.
  unfold invoke, SmartContract.Approve. tx_unfold.
  destruct (CreateCompositeKey allowancePrefix [GetID ctx; spender])
    as [key|e] eqn:Hkey; [|done].
  apply CreateCompositeKey_allowance in Hkey as (Ho & Hs & ->).
  tx_run. by intros [= <-].
Qed.

(** X2.  [Approve(spender, value)] sets the allowance of the pair
    (caller, spender) to exactly [value], whatever it was before and
    whatever the sign of [value]: [Allowance] then reports [value] to
    every caller, the allowance of every other pair is unchanged, and no
    other record is written. *)
Theorem Approve_sets_allowance ctx spender v (w w' : gmap string bytes) :
  is_int v →
  invoke (SmartContract.Approve ctx spender v) w = (Ok tt, w') →
  (∀ ctx', invoke (SmartContract.Allowance ctx' (GetID ctx) spender) w' = (Ok v, w')) ∧
  (∀ owner' spender', has_nul owner' = false → has_nul spender' = false →
     (owner', spender') ≠ (GetID ctx, spender) →
     allowance w' owner' spender' = allowance w owner' spender') ∧
  (∀ key, key ≠ allowance_key (GetID ctx) spender → w' !! key = w !! key).
Proof.
  intros Hv Hap. apply Approve_Ok in Hap as (Ho & Hs & ->).
  split; [|split].
  - intros ctx'. unfold invoke, SmartContract.Allowance. tx_unfold.
    rewrite (allowance_key_ok _ _ Ho Hs). cbv beta iota zeta.
    rewrite read_fresh, lookup_insert_eq. simpl. by rewrite clamp_id.
  - intros o s Hno Hns Hpair. unfold allowance.
    rewrite lookup_insert_ne; [done|].
    intros Heq. apply allowance_key_inj in Heq as [E1 E2]; [|done..].
    apply Hpair. by rewrite E1, E2.
  - intros key Hk. by rewrite lookup_insert_ne.
Qed.

Lemma Approve_sets_allowance_witness :
  let w := ledger_alice_10 false in
  let w' := after (SmartContract.Approve (alice false) "bob" 4) w in
  (∀ ctx', invoke (SmartContract.Allowance ctx' (GetID (alice false)) "bob") w' = (Ok 4, w')) ∧
  (∀ owner' spender', has_nul owner' = false → has_nul spender' = false →
     (owner', spender') ≠ (GetID (alice false), "bob") →
     allowance w' owner' spender' = allowance w owner' spender') ∧
  (∀ key, key ≠ allowance_key (GetID (alice false)) "bob" → w' !! key = w !! key).
Proof.
  intros w w'.
  apply (Approve_sets_allowance (alice false) "bob" 4 w w').
  - vm_compute. split; discriminate.
  - apply invoke_after. vm_compute. reflexivity.
Defined.

(** What a successful [TransferFrom] requires and writes; the allowance
    is written last. *)
Lemma TransferFrom_Ok ctx sender recipient amount (w w' : gmap string bytes) :
  invoke (SmartContract.TransferFrom ctx sender recipient amount) w = (Ok tt, w') →
  has_nul sender = false ∧ has_nul (GetID ctx) = false ∧
  0 ≤ amount ∧ amount ≤ allowance w sender (GetID ctx) ∧
  w !! sender ≠ None ∧ amount ≤ balance w sender ∧
  w' = <[allowance_key sender (GetID ctx) :=
           ItoaBytes (int_sub (allowance w sender (GetID ctx)) amount)]>
         (<[recipient := ItoaBytes (int_add (balance_or_zero (w !! recipient)) amount)]>
            (<[sender := ItoaBytes (int_sub (balance w sender) amount)]> w)).
Proof.
  unfold invoke, SmartContract.TransferFrom. tx_unfold.
  destruct (CreateCompositeKey allowancePrefix [sender; GetID ctx])
    as [key|e] eqn:Hkey; [|done].
  apply CreateCompositeKey_allowance in Hkey as (Ho & Hs & ->).
  cbv beta iota zeta. rewrite read_fresh.
  assert (Hal : strconv_Atoi (w !! allowance_key sender (GetID ctx))
                = allowance w sender (GetID ctx)).
  { unfold allowance. by rewrite balance_or_zero_Atoi. }
  rewrite Hal.
  destruct (decide (allowance w sender (GetID ctx) < amount)); [done|].
  destruct (transferHelper ctx sender recipient amount (mkStub w [] None))
    as [[[]|e] s1] eqn:Ht; [|done].
  apply transferHelper_Ok in Ht as (Hpos & Hb & Hle & ->).
  tx_run. intros [= <-]. repeat split; try done; lia.
Qed.

(** X3.  A successful [TransferFrom(from, to, value)] between distinct
    accounts (the recipient's key being free of U+0000) moves [value]
    from [from] to [to] and takes it off the spender's allowance: the
    sender's balance and the allowance both go down by exactly [value]
    and stay at or above zero, the recipient's balance goes up by it (in
    [int] arithmetic), and no other record changes. *)
Theorem TransferFrom_effect ctx sender recipient amount (w w' : gmap string bytes) :
  sender ≠ recipient →
  has_nul recipient = false →
  invoke (SmartContract.TransferFrom ctx sender recipient amount) w = (Ok tt, w') →
  0 ≤ amount ∧
  balance w' sender = balance w sender - amount ∧ 0 ≤ balance w' sender ∧
  balance w' recipient = wrap (balance_or_zero (w !! recipient) + amount) ∧
  allowance w' sender (GetID ctx) = allowance w sender (GetID ctx) - amount ∧
  0 ≤ allowance w' sender (GetID ctx) ∧
  (∀ key, key ≠ sender → key ≠ recipient → key ≠ allowance_key sender (GetID ctx) →
     w' !! key = w !! key).
Proof.
  intros Hne Hnr Htf.
  apply TransferFrom_Ok in Htf as (Hns & Hnc & Hpos & Hal & Hb & Hle & ->).
  set (akey := allowance_key sender (GetID ctx)).
  assert (Hk1 : akey ≠ sender) by by apply allowance_key_not_account.
  assert (Hk2 : akey ≠ recipient) by by apply allowance_key_not_account.
  pose proof (balance_is_int w sender) as Hbi.
  pose proof (allowance_is_int w sender (GetID ctx)) as Hai.
  assert (Hsb : int_sub (balance w sender) amount = balance w sender - amount).
  { apply wrap_id. unfold is_int, int_min, int_max in *. lia. }
  assert (Hsa : int_sub (allowance w sender (GetID ctx)) amount
                = allowance w sender (GetID ctx) - amount).
  { apply wrap_id. unfold is_int, int_min, int_max in *. lia. }
  rewrite Hsb, Hsa.
  set (w' := <[akey := _]> _).
  assert (Hls : balance w' sender = balance w sender - amount).
  { unfold balance at 1, w'. rewrite !lookup_insert_ne by done.
    rewrite lookup_insert_eq. simpl. apply clamp_id.
    unfold is_int, int_min, int_max in *. lia. }
  assert (Hlr : balance w' recipient = wrap (balance_or_zero (w !! recipient) + amount)).
  { unfold balance at 1, w'. rewrite lookup_insert_ne by done.
    rewrite lookup_insert_eq. simpl. apply clamp_wrap. }
  assert (Hla : allowance w' sender (GetID ctx) = allowance w sender (GetID ctx) - amount).
  { unfold allowance at 1, w'. fold akey. rewrite lookup_insert_eq. simpl. apply clamp_id.
    unfold is_int, int_min, int_max in *. lia. }
  rewrite Hls, Hlr, Hla.
  repeat (split; [first [done|lia]|]).
  intros key H1 H2 H3. unfold w'. by rewrite !lookup_insert_ne.
Qed.

Lemma TransferFrom_effect_witness :
  let w := after (SmartContract.Approve (alice false) "bob" 4) (ledger_alice_10 false) in
  let w' := after (SmartContract.TransferFrom (bob false) "alice" "carol" 3) w in
  0 ≤ 3 ∧
  balance w' "alice" = balance w "alice" - 3 ∧ 0 ≤ balance w' "alice" ∧
  balance w' "carol" = wrap (balance_or_zero (w !! "carol") + 3) ∧
  allowance w' "alice" (GetID (bob false)) = allowance w "alice" (GetID (bob false)) - 3 ∧
  0 ≤ allowance w' "alice" (GetID (bob false)) ∧
  (∀ key, key ≠ "alice" → key ≠ "carol" →
     key ≠ allowance_key "alice" (GetID (bob false)) → w' !! key = w !! key).
Proof.
  intros w w'.
  apply (TransferFrom_effect (bob false) "alice" "carol" 3 w w').
  - discriminate.
  - reflexivity.
  - apply invoke_after. vm_compute. reflexivity.
Defined.

(** [transferHelper] goes through whenever the amount is not negative and
    the sender's record covers it; the recipient's record need not exist. *)
Lemma transferHelper_run ctx sender recipient amount (w : gmap string bytes) ev :
  sender ≠ "" → recipient ≠ "" →
  0 ≤ amount → w !! sender ≠ None → amount ≤ balance w sender →
  transferHelper ctx sender recipient amount (mkStub w [] ev)
  = (Ok tt,
     mkStub w
       [(recipient, Some (ItoaBytes (int_add (balance_or_zero (w !! recipient)) amount)));
        (sender, Some (ItoaBytes (int_sub (balance w sender) amount)))]
       ev).
Proof.
  intros Hs Hr Hpos Hb Hle. unfold balance in Hle.
  unfold transferHelper. tx_unfold. tx_run. reflexivity.
Qed.



(** ** Transfers, continued *)

(** X6.  [Transfer(to, value)] between non-empty account keys succeeds
    exactly when the value is not negative and the caller's record exists
    and covers it; in every other case it fails before any write.  The
    recipient's record need not exist. *)
Theorem Transfer_succeeds_iff ctx recipient amount (w : gmap string bytes) :
  GetID ctx ≠ "" → recipient ≠ "" →
  ((invoke (SmartContract.Transfer ctx recipient amount) w).1 = Ok tt ↔
   0 ≤ amount ∧ w !! GetID ctx ≠ None ∧ amount ≤ balance w (GetID ctx)) ∧
  (¬ (0 ≤ amount ∧ w !! GetID ctx ≠ None ∧ amount ≤ balance w (GetID ctx)) →
   ∃ e, SmartContract.Transfer ctx recipient amount (mkStub w [] None)
        = (Err e, mkStub w [] None)).
Proof.
  intros Hs Hr. split; [split|].
  - unfold invoke, SmartContract.Transfer. tx_unfold.
    destruct (transferHelper ctx (GetID ctx) recipient amount (mkStub w [] None))
      as [[[]|e] s1] eqn:Ht; [|done].
    apply transferHelper_Ok in Ht as (Hpos & Hb & Hle & ->). done.
  - intros (Hpos & Hb & Hle).
    unfold invoke, SmartContract.Transfer. tx_unfold.
    rewrite (transferHelper_run ctx (GetID ctx) recipient amount w None) by done.
    done.
  - intros Hno. unfold SmartContract.Transfer, transferHelper. tx_unfold.
    destruct (decide (amount < 0)); [by eexists|].
    cbv beta iota zeta. rewrite read_fresh.
    destruct (decide (w !! GetID ctx = None)); [by eexists|].
    destruct (decide (strconv_Atoi (w !! GetID ctx) < amount)); [by eexists|].
    exfalso. apply Hno. unfold balance. split; [lia|]. split; [done|lia].
Qed.

Lemma Transfer_succeeds_iff_witness :
  (invoke (SmartContract.Transfer (alice false) "dave" 10) (ledger_alice_10 false)).1 = Ok tt.
Proof.
  apply (Transfer_succeeds_iff (alice false) "dave" 10 (ledger_alice_10 false));
    [discriminate|discriminate|].
  vm_compute. repeat apply conj; first [discriminate | reflexivity].
Defined.

Lemma Transfer_to_other_witness :
  let w := ledger_alice_10 false in
  let w' := after (SmartContract.Transfer (alice false) "bob" 4) w in
  balance w' (GetID (alice false)) = balance w (GetID (alice false)) - 4 ∧
  0 ≤ balance w' (GetID (alice false)) ∧
  balance w' "bob" = wrap (balance_or_zero (w !! "bob") + 4) ∧
  (∀ key, key ≠ GetID (alice false) → key ≠ "bob" → w' !! key = w !! key).
Proof.
  intros w w'.
  apply (Transfer_to_other (alice false) "bob" 4 w w').
  - discriminate.
  - apply invoke_after. vm_compute. reflexivity.
Defined.

Lemma Transfer_to_self_witness :
  let w := ledger_alice_10 false in
  let w' := after (SmartContract.Transfer (alice false) (GetID (alice false)) 5) w in
  0 ≤ 5 ≤ balance w (GetID (alice false)) ∧
  balance w' (GetID (alice false)) = wrap (balance w (GetID (alice false)) + 5) ∧
  (∀ key, key ≠ GetID (alice false) → w' !! key = w !! key).
Proof.
  intros w w'.
  apply (Transfer_to_self (alice false) 5 w w').
  apply invoke_after. vm_compute. reflexivity.
Defined.

(** ** Holds, continued *)

(** [CreateHold] goes through for every positive amount once the
    caller's record exists. *)
Lemma CreateHold_run ctx amount (w : gmap string bytes) :
  GetID ctx ≠ "" → has_nul (GetID ctx) = false →
  0 < amount → w !! GetID ctx ≠ None →
  invoke (SmartContract.CreateHold ctx amount) w
  = (Ok tt,
     <[hold_key (GetID ctx) :=
         ItoaBytes (match w !! hold_key (GetID ctx) with
                    | None => amount
                    | Some _ => int_add (strconv_Atoi (w !! hold_key (GetID ctx))) amount
                    end)]>
       (<[GetID ctx := ItoaBytes (int_sub (balance w (GetID ctx)) amount)]> w)).
Proof.
  intros Hne Hn Hpos Hb. unfold invoke, SmartContract.CreateHold. tx_unfold. tx_run.
  rewrite (hold_key_ok _ Hn). cbv beta iota zeta.
  rewrite read_other by (intros Heq; by apply (hold_key_not_account (GetID ctx) (GetID ctx))).
  rewrite read_fresh.
  rewrite decide_False by (intros Hk; by apply (hold_key_not_account (GetID ctx) "")).
  reflexivity.
Qed.

(** X8.  [CreateHold(amount)], for a caller whose identity is a
    non-empty text free of U+0000, succeeds exactly when the amount is
    positive and the caller's balance record exists: the amount is not
    compared with the balance.  On success the balance goes down by the
    amount and the amount on hold goes up by it (both in [int]
    arithmetic, so the balance can end below zero), and no other record
    changes. *)
Theorem CreateHold_succeeds_iff ctx amount (w : gmap string bytes) :
  GetID ctx ≠ "" → has_nul (GetID ctx) = false → is_int amount →
  ((invoke (SmartContract.CreateHold ctx amount) w).1 = Ok tt ↔
   0 < amount ∧ w !! GetID ctx ≠ None) ∧
  (∀ w', invoke (SmartContract.CreateHold ctx amount) w = (Ok tt, w') →
     balance w' (GetID ctx) = wrap (balance w (GetID ctx) - amount) ∧
     on_hold w' (GetID ctx) = wrap (on_hold w (GetID ctx) + amount) ∧
     (∀ key, key ≠ GetID ctx → key ≠ hold_key (GetID ctx) → w' !! key = w !! key)).
Proof.
  intros Hne Hn Hint. split; [split|].
  - intros Hok. apply invoke_after in Hok.
    apply CreateHold_Ok in Hok as (Hpos & Hb & _). done.
  - intros [Hpos Hb]. by rewrite CreateHold_run.
  - intros w' Hok. apply CreateHold_Ok in Hok as (Hpos & Hb & _ & _ & ->).
    assert (Hk : hold_key (GetID ctx) ≠ GetID ctx) by by apply hold_key_not_account.
    split; [|split].
    + unfold balance at 1. rewrite lookup_insert_ne, lookup_insert_eq by done.
      simpl. apply clamp_wrap.
    + unfold on_hold at 1. rewrite lookup_insert_eq. unfold on_hold, balance_or_zero.
      destruct (w !! hold_key (GetID ctx)) as [b|]; simpl.
      * apply clamp_wrap.
      * rewrite clamp_id by done. symmetry. by apply wrap_id.
    + intros key H1 H2. by rewrite !lookup_insert_ne.
Qed.

Lemma CreateHold_succeeds_iff_witness :
  let w := ledger_alice_10 false in
  ((invoke (SmartContract.CreateHold (alice false) 15) w).1 = Ok tt ↔
   0 < 15 ∧ w !! GetID (alice false) ≠ None) ∧
  (∀ w', invoke (SmartContract.CreateHold (alice false) 15) w = (Ok tt, w') →
     balance w' (GetID (alice false)) = wrap (balance w (GetID (alice false)) - 15) ∧
     on_hold w' (GetID (alice false)) = wrap (on_hold w (GetID (alice false)) + 15) ∧
     (∀ key, key ≠ GetID (alice false) → key ≠ hold_key (GetID (alice false)) →
        w' !! key = w !! key)).
Proof.
  intros w.
  apply (CreateHold_succeeds_iff (alice false) 15 w).
  - discriminate.
  - reflexivity.
  - vm_compute. split; discriminate.
Defined.



(** [ExecuteHold] by a caller other than the holder goes through once
    the hold covers the amount and both balance records exist. *)
Lemma ExecuteHold_run ctx holder amount (w : gmap string bytes) :
  GetID ctx ≠ holder → GetID ctx ≠ "" → holder ≠ "" →
  has_nul (GetID ctx) = false → has_nul holder = false →
  0 < amount → w !! hold_key holder ≠ None →
  amount ≤ strconv_Atoi (w !! hold_key holder) →
  w !! GetID ctx ≠ None → w !! holder ≠ None →
  invoke (ExecuteHold ctx holder amount) w
  = (Ok tt,
     <[hold_key holder := ItoaBytes (strconv_Atoi (w !! hold_key holder))]>
       (<[holder := ItoaBytes (int_sub (int_add (balance w holder)
                                          (strconv_Atoi (w !! hold_key holder))) amount)]>
          (<[GetID ctx := ItoaBytes (int_add (balance w (GetID ctx)) amount)]> w))).
Proof.
  intros Hne Hc Hh Hnc Hnh Hpos Hhold Hle Hbc Hbh.
  unfold invoke, ExecuteHold. tx_unfold. tx_run.
  rewrite (hold_key_ok _ Hnh). tx_run.
  rewrite read_other, read_fresh by done. tx_run.
  reflexivity.
Qed.

(** A successful [ExecuteHold] had non-empty keys to write to. *)
Lemma ExecuteHold_keys ctx holder amount (w w' : gmap string bytes) :
  invoke (ExecuteHold ctx holder amount) w = (Ok tt, w') →
  GetID ctx ≠ "" ∧ holder ≠ "".
Proof.
  unfold invoke, ExecuteHold. tx_unfold.
  case_decide; [done|].
  destruct (CreateCompositeKey holdPrefix [holder]) as [key|e]; [|done].
  cbv beta iota zeta. rewrite read_fresh.
  case_decide; [done|]. case_decide; [done|].
  cbv beta iota zeta. rewrite read_fresh.
  case_decide; [done|].
  destruct (decide (GetID ctx = "")) as [|Hc]; [done|].
  cbv beta iota zeta.
  destruct (decide (read ctx _ holder = None)); [done|].
  destruct (decide (holder = "")) as [|Hh]; [done|].
  done.
Qed.

(** X10.  An executed hold can be executed again.  [ExecuteHold] writes
    the hold record back with the value it read, so after a successful
    [ExecuteHold(holder, amount)] by a caller other than the holder the
    same call succeeds once more: over the two calls the caller has
    received the amount twice and the holder the remainder of the hold
    twice (in [int] arithmetic), out of a hold that was put aside once
    and still stands in full. *)
Theorem ExecuteHold_can_be_repeated ctx holder amount (w w' : gmap string bytes) :
  has_nul (GetID ctx) = false →
  GetID ctx ≠ holder →
  invoke (ExecuteHold ctx holder amount) w = (Ok tt, w') →
  let h := on_hold w holder in
  ∃ w'', invoke (ExecuteHold ctx holder amount) w' = (Ok tt, w'') ∧
         balance w'' (GetID ctx) = wrap (balance w (GetID ctx) + 2 * amount) ∧
         balance w'' holder = wrap (balance w holder + 2 * (h - amount)) ∧
         on_hold w'' holder = h.
Proof.
  intros Hn Hne Hex h.
  destruct (ExecuteHold_keys _ _ _ _ _ Hex) as [Hc Hh].
  apply ExecuteHold_Ok in Hex as (Hpos & Hnh & Hhold & Hle & Hbc & Hbh & ->); [|done..].
  assert (Hk1 : hold_key holder ≠ GetID ctx) by by apply hold_key_not_account.
  assert (Hk2 : hold_key holder ≠ holder) by by apply hold_key_not_account.
  assert (Hh0 : strconv_Atoi (w !! hold_key holder) = h).
  { unfold h, on_hold. by rewrite balance_or_zero_Atoi. }
  rewrite Hh0 in *.
  assert (Hhi : is_int h) by (rewrite <- Hh0; apply strconv_Atoi_is_int).
  set (w' := <[hold_key holder := ItoaBytes h]> _).
  assert (Hw'h : w' !! hold_key holder = Some (ItoaBytes h)) by apply lookup_insert_eq.
  assert (Hw'b : balance w' holder = wrap (balance w holder + h - amount)).
  { unfold balance at 1, w'. rewrite lookup_insert_ne, lookup_insert_eq by done.
    simpl. unfold int_sub, int_add. by rewrite clamp_wrap, wrap_sub_l. }
  assert (Hw'c : balance w' (GetID ctx) = wrap (balance w (GetID ctx) + amount)).
  { unfold balance at 1, w'. rewrite !lookup_insert_ne, lookup_insert_eq by done.
    simpl. unfold int_add. by rewrite clamp_wrap. }
  assert (Hh1 : strconv_Atoi (w' !! hold_key holder) = h).
  { rewrite Hw'h. simpl. by apply clamp_id. }
  eexists. split.
  - apply ExecuteHold_run; try done.
    + by rewrite Hw'h.
    + by rewrite Hh1.
    + unfold w'. rewrite !lookup_insert_ne, lookup_insert_eq by done. done.
    + unfold w'. rewrite lookup_insert_ne, lookup_insert_eq by done. done.
  - rewrite Hh1, Hw'b, Hw'c. split; [|split].
    + unfold balance at 1. rewrite !lookup_insert_ne, lookup_insert_eq by done.
      simpl. unfold int_add. rewrite clamp_wrap, wrap_add_l. f_equal. lia.
    + unfold balance at 1. rewrite lookup_insert_ne, lookup_insert_eq by done.
      simpl. unfold int_sub, int_add. rewrite clamp_wrap, wrap_sub_l.
      replace (wrap (balance w holder + h - amount) + h - amount)
        with (wrap (balance w holder + h - amount) + (h - amount)) by lia.
      rewrite wrap_add_l. f_equal. lia.
    + unfold on_hold. rewrite lookup_insert_eq. simpl. by apply clamp_id.
Qed.

Lemma ExecuteHold_can_be_repeated_witness :
  let w := <["bob" := ItoaBytes 0]>
             (after (SmartContract.CreateHold (alice false) 3) (ledger_alice_10 false)) in
  let w' := after (ExecuteHold (bob false) "alice" 2) w in
  let h := on_hold w "alice" in
  ∃ w'', invoke (ExecuteHold (bob false) "alice" 2) w' = (Ok tt, w'') ∧
         balance w'' (GetID (bob false)) = wrap (balance w (GetID (bob false)) + 2 * 2) ∧
         balance w'' "alice" = wrap (balance w "alice" + 2 * (h - 2)) ∧
         on_hold w'' "alice" = h.
Proof.
  intros w w'.
  apply (ExecuteHold_can_be_repeated (bob false) "alice" 2 w w').
  - reflexivity.
  - discriminate.
  - apply invoke_after. vm_compute. reflexivity.
Defined.

(** ** The read-only queries, continued *)


(** ** The mint/burn workflow, continued *)

Lemma order_of_Some w account o :
  order_of w account = Some o ↔
  ∃ g, w !! MintBurnKey = Some (MintBurnJSON (MintBurn.mk (Some g))) ∧ g !! account = Some o.
Proof.
  unfold order_of, orders. split.
  - destruct (w !! MintBurnKey) as [[n|[[g|]]|a]|]; simpl; try done.
    intros Hg. by exists g.
  - intros (g & -> & Hg). done.
Qed.

(** The order table after an entry is set. *)
Lemma order_of_insert (w : gmap string bytes) g account o p :
  order_of (<[MintBurnKey := MintBurnJSON (MintBurn.mk (Some (<[account := o]> g)))]> w) p
  = if decide (p = account) then Some o else g !! p.
Proof.
  unfold order_of, orders. rewrite lookup_insert_eq. simpl.
  case_decide as Hp; [subst; apply lookup_insert_eq | by rewrite lookup_insert_ne].
Qed.

(** A decision written as the four methods write it is a decision in the
    sense of [decides]. *)
Lemma decides_intro (op : Context → string → tx unit) kind verdict :
  (∀ ctx account (w w' : gmap string bytes),
     invoke (op ctx account) w = (Ok tt, w') ↔
     GetMSPID ctx = "Org1MSP" ∧
     ∃ g q, w !! MintBurnKey = Some (MintBurnJSON (MintBurn.mk (Some g))) ∧
            g !! account = Some (St_am.mk kind q stateOrder) ∧
            w' = <[MintBurnKey :=
                     MintBurnJSON (MintBurn.mk
                       (Some (<[account := St_am.mk kind q verdict]> g)))]> w) →
  decides op kind verdict.
Proof.
  intros Hop ctx account w. split; [split|].
  - intros Hok. apply invoke_after, Hop in Hok as (Horg & g & q & Hw & Hg & _).
    split; [done|]. exists q. apply order_of_Some. by exists g.
  - intros (Horg & q & Ho). apply order_of_Some in Ho as (g & Hw & Hg).
    assert (H : invoke (op ctx account) w
                = (Ok tt, <[MintBurnKey :=
                     MintBurnJSON (MintBurn.mk
                       (Some (<[account := St_am.mk kind q verdict]> g)))]> w)).
    { apply Hop. split; [done|]. by exists g, q. }
    by rewrite H.
  - intros w' Hok. apply Hop in Hok as (Horg & g & q & Hw & Hg & ->).
    exists q. split; [apply order_of_Some; by exists g|].
    split; [rewrite order_of_insert; by rewrite decide_True|].
    split.
    + intros p Hp. rewrite order_of_insert. rewrite decide_False by done.
      unfold order_of, orders. by rewrite Hw.
    + intros key Hk. by rewrite lookup_insert_ne.
Qed.

(** One proof for the four methods: run the method on each kind of
    stored table. *)
Ltac decision_run :=
  intros ctx account w w'; unfold invoke; tx_unfold;
  destruct (decide (GetMSPID ctx = "Org1MSP")) as [Horg|Horg]; cycle 1;
  [ rewrite decide_True by done; split; [done | by intros [? _]] |];
  rewrite decide_False by (by intros []);
  cbv beta iota zeta; rewrite read_fresh;
  destruct (w !! MintBurnKey) as [[n|[[g|]]|a]|] eqn:Hw; simpl;
  try (split; [done | by intros (_ & g' & q' & ? & _)]);
  destruct (g !! account) as [[k q s]|] eqn:Hg; simpl;
  [| split; [done | by intros (_ & g' & q' & ? & ? & _); simplify_eq] ];
  repeat (case_decide;
          [ split; [done | intros (_ & g' & q' & ? & ? & _); by simplify_eq/=] |]);
  subst; split;
  [ intros [= <-]; split; [done|]; by exists g, q
  | intros (_ & g' & q' & ? & ? & ->); by simplify_eq/= ].

Lemma ApproveMint_Ok :
  ∀ ctx account (w w' : gmap string bytes),
    invoke (SmartContract.ApproveMint ctx account) w = (Ok tt, w') ↔
    GetMSPID ctx = "Org1MSP" ∧
    ∃ g q, w !! MintBurnKey = Some (MintBurnJSON (MintBurn.mk (Some g))) ∧
           g !! account = Some (St_am.mk "Mint" q stateOrder) ∧
           w' = <[MintBurnKey :=
                    MintBurnJSON (MintBurn.mk
                      (Some (<[account := St_am.mk "Mint" q stateApproved]> g)))]> w.
Proof. unfold SmartContract.ApproveMint. decision_run. Qed.

Lemma RejectMint_Ok :
  ∀ ctx account (w w' : gmap string bytes),
    invoke (SmartContract.RejectMint ctx account) w = (Ok tt, w') ↔
    GetMSPID ctx = "Org1MSP" ∧
    ∃ g q, w !! MintBurnKey = Some (MintBurnJSON (MintBurn.mk (Some g))) ∧
           g !! account = Some (St_am.mk "Mint" q stateOrder) ∧
           w' = <[MintBurnKey :=
                    MintBurnJSON (MintBurn.mk
                      (Some (<[account := St_am.mk "Mint" q stateRejected]> g)))]> w.
Proof. unfold SmartContract.RejectMint. decision_run. Qed.

Lemma ApproveBurn_Ok :
  ∀ ctx account (w w' : gmap string bytes),
    invoke (SmartContract.ApproveBurn ctx account) w = (Ok tt, w') ↔
    GetMSPID ctx = "Org1MSP" ∧
    ∃ g q, w !! MintBurnKey = Some (MintBurnJSON (MintBurn.mk (Some g))) ∧
           g !! account = Some (St_am.mk "Burn" q stateOrder) ∧
           w' = <[MintBurnKey :=
                    MintBurnJSON (MintBurn.mk
                      (Some (<[account := St_am.mk "Burn" q stateApproved]> g)))]> w.
Proof. unfold SmartContract.ApproveBurn. decision_run. Qed.

Lemma RejectBurn_Ok :
  ∀ ctx account (w w' : gmap string bytes),
    invoke (SmartContract.RejectBurn ctx account) w = (Ok tt, w') ↔
    GetMSPID ctx = "Org1MSP" ∧
    ∃ g q, w !! MintBurnKey = Some (MintBurnJSON (MintBurn.mk (Some g))) ∧
           g !! account = Some (St_am.mk "Burn" q stateOrder) ∧
           w' = <[MintBurnKey :=
                    MintBurnJSON (MintBurn.mk
                      (Some (<[account := St_am.mk "Burn" q stateRejected]> g)))]> w.
Proof. unfold SmartContract.RejectBurn. decision_run. Qed.

(** X12.  The four decisions of the administrator.  [ApproveMint] and
    [RejectMint] act on orders of kind Mint, [ApproveBurn] and
    [RejectBurn] on orders of kind Burn; each succeeds exactly when the
    caller is of Org1MSP and the account named has an order of that kind
    in state Ordered, and then sets the state of that order to Approved,
    respectively Rejected, keeping its kind and amount, every other
    order and every other record. *)
Theorem order_decisions :
  decides SmartContract.ApproveMint "Mint" stateApproved ∧
  decides SmartContract.RejectMint "Mint" stateRejected ∧
  decides SmartContract.ApproveBurn "Burn" stateApproved ∧
  decides SmartContract.RejectBurn "Burn" stateRejected.
Proof.
  repeat apply conj; apply decides_intro.
  - apply ApproveMint_Ok.
  - apply RejectMint_Ok.
  - apply ApproveBurn_Ok.
  - apply RejectBurn_Ok.
Qed.





(** X14.  A rejected order cannot be executed.  After [RejectMint] or
    [RejectBurn] has succeeded on the caller's order, [ExecuteMint] and
    [ExecuteBurn] by that principal fail for every amount, before any
    write. *)
Theorem rejected_order_cannot_be_executed ctx ctx' amount (w w' : gmap string bytes) :
  invoke (SmartContract.RejectMint ctx (GetID ctx')) w = (Ok tt, w') ∨
  invoke (SmartContract.RejectBurn ctx (GetID ctx')) w = (Ok tt, w') →
  (∃ e, SmartContract.ExecuteMint ctx' amount (mkStub w' [] None)
        = (Err e, mkStub w' [] None)) ∧
  (∃ e, SmartContract.ExecuteBurn ctx' amount (mkStub w' [] None)
        = (Err e, mkStub w' [] None)).
Proof.
  intros Hrej.
  assert (Hst : ∃ kind q, order_of w' (GetID ctx') = Some (St_am.mk kind q stateRejected)).
  { destruct Hrej as [H|H].
    - destruct (decides_intro _ _ _ RejectMint_Ok ctx (GetID ctx') w) as [_ Heff].
      destruct (Heff w' H) as (q & _ & Ho & _). by exists "Mint", q.
    - destruct (decides_intro _ _ _ RejectBurn_Ok ctx (GetID ctx') w) as [_ Heff].
      destruct (Heff w' H) as (q & _ & Ho & _). by exists "Burn", q. }
  destruct Hst as (kind & q & Ho). split.
  - apply ExecuteMint_refused. rewrite Ho. by intros [= _ _ Hs].
  - apply ExecuteBurn_refused. rewrite Ho. by intros [= _ _ Hs].
Qed.

Lemma rejected_order_cannot_be_executed_witness :
  let w := after (SmartContract.OrderMint (bob false) 10)
             (after (SmartContract.CreateAccount (bob false)) ∅) in
  let w' := after (SmartContract.RejectMint (alice false) "bob") w in
  (∃ e, SmartContract.ExecuteMint (bob false) 10 (mkStub w' [] None)
        = (Err e, mkStub w' [] None)) ∧
  (∃ e, SmartContract.ExecuteBurn (bob false) 10 (mkStub w' [] None)
        = (Err e, mkStub w' [] None)).
Proof.
  intros w w'.
  apply (rejected_order_cannot_be_executed (alice false) (bob false) 10 w w').
  left. apply invoke_after. vm_compute. reflexivity.
Defined.

(** What a successful [OrderMint] requires and writes. *)
Lemma OrderMint_Ok ctx amount (w w' : gmap string bytes) :
  invoke (SmartContract.OrderMint ctx amount) w = (Ok tt, w') ↔
  w !! GetID ctx ≠ None ∧
  ∃ g, (w !! MintBurnKey = None ∧ g = ∅ ∨
        w !! MintBurnKey = Some (MintBurnJSON (MintBurn.mk (Some g)))) ∧
       w' = <[MintBurnKey := MintBurnJSON (MintBurn.mk
                (Some (<[GetID ctx := St_am.mk "Mint" amount stateOrder]> g)))]> w.
Proof.
  unfold invoke, SmartContract.OrderMint, SmartContract.ClientAccountBalance.
  tx_unfold. cbv beta iota zeta. rewrite read_fresh.
  destruct (decide (w !! GetID ctx = None)) as [Hb|Hb].
  { simpl. split; [done|by intros [? _]]. }
  cbv beta iota zeta. rewrite read_fresh.
  destruct (w !! MintBurnKey) as [[n|[[g|]]|a]|] eqn:Hw; simpl.
  - split; [done|]. by intros (_ & g & [[? _]|?] & _).
  - split.
    + intros [= <-]. split; [done|]. exists g. split; [by right|reflexivity].
    + intros (_ & g' & [[? _]|Hg'] & ->); [done|]. by simplify_eq.
  - split; [done|]. by intros (_ & g & [[? _]|?] & _).
  - split; [done|]. by intros (_ & g & [[? _]|?] & _).
  - split.
    + intros [= <-]. split; [done|]. exists ∅. split; [by left|reflexivity].
    + intros (_ & g' & [[_ ->]|?] & ->); [reflexivity|done].
Qed.

(** X15.  [OrderMint(amount)] succeeds exactly when the caller's balance
    record exists and the order table is either absent or a stored table
    with a map in it; the amount is not examined.  It then records, for
    the caller, an order of kind Mint for that amount in state Ordered,
    in place of whatever order the caller had, and leaves every other
    order and every other record alone; [GetMintOrder] by the same caller
    reads that order back. *)
Theorem OrderMint_effect ctx amount (w : gmap string bytes) :
  GetID ctx ≠ MintBurnKey →
  ((invoke (SmartContract.OrderMint ctx amount) w).1 = Ok tt ↔
   w !! GetID ctx ≠ None ∧ (w !! MintBurnKey = None ∨ orders w ≠ None)) ∧
  (∀ w', invoke (SmartContract.OrderMint ctx amount) w = (Ok tt, w') →
     order_of w' (GetID ctx) = Some (St_am.mk "Mint" amount stateOrder) ∧
     (∀ p, p ≠ GetID ctx → order_of w' p = order_of w p) ∧
     (∀ key, key ≠ MintBurnKey → w' !! key = w !! key) ∧
     invoke (SmartContract.GetMintOrder ctx) w'
     = (Ok (St_am.mk "Mint" amount stateOrder), w')).
Proof.
  intros Hmb. split; [split|].
  - intros Hok. apply invoke_after, OrderMint_Ok in Hok as (Hb & g & Hg & _).
    split; [done|]. destruct Hg as [[? _]|Hw]; [by left|right].
    unfold orders. by rewrite Hw.
  - intros [Hb Ht].
    assert (Hg : ∃ g, w !! MintBurnKey = None ∧ g = ∅ ∨
                      w !! MintBurnKey = Some (MintBurnJSON (MintBurn.mk (Some g)))).
    { destruct Ht as [Hw|Ho]; [exists ∅; by left|].
      unfold orders in Ho.
      destruct (w !! MintBurnKey) as [[n|[[g|]]|a]|]; try done. exists g. by right. }
    destruct Hg as [g Hg].
    assert (H : invoke (SmartContract.OrderMint ctx amount) w
                = (Ok tt, <[MintBurnKey := MintBurnJSON (MintBurn.mk
                     (Some (<[GetID ctx := St_am.mk "Mint" amount stateOrder]> g)))]> w)).
    { apply OrderMint_Ok. split; [done|]. by exists g. }
    by rewrite H.
  - intros w' Hok. apply OrderMint_Ok in Hok as (Hb & g & Hg & ->).
    split; [by rewrite order_of_insert, decide_True|].
    split; [|split].
    + intros p Hp. rewrite order_of_insert, decide_False by done.
      unfold order_of, orders.
      destruct Hg as [[-> ->] | ->]; [by rewrite lookup_empty|done].
    + intros key Hk. by rewrite lookup_insert_ne.
    + unfold invoke, SmartContract.GetMintOrder, SmartContract.ClientAccountBalance.
      tx_unfold. cbv beta iota zeta. rewrite read_fresh.
      rewrite lookup_insert_ne by done. rewrite decide_False by done.
      cbv beta iota zeta. rewrite read_fresh, lookup_insert_eq. simpl.
      rewrite lookup_insert_eq. simpl. reflexivity.
Qed.

Lemma OrderMint_effect_witness :
  let w := ledger_alice_10 false in
  ((invoke (SmartContract.OrderMint (alice false) (-3)) w).1 = Ok tt ↔
   w !! GetID (alice false) ≠ None ∧ (w !! MintBurnKey = None ∨ orders w ≠ None)) ∧
  (∀ w', invoke (SmartContract.OrderMint (alice false) (-3)) w = (Ok tt, w') →
     order_of w' (GetID (alice false)) = Some (St_am.mk "Mint" (-3) stateOrder) ∧
     (∀ p, p ≠ GetID (alice false) → order_of w' p = order_of w p) ∧
     (∀ key, key ≠ MintBurnKey → w' !! key = w !! key) ∧
     invoke (SmartContract.GetMintOrder (alice false)) w'
     = (Ok (St_am.mk "Mint" (-3) stateOrder), w')).
Proof.
  intros w.
  apply (OrderMint_effect (alice false) (-3) w). discriminate.
Defined.

Lemma OrderBurn_Ok_witness :
  let w := after (SmartContract.CreateAccount (alice false)) ∅ in
  let w' := after (SmartContract.OrderBurn (alice false) 4) w in
  w !! GetID (alice false) ≠ None ∧
  order_of w' (GetID (alice false))
  = Some (St_am.mk (match w !! MintBurnKey with None => "Burn" | Some _ => "Mint" end)
            4 stateOrder) ∧
  (∀ principal, principal ≠ GetID (alice false) →
     order_of w' principal = order_of w principal).
Proof.
  intros w w'.
  apply (OrderBurn_Ok (alice false) 4 w w').
  - discriminate.
  - apply invoke_after. vm_compute. reflexivity.
Defined.

(** [ExecuteMint] and [ExecuteBurn] go through on an approved order. *)
Lemma ExecuteMint_run ctx amount g (w : gmap string bytes) :
  GetID ctx ≠ totalSupplyKey → GetID ctx ≠ "" →
  w !! GetID ctx ≠ None → 0 < amount →
  w !! MintBurnKey = Some (MintBurnJSON (MintBurn.mk (Some g))) →
  g !! GetID ctx = Some (St_am.mk "Mint" amount stateApproved) →
  (invoke (SmartContract.ExecuteMint ctx amount) w).1 = Ok tt.
Proof.
  intros Hts Hne Hb Hpos Hw Hg.
  unfold invoke, SmartContract.ExecuteMint, SmartContract.ClientAccountBalance.
  tx_unfold. tx_run. rewrite Hw. simpl. rewrite Hg. simpl.
  rewrite decide_False by (intros [|[|]]; done).
  rewrite Mint_run by done. tx_run. done.
Qed.

Lemma ExecuteBurn_run ctx amount g (w : gmap string bytes) :
  GetMSPID ctx = "Org1MSP" →
  GetID ctx ≠ totalSupplyKey → GetID ctx ≠ "" →
  w !! GetID ctx ≠ None → w !! totalSupplyKey ≠ None → 0 < amount →
  w !! MintBurnKey = Some (MintBurnJSON (MintBurn.mk (Some g))) →
  g !! GetID ctx = Some (St_am.mk "Burn" amount stateApproved) →
  (invoke (SmartContract.ExecuteBurn ctx amount) w).1 = Ok tt.
Proof.
  intros Horg Hts Hne Hb Ht Hpos Hw Hg.
  unfold invoke, SmartContract.ExecuteBurn, SmartContract.ClientAccountBalance.
  tx_unfold. tx_run. rewrite Hw. simpl. rewrite Hg. simpl.
  rewrite decide_False by (intros [|[|]]; done).
  rewrite Burn_run by done. tx_run. done.
Qed.

(** X16.  When the executions go through.  For a caller whose identity
    is a non-empty text other than the two singleton keys,
    [ExecuteMint(amount)] succeeds exactly when the caller's balance
    record exists, the caller's order is an approved Mint order for that
    amount, and the amount is positive.  [ExecuteBurn(amount)] succeeds
    exactly when, besides the same conditions on an approved Burn order,
    the caller is of Org1MSP and the total supply record exists: the
    amount burnt is compared neither with the caller's balance nor with
    the total supply. *)
Theorem ExecuteMint_ExecuteBurn_succeed_iff ctx amount (w : gmap string bytes) :
  GetID ctx ≠ "" → GetID ctx ≠ totalSupplyKey → GetID ctx ≠ MintBurnKey →
  ((invoke (SmartContract.ExecuteMint ctx amount) w).1 = Ok tt ↔
   w !! GetID ctx ≠ None ∧ 0 < amount ∧
   order_of w (GetID ctx) = Some (St_am.mk "Mint" amount stateApproved)) ∧
  ((invoke (SmartContract.ExecuteBurn ctx amount) w).1 = Ok tt ↔
   GetMSPID ctx = "Org1MSP" ∧
   w !! GetID ctx ≠ None ∧ w !! totalSupplyKey ≠ None ∧ 0 < amount ∧
   order_of w (GetID ctx) = Some (St_am.mk "Burn" amount stateApproved)).
Proof.
  intros Hne Hts Hmb. split; split.
  - intros Hok.
    assert (Hpos : 0 < amount).
    { revert Hok. unfold invoke, SmartContract.ExecuteMint,
        SmartContract.ClientAccountBalance. tx_unfold.
      cbv beta iota zeta. rewrite read_fresh. case_decide; [done|].
      cbv beta iota zeta. rewrite read_fresh.
      destruct (json_Unmarshal_MintBurn _) as [m|e]; [|done]. simpl.
      case_decide; [done|].
      destruct (Mint_result ctx amount w None Hts) as [[e He]|(Hpos & _)]; [|done].
      cbv beta iota zeta. by rewrite He. }
    apply invoke_after in Hok.
    apply ExecuteMint_Ok in Hok as (g & Hw & Hg & Hb & _); [|done..].
    split; [done|]. split; [done|]. apply order_of_Some. by exists g.
  - intros (Hb & Hpos & Ho). apply order_of_Some in Ho as (g & Hw & Hg).
    by eapply ExecuteMint_run.
  - intros Hok.
    assert (Hrun : GetMSPID ctx = "Org1MSP" ∧ 0 < amount ∧ w !! totalSupplyKey ≠ None).
    { revert Hok. unfold invoke, SmartContract.ExecuteBurn,
        SmartContract.ClientAccountBalance. tx_unfold.
      cbv beta iota zeta. rewrite read_fresh. case_decide; [done|].
      cbv beta iota zeta. rewrite read_fresh.
      destruct (json_Unmarshal_MintBurn _) as [m|e]; [|done]. simpl.
      case_decide; [done|].
      destruct (Burn_result ctx amount w None Hts)
        as [(e & s & He)|(Horg & Hpos & _ & _ & Ht & _)]; [|done].
      cbv beta iota zeta. by rewrite He. }
    destruct Hrun as (Horg & Hpos & Ht).
    apply invoke_after in Hok.
    apply ExecuteBurn_Ok in Hok as (g & Hw & Hg & Hb & _); [|done..].
    repeat (split; [done|]). apply order_of_Some. by exists g.
  - intros (Horg & Hb & Ht & Hpos & Ho). apply order_of_Some in Ho as (g & Hw & Hg).
    by eapply ExecuteBurn_run.
Qed.

Lemma ExecuteMint_ExecuteBurn_succeed_iff_witness :
  (invoke (SmartContract.ExecuteMint (alice false) 10) (ledger_mint_approved false)).1
  = Ok tt.
Proof.
  apply (ExecuteMint_ExecuteBurn_succeed_iff (alice false) 10 (ledger_mint_approved false));
    [discriminate..|].
  vm_compute. repeat apply conj; first [reflexivity | discriminate].
Defined.

(** X17.  The mint workflow runs to its end.  For a principal whose
    identity is a non-empty text other than the two singleton keys,
    whose account exists, on a ledger whose order table is absent or
    well-formed: [OrderMint] of a positive amount, [ApproveMint] of that
    account by a caller of Org1MSP, and [ExecuteMint] of the same amount
    all succeed in turn; afterwards the principal's balance and the
    total supply are both up by the amount (in [int] arithmetic), the
    principal has no order left, and the orders of all other principals
    are as they were. *)
Theorem mint_workflow ctx admin amount (w : gmap string bytes) :
  client_identity (GetID ctx) → GetID ctx ≠ "" →
  GetMSPID admin = "Org1MSP" →
  0 < amount →
  w !! GetID ctx ≠ None →
  w !! MintBurnKey = None ∨ orders w ≠ None →
  ∃ w1 w2 w3,
    invoke (SmartContract.OrderMint ctx amount) w = (Ok tt, w1) ∧
    invoke (SmartContract.ApproveMint admin (GetID ctx)) w1 = (Ok tt, w2) ∧
    invoke (SmartContract.ExecuteMint ctx amount) w2 = (Ok tt, w3) ∧
    balance w3 (GetID ctx) = wrap (balance w (GetID ctx) + amount) ∧
    totalSupply w3 = wrap (totalSupply w + amount) ∧
    order_of w3 (GetID ctx) = None ∧
    (∀ p, p ≠ GetID ctx → order_of w3 p = order_of w p).
Proof.
  intros (Hn & Hts & Hmb) Hne Horg Hpos Hb Ht.
  assert (Hkk : MintBurnKey ≠ totalSupplyKey) by done.
  assert (Hg : ∃ g, (w !! MintBurnKey = None ∧ g = ∅ ∨
                     w !! MintBurnKey = Some (MintBurnJSON (MintBurn.mk (Some g)))) ∧
                    ∀ p, order_of w p = g !! p).
  { unfold order_of, orders in *.
    destruct (w !! MintBurnKey) as [[n|[[g|]]|a]|]; try (by destruct Ht).
    - exists g. split; [by right|done].
    - exists ∅. split; [by left|]. intros p. by rewrite lookup_empty. }
  destruct Hg as (g & Hg & Hord).
  set (o1 := St_am.mk "Mint" amount stateOrder).
  set (o2 := St_am.mk "Mint" amount stateApproved).
  set (w1 := <[MintBurnKey := MintBurnJSON (MintBurn.mk (Some (<[GetID ctx := o1]> g)))]> w).
  set (w2 := <[MintBurnKey :=
                 MintBurnJSON (MintBurn.mk
                   (Some (<[GetID ctx := o2]> (<[GetID ctx := o1]> g))))]> w1).
  assert (H1 : invoke (SmartContract.OrderMint ctx amount) w = (Ok tt, w1)).
  { apply OrderMint_Ok. split; [done|]. by exists g. }
  assert (H2 : invoke (SmartContract.ApproveMint admin (GetID ctx)) w1 = (Ok tt, w2)).
  { apply ApproveMint_Ok. split; [done|]. exists (<[GetID ctx := o1]> g), amount.
    split; [apply lookup_insert_eq|]. split; [apply lookup_insert_eq|done]. }
  assert (Hw2 : w2 !! MintBurnKey
                = Some (MintBurnJSON (MintBurn.mk
                          (Some (<[GetID ctx := o2]> (<[GetID ctx := o1]> g))))))
    by apply lookup_insert_eq.
  assert (Hw2k : ∀ key, key ≠ MintBurnKey → w2 !! key = w !! key).
  { intros key Hk. unfold w2, w1. by rewrite !lookup_insert_ne. }
  assert (H3 : (invoke (SmartContract.ExecuteMint ctx amount) w2).1 = Ok tt).
  { eapply ExecuteMint_run; try done.
    - by rewrite Hw2k.
    - apply lookup_insert_eq. }
  apply invoke_after in H3.
  exists w1, w2, (after (SmartContract.ExecuteMint ctx amount) w2).
  split; [done|]. split; [done|]. split; [done|].
  apply ExecuteMint_Ok in H3 as (g2 & Hw2' & _ & _ & ->); [|done..].
  rewrite Hw2 in Hw2'. injection Hw2' as <-.
  assert (Hb2 : balance w2 (GetID ctx) = balance w (GetID ctx))
    by (unfold balance; by rewrite Hw2k).
  assert (Ht2 : totalSupply w2 = totalSupply w) by (unfold totalSupply; by rewrite Hw2k).
  rewrite Hb2, Ht2. split; [|split; [|split]].
  - unfold balance at 1. rewrite !lookup_insert_ne, lookup_insert_eq by done.
    simpl. apply clamp_wrap.
  - unfold totalSupply at 1. rewrite lookup_insert_ne, lookup_insert_eq by done.
    simpl. apply clamp_wrap.
  - unfold order_of, orders. rewrite lookup_insert_eq. simpl. apply lookup_delete_eq.
  - intros p Hp. rewrite Hord. unfold order_of, orders. rewrite lookup_insert_eq. simpl.
    rewrite lookup_delete_ne by done. by rewrite !lookup_insert_ne.
Qed.

Lemma mint_workflow_witness :
  ∃ w1 w2 w3,
    invoke (SmartContract.OrderMint (bob false) 7) (ledger_burn_approved false) = (Ok tt, w1) ∧
    invoke (SmartContract.ApproveMint (alice false) (GetID (bob false))) w1 = (Ok tt, w2) ∧
    invoke (SmartContract.ExecuteMint (bob false) 7) w2 = (Ok tt, w3) ∧
    balance w3 (GetID (bob false))
    = wrap (balance (ledger_burn_approved false) (GetID (bob false)) + 7) ∧
    totalSupply w3 = wrap (totalSupply (ledger_burn_approved false) + 7) ∧
    order_of w3 (GetID (bob false)) = None ∧
    (∀ p, p ≠ GetID (bob false) →
       order_of w3 p = order_of (ledger_burn_approved false) p).
Proof.
  apply (mint_workflow (bob false) (alice false) 7 (ledger_burn_approved false)).
  - vm_compute. repeat apply conj; first [reflexivity | discriminate].
  - discriminate.
  - reflexivity.
  - reflexivity.
  - vm_compute. discriminate.
  - right. vm_compute. discriminate.
Defined.

(** X18.  What the administrator is shown.  On a ledger with an order
    table, [GetMintOrders] by a caller of Org1MSP answers exactly the
    orders of kind Mint in state Ordered, and [GetBurnOrders] exactly
    those of kind Burn in state Ordered, each under the account that
    placed it; for any other caller both fail. *)
Theorem GetMintOrders_GetBurnOrders_content ctx g (w : gmap string bytes) :
  w !! MintBurnKey = Some (MintBurnJSON (MintBurn.mk (Some g))) →
  (GetMSPID ctx = "Org1MSP" →
   (∃ gm, invoke (SmartContract.GetMintOrders ctx) w = (Ok (Some gm), w) ∧
          ∀ p o, gm !! p = Some o ↔
                 g !! p = Some o ∧ St_am.MintBurn o = "Mint" ∧ St_am.State o = stateOrder) ∧
   (∃ gb, invoke (SmartContract.GetBurnOrders ctx) w = (Ok (Some gb), w) ∧
          ∀ p o, gb !! p = Some o ↔
                 g !! p = Some o ∧ St_am.MintBurn o = "Burn" ∧ St_am.State o = stateOrder)) ∧
  (GetMSPID ctx ≠ "Org1MSP" →
   invoke (SmartContract.GetMintOrders ctx) w
   = (Err "client is not authorized to get mint orders", w) ∧
   invoke (SmartContract.GetBurnOrders ctx) w
   = (Err "client is not authorized to get burn orders", w)).
Proof.
  intros Hw. split.
  - intros Horg.
    assert (Hsel : ∀ kind,
      ∃ gk, SmartContract.range_delete
              (λ value, if decide (St_am.MintBurn value ≠ kind) then true
                        else if decide (St_am.State value ≠ stateOrder) then true
                        else false) (Some g) = Some gk ∧
            ∀ p o, gk !! p = Some o ↔
                   g !! p = Some o ∧ St_am.MintBurn o = kind ∧ St_am.State o = stateOrder).
    { intros kind.
      set (drop := λ value : St_am.t,
             if decide (St_am.MintBurn value ≠ kind) then true
             else if decide (St_am.State value ≠ stateOrder) then true
             else false).
      exists (map_fold (λ key value acc, if drop value then delete key acc else acc) g g).
      split; [reflexivity|]. intros p o.
      pose proof (range_delete_lookup drop g p) as Hl.
      unfold SmartContract.range_delete in Hl. simpl in Hl. rewrite Hl. unfold drop.
      destruct (g !! p) as [v|]; [|split; [done|by intros [? _]]].
      destruct (decide (St_am.MintBurn v ≠ kind)) as [Hk|Hk].
      { split; [done|]. intros ([= ->] & Hk' & _). done. }
      destruct (decide (St_am.State v ≠ stateOrder)) as [Hs|Hs].
      { split; [done|]. intros ([= ->] & _ & Hs'). done. }
      apply dec_stable in Hk, Hs. split; [by intros [= ->]|by intros [? _]]. }
    split.
    + destruct (Hsel "Mint") as (gm & Hr & Hgm). exists gm. split; [|done].
      unfold invoke, SmartContract.GetMintOrders. tx_unfold.
      rewrite decide_False by (by intros []).
      cbv beta iota zeta. rewrite read_fresh, Hw. simpl.
      simpl in Hr. by injection Hr as ->.
    + destruct (Hsel "Burn") as (gb & Hr & Hgb). exists gb. split; [|done].
      unfold invoke, SmartContract.GetBurnOrders. tx_unfold.
      rewrite decide_False by (by intros []).
      cbv beta iota zeta. rewrite read_fresh, Hw. simpl.
      simpl in Hr. by injection Hr as ->.
  - intros Horg. split.
    + unfold invoke, SmartContract.GetMintOrders. by rewrite decide_True.
    + unfold invoke, SmartContract.GetBurnOrders. by rewrite decide_True.
Qed.

Lemma GetMintOrders_GetBurnOrders_content_witness :
  let w := after (SmartContract.OrderMint (bob false) 10)
             (after (SmartContract.CreateAccount (bob false)) ∅) in
  let g : gmap string St_am.t := <["bob" := St_am.mk "Mint" 10 stateOrder]> ∅ in
  (GetMSPID (alice false) = "Org1MSP" →
   (∃ gm, invoke (SmartContract.GetMintOrders (alice false)) w = (Ok (Some gm), w) ∧
          ∀ p o, gm !! p = Some o ↔
                 g !! p = Some o ∧ St_am.MintBurn o = "Mint" ∧ St_am.State o = stateOrder) ∧
   (∃ gb, invoke (SmartContract.GetBurnOrders (alice false)) w = (Ok (Some gb), w) ∧
          ∀ p o, gb !! p = Some o ↔
                 g !! p = Some o ∧ St_am.MintBurn o = "Burn" ∧ St_am.State o = stateOrder)) ∧
  (GetMSPID (alice false) ≠ "Org1MSP" →
   invoke (SmartContract.GetMintOrders (alice false)) w
   = (Err "client is not authorized to get mint orders", w) ∧
   invoke (SmartContract.GetBurnOrders (alice false)) w
   = (Err "client is not authorized to get burn orders", w)).
Proof.
  intros w g.
  apply (GetMintOrders_GetBurnOrders_content (alice false) g w).
  vm_compute. reflexivity.
Defined.

(** * Further properties of the auction *)

Lemma CreateAuction_Ok_witness :
  ∃ a, after (SmartContract.CreateAuction endorsement_ok (alice false) "a1" 5 10 60)
         ledger_bidders
       = <["a1" := AuctionJSON a]> ledger_bidders ∧
       Auction.Seller a = GetID (alice false) ∧ Auction.Status a = "open" ∧
       Auction.Amount a = 10 ∧ Auction.PricePerKWh a = 5 ∧
       Auction.RevealedBids a = ∅ ∧ reserve_intact a.
Proof.
  apply (CreateAuction_Ok endorsement_ok (alice false) "a1" 5 10 60 ledger_bidders).
  apply invoke_after. vm_compute. reflexivity.
Defined.

Lemma Bid_Rev_replaces_earlier_bid_witness :
  let w := ledger_auction false in
  let w1 := after (bid_bob false) w in
  let w2 := after (bid_carol false) w1 in
  ∃ a a2,
    w !! "a1" = Some (AuctionJSON a) ∧
    w2 !! "a1" = Some (AuctionJSON a2) ∧
    Auction.RevealedBids a2
    = <[bid_key "a1" :=
          FullBid.mk (Auction.ItemSold a) 80 (GetMSPID (carol false)) (GetID (carol false))]>
        (Auction.RevealedBids a).
Proof.
  intros w w1 w2.
  apply (Bid_Rev_replaces_earlier_bid no_unrevealed_bid in_map_order endorsement_ok member
           (bob false) (carol false) "a1" 60 80 w w1 w2).
  - discriminate.
  - discriminate.
  - apply invoke_after. vm_compute. reflexivity.
  - apply invoke_after. vm_compute. reflexivity.
Defined.

(** ** Bidding, continued *)




(** ** The life cycle of an auction *)

(** X22.  The guards of the life cycle.  On a stored auction that is not
    open, [Bid_Rev], [CloseAuction] and [CheckAuction] fail; on one that
    is not closed, or that holds no revealed bid, [EndAuction] fails;
    and [CloseAuction] and [EndAuction] fail for every caller but the
    seller.  In each case nothing has been written when the error is
    returned. *)
Theorem auction_guards queryAllBids range_order addEndorsement contains
    ctx auctionID amount a (w : gmap string bytes) :
  w !! auctionID = Some (AuctionJSON a) →
  let s := mkStub w [] None in
  (Auction.Status a ≠ "open" →
   SmartContract.Bid_Rev queryAllBids range_order addEndorsement contains
     ctx auctionID amount s = (Err "cannot join closed or ended auction", s) ∧
   (∃ e, SmartContract.CloseAuction ctx auctionID s = (Err e, s)) ∧
   (∃ e, SmartContract.CheckAuction queryAllBids range_order ctx auctionID s = (Err e, s))) ∧
  (Auction.Status a ≠ "closed" ∨ Auction.RevealedBids a = ∅ →
   ∃ e, SmartContract.EndAuction queryAllBids range_order ctx auctionID s = (Err e, s)) ∧
  (Auction.Seller a ≠ GetID ctx →
   SmartContract.CloseAuction ctx auctionID s
   = (Err "auction can only be closed by seller: <nil>", s) ∧
   SmartContract.EndAuction queryAllBids range_order ctx auctionID s
   = (Err "auction can only be ended by seller: <nil>", s)).
Proof.
  intros Hw s. split; [|split].
  - intros Hst. split; [|split].
    + unfold SmartContract.Bid_Rev. tx_unfold. cbv beta iota zeta.
      unfold s. rewrite read_fresh, Hw. simpl. by rewrite decide_True.
    + unfold SmartContract.CloseAuction. tx_unfold. cbv beta iota zeta.
      unfold s. rewrite read_fresh, Hw. simpl.
      destruct (decide (Auction.Seller a ≠ GetID ctx)); [by eexists|].
      rewrite decide_True by done. by eexists.
    + unfold SmartContract.CheckAuction. tx_unfold.
      destruct (decide (GetMSPID ctx ≠ "Org1MSP")); [by eexists|].
      cbv beta iota zeta. unfold s. rewrite read_fresh, Hw. simpl.
      rewrite decide_True by done. by eexists.
  - intros Hno. unfold SmartContract.EndAuction. tx_unfold. cbv beta iota zeta.
    unfold s. rewrite read_fresh, Hw. simpl.
    destruct (decide (Auction.Seller a ≠ GetID ctx)); [by eexists|].
    destruct (decide (Auction.Status a ≠ "closed")); [by eexists|].
    destruct Hno as [Hst|He]; [done|].
    rewrite decide_True by (rewrite He; apply map_size_empty). by eexists.
  - intros Hs. split.
    + unfold SmartContract.CloseAuction. tx_unfold. cbv beta iota zeta.
      unfold s. rewrite read_fresh, Hw. simpl. by rewrite decide_True.
    + unfold SmartContract.EndAuction. tx_unfold. cbv beta iota zeta.
      unfold s. rewrite read_fresh, Hw. simpl. by rewrite decide_True.
Qed.

Lemma auction_guards_witness :
  let s := mkStub ledger_two_bids [] None in
  SmartContract.Bid_Rev no_unrevealed_bid in_map_order endorsement_ok member
    (bob false) "a2" 60 s = (Err "cannot join closed or ended auction", s) ∧
  SmartContract.EndAuction no_unrevealed_bid in_map_order (bob false) "a2" s
  = (Err "auction can only be ended by seller: <nil>", s).
Proof.
  intros s.
  destruct (auction_guards no_unrevealed_bid in_map_order endorsement_ok member
              (bob false) "a2" 60 auction_two_bids ledger_two_bids)
    as (Hopen & _ & Hseller); [apply lookup_insert_eq|].
  split.
  - apply Hopen. discriminate.
  - apply Hseller. discriminate.
Defined.

(** X23.  Ending an auction removes it.  A successful [EndAuction]
    writes the record with its outcome and then deletes the key, so the
    world state it leaves is the one before with the auction record
    gone: the outcome is not kept, no balance and no hold has moved, and
    every later [EndAuction], [CloseAuction] or [Bid_Rev] on that
    auction fails for want of the record. *)
Theorem EndAuction_deletes_record queryAllBids range_order ctx auctionID
    (w w' : gmap string bytes) :
  invoke (SmartContract.EndAuction queryAllBids range_order ctx auctionID) w = (Ok tt, w') →
  w' = delete auctionID w ∧
  stored_auction w' auctionID = None ∧
  (∀ account, account ≠ auctionID →
     balance w' account = balance w account) ∧
  (∀ holder, hold_key holder ≠ auctionID → on_hold w' holder = on_hold w holder) ∧
  ∀ ctx' addEndorsement contains amount,
    SmartContract.EndAuction queryAllBids range_order ctx' auctionID (mkStub w' [] None)
    = (Err ("Auction interest object " +:+ auctionID +:+ " not found"), mkStub w' [] None) ∧
    SmartContract.CloseAuction ctx' auctionID (mkStub w' [] None)
    = (Err ("Auction interest object " +:+ auctionID +:+ " not found"), mkStub w' [] None) ∧
    SmartContract.Bid_Rev queryAllBids range_order addEndorsement contains
      ctx' auctionID amount (mkStub w' [] None)
    = (Err ("Auction not found: " +:+ auctionID), mkStub w' [] None).
Proof.
  unfold invoke.
  destruct (SmartContract.EndAuction _ _ _ _ _) as [[[]|e] s1] eqn:Hend; [|done].
  apply EndAuction_Ok in Hend as (a & _ & _ & _ & _ & ->).
  intros [= <-]. unfold commit, apply_write. simpl.
  rewrite delete_insert_eq.
  assert (Hgone : delete auctionID w !! auctionID = None) by apply lookup_delete_eq.
  split; [done|]. split; [unfold stored_auction; by rewrite Hgone|].
  split; [intros account Hk; unfold balance; by rewrite lookup_delete_ne|].
  split; [intros holder Hk; unfold on_hold; by rewrite lookup_delete_ne|].
  intros ctx' addEndorsement contains amount. repeat apply conj.
  - unfold SmartContract.EndAuction. tx_unfold. cbv beta iota zeta.
    rewrite read_fresh, Hgone. by rewrite decide_True.
  - unfold SmartContract.CloseAuction. tx_unfold. cbv beta iota zeta.
    rewrite read_fresh, Hgone. by rewrite decide_True.
  - unfold SmartContract.Bid_Rev. tx_unfold. cbv beta iota zeta.
    rewrite read_fresh, Hgone. by rewrite decide_True.
Qed.

Lemma EndAuction_deletes_record_witness :
  let w' := after (SmartContract.EndAuction no_unrevealed_bid in_map_order (alice false) "a2")
              ledger_two_bids in
  w' = delete "a2" ledger_two_bids ∧ stored_auction w' "a2" = None.
Proof.
  intros w'.
  destruct (EndAuction_deletes_record no_unrevealed_bid in_map_order (alice false) "a2"
              ledger_two_bids w') as (Hd & Hs & _); [|by split].
  apply invoke_after. vm_compute. reflexivity.
Defined.



(** X25.  The two copies of [EndAuction].  The package-level function
    called on the expiry paths and the method differ in nothing but the
    text of the error returned when the final record cannot be stored:
    they succeed on the same stubs, leave the same stub behind, and
    coincide outright on every non-empty auction key. *)
Theorem internal_EndAuction_agrees queryAllBids range_order ctx auctionID (s : Stub) :
  (EndAuction queryAllBids range_order ctx auctionID s).2
  = (SmartContract.EndAuction queryAllBids range_order ctx auctionID s).2 ∧
  (∀ u, (EndAuction queryAllBids range_order ctx auctionID s).1 = Ok u ↔
        (SmartContract.EndAuction queryAllBids range_order ctx auctionID s).1 = Ok u) ∧
  (auctionID ≠ "" →
   EndAuction queryAllBids range_order ctx auctionID s
   = SmartContract.EndAuction queryAllBids range_order ctx auctionID s).
Proof.
  unfold EndAuction, SmartContract.EndAuction. tx_unfold. cbv beta iota zeta.
  destruct (decide (read ctx s auctionID = None)); [done|].
  destruct (json_Unmarshal_Auction _) as [a|e]; [|done]. cbv beta iota zeta.
  destruct (decide (Auction.Seller a ≠ GetID ctx)); [done|].
  destruct (decide (Auction.Status a ≠ "closed")); [done|].
  destruct (decide (size (Auction.RevealedBids a) = 0%nat)); [done|].
  cbv beta iota zeta.
  destruct (queryAllBids _ _ _ _ _) as [[]|e]; [|done].
  destruct (decide (auctionID = "")); [|done].
  split; [done|]. split; [done|]. done.
Qed.

(** ** A whole auction *)







(** * An invariant of the order table *)

Lemma orders_ok_table (w : gmap string bytes) g :
  w !! MintBurnKey = Some (MintBurnJSON (MintBurn.mk (Some g))) →
  orders_ok w ↔ ∀ p o, g !! p = Some o → order_ok o.
Proof.
  intros Hw. unfold orders_ok, order_of, orders. rewrite Hw. done.
Qed.

Lemma orders_ok_absent (w : gmap string bytes) :
  w !! MintBurnKey = None → orders_ok w.
Proof.
  intros Hw p o. unfold order_of, orders. by rewrite Hw.
Qed.

Lemma orders_ok_insert (w : gmap string bytes) g p o :
  (∀ p' o', g !! p' = Some o' → order_ok o') → order_ok o →
  orders_ok (<[MintBurnKey := MintBurnJSON (MintBurn.mk (Some (<[p := o]> g)))]> w).
Proof.
  intros Hg Ho.
  apply (orders_ok_table _ (<[p := o]> g)); [apply lookup_insert_eq|].
  intros p' o'. destruct (decide (p' = p)) as [->|Hp].
  - rewrite lookup_insert_eq. by intros [= <-].
  - rewrite lookup_insert_ne by done. apply Hg.
Qed.

(** What a successful [OrderBurn] writes. *)
Lemma OrderBurn_table ctx amount (w w' : gmap string bytes) :
  invoke (SmartContract.OrderBurn ctx amount) w = (Ok tt, w') →
  ∃ g kind,
    (kind = "Burn" ∨ kind = "Mint") ∧
    (w !! MintBurnKey = None ∧ g = ∅ ∨
     w !! MintBurnKey = Some (MintBurnJSON (MintBurn.mk (Some g)))) ∧
    w' = <[MintBurnKey := MintBurnJSON (MintBurn.mk
             (Some (<[GetID ctx := St_am.mk kind amount stateOrder]> g)))]> w.
Proof.
  unfold invoke, SmartContract.OrderBurn, SmartContract.ClientAccountBalance.
  tx_unfold. cbv beta iota zeta. rewrite read_fresh.
  destruct (decide (w !! GetID ctx = None)) as [Hb|Hb]; [done|].
  cbv beta iota zeta. rewrite read_fresh.
  destruct (w !! MintBurnKey) as [[n|[[g|]]|a]|] eqn:Hw; simpl; try done.
  - intros [= <-]. exists g, "Mint". split; [by right|]. split; [by right|reflexivity].
  - intros [= <-]. exists ∅, "Burn". split; [by left|]. split; [by left|reflexivity].
Qed.

(** X28.  The order table keeps its shape.  On a ledger all of whose
    orders are of kind Mint or Burn and in state Ordered, Approved or
    Rejected (as on a ledger without order table), every successful
    [OrderMint], [OrderBurn], [ApproveMint], [RejectMint], [ApproveBurn],
    [RejectBurn], and every successful [ExecuteMint] or [ExecuteBurn] by
    a caller whose identity is neither singleton key, leaves a ledger of
    which the same is true. *)
Theorem orders_stay_well_formed ctx account amount (w w' : gmap string bytes) :
  orders_ok w →
  invoke (SmartContract.OrderMint ctx amount) w = (Ok tt, w') ∨
  invoke (SmartContract.OrderBurn ctx amount) w = (Ok tt, w') ∨
  invoke (SmartContract.ApproveMint ctx account) w = (Ok tt, w') ∨
  invoke (SmartContract.RejectMint ctx account) w = (Ok tt, w') ∨
  invoke (SmartContract.ApproveBurn ctx account) w = (Ok tt, w') ∨
  invoke (SmartContract.RejectBurn ctx account) w = (Ok tt, w') ∨
  (GetID ctx ≠ totalSupplyKey ∧ GetID ctx ≠ MintBurnKey ∧
   (invoke (SmartContract.ExecuteMint ctx amount) w = (Ok tt, w') ∨
    invoke (SmartContract.ExecuteBurn ctx amount) w = (Ok tt, w'))) →
  orders_ok w'.
Proof.
  intros Hok Hop.
  assert (Hold : ∀ g, (w !! MintBurnKey = None ∧ g = ∅ ∨
                       w !! MintBurnKey = Some (MintBurnJSON (MintBurn.mk (Some g)))) →
                      ∀ p o, g !! p = Some o → order_ok o).
  { intros g [[_ ->]|Hw] p o; [by rewrite lookup_empty|].
    by apply (orders_ok_table w g). }
  assert (Hdec : ∀ kind verdict g q,
    (kind = "Mint" ∨ kind = "Burn") →
    (verdict = stateApproved ∨ verdict = stateRejected) →
    w !! MintBurnKey = Some (MintBurnJSON (MintBurn.mk (Some g))) →
    orders_ok (<[MintBurnKey :=
                   MintBurnJSON (MintBurn.mk
                     (Some (<[account := St_am.mk kind q verdict]> g)))]> w)).
  { intros kind verdict g q Hk Hv Hw. apply orders_ok_insert.
    - apply Hold. by right.
    - split; [done|]. simpl. destruct Hv; [right; by left|right; by right]. }
  assert (Hdel : ∀ g w0,
    w !! MintBurnKey = Some (MintBurnJSON (MintBurn.mk (Some g))) →
    orders_ok (<[MintBurnKey :=
                   MintBurnJSON (MintBurn.mk (Some (delete (GetID ctx) g)))]> w0)).
  { intros g w0 Hw.
    apply (orders_ok_table _ (delete (GetID ctx) g)); [apply lookup_insert_eq|].
    intros p o Hp. apply lookup_delete_Some in Hp as [_ Hp].
    revert Hp. apply Hold. by right. }
  destruct Hop as [H|[H|[H|[H|[H|[H|(Hts & Hmb & [H|H])]]]]]].
  - apply OrderMint_Ok in H as (_ & g & Hg & ->).
    apply orders_ok_insert; [by apply Hold|]. split; [by left|by left].
  - apply OrderBurn_table in H as (g & kind & Hk & Hg & ->).
    apply orders_ok_insert; [by apply Hold|].
    split; [simpl; destruct Hk; [by right|by left]|by left].
  - apply ApproveMint_Ok in H as (_ & g & q & Hw & _ & ->).
    apply Hdec; [by left|by left|done].
  - apply RejectMint_Ok in H as (_ & g & q & Hw & _ & ->).
    apply Hdec; [by left|by right|done].
  - apply ApproveBurn_Ok in H as (_ & g & q & Hw & _ & ->).
    apply Hdec; [by right|by left|done].
  - apply RejectBurn_Ok in H as (_ & g & q & Hw & _ & ->).
    apply Hdec; [by right|by right|done].
  - apply ExecuteMint_Ok in H as (g & Hw & _ & _ & ->); [|done..]. by apply Hdel.
  - apply ExecuteBurn_Ok in H as (g & Hw & _ & _ & ->); [|done..]. by apply Hdel.
Qed.

Lemma orders_stay_well_formed_witness :
  orders_ok (after (SmartContract.OrderBurn (alice false) 5)
               (after (SmartContract.OrderBurn (alice false) 4)
                  (after (SmartContract.CreateAccount (alice false)) ∅))).
Proof.
  set (w0 := after (SmartContract.CreateAccount (alice false)) ∅).
  set (w1 := after (SmartContract.OrderBurn (alice false) 4) w0).
  apply (orders_stay_well_formed (alice false) "alice" 5 w1).
  - apply (orders_stay_well_formed (alice false) "alice" 4 w0).
    + apply orders_ok_absent. vm_compute. reflexivity.
    + right. left. apply invoke_after. vm_compute. reflexivity.
  - right. left. apply invoke_after. vm_compute. reflexivity.
Defined.
